(** * Habit tracker front-end: shallow embedding of [static/js/app.js]

    The file [static/js/app.js] holds two successive versions of the
    front-end; the first one (its lines 1-280) is the one embedded here.

    Modelling choices, all taken from the source:
    - the page is a finite map from element ids to elements, so that
      [document.getElementById] is a map lookup that may fail, exactly as
      the guards [if (!canvas || !placeholder) return;] expect; an element
      records what the script writes to it (class list, text, value,
      style, attributes, listeners, children);
    - the three module-level variables [habitChart], [currentHabitId] and
      [currentRange] are fields of the application state;
    - chart instances live in a store indexed by handles, so that a chart
      that was created and never destroyed is observable;
    - [async] functions are run to completion, one at a time: an [await]
      is sequential composition, a rejected promise is a thrown value, and
      [try { .. } catch (err) { .. }] is the [try_catch] combinator;
    - the HTTP server and the charting library are an oracle ([Host]): it
      answers every request, chosen freely per request and per position in
      the sequence of requests; a body is either not JSON or a value of
      the shape the API announces, with the fields the script defends
      against, or dereferences, optional;
    - habit identifiers are the integers the API hands out (the selector's
      change handler reads them back with [parseInt]); [null] is [None];
      the script holds them as numbers, which are these integers as long
      as they are safe integers (below 2^53 in magnitude);
    - a text is the sequence of the bytes of its UTF-8 encoding; the
      white space that [trim] removes is the white space and the line
      terminators of ECMAScript, each recognised by its bytes;
    - a timestamp that is not a date has no time value ([NaN]); the order
      in which [sort] then leaves the journal is the engine's, an oracle;
    - a finite JavaScript number is the rational it denotes: comparison,
      [Math.round], [Math.min], [Math.max] and [toFixed] are exact on it.

    Left out: the timers that remove a toast, the colours read from the
    style sheet, the options that only style the chart, and the reset of
    the zoom. The fill of the actual line, the navigation bar, the theme
    switch and [modal.js] are embedded on their own, after the
    observations on the page. *)

From Stdlib Require Import ZArith QArith Qround Qabs Qminmax Lqa String Ascii List Sorted DecimalString DecimalPos.
From stdpp Require Import gmap strings list.

Set Warnings "-register-all".
Local Open Scope Z_scope.

(** ** JavaScript values and numbers *)

Inductive JsNumber :=
| Finite (q : Q)
| PosInfinity
| NegInfinity
| NaN.

Inductive JsValue :=
| JsUndefined
| JsNull
| JsBool (b : bool)
| JsString (s : string)
| JsNum (n : JsNumber).


Definition Qlt_bool (a b : Q) : bool := negb (Qle_bool b a).

(** [Math.round(x)]: the integer nearest to [x], ties towards +infinity. *)
Definition Math_round (x : Q) : Z := Qfloor (x + (1 # 2)).

Definition Math_min (a b : Z) : Z := Z.min a b.
Definition Math_max (a b : Z) : Z := Z.max a b.

Definition Z_to_string (z : Z) : string := NilZero.string_of_int (Z.to_int z).

Definition Q_is_integer (q : Q) : bool := Z.rem (Qnum q) (Z.pos (Qden q)) =? 0.

Definition Q_abs_lt_1e21 (q : Q) : bool := Qlt_bool (Qabs q) (inject_Z (10 ^ 21)).

(** The truthiness of a string: only the empty string is falsy. *)
Definition truthy_string (s : string) : bool :=
  match s with
  | EmptyString => false
  | _ => true
  end.

(** The truthiness of [currentHabitId] and of an identifier read from a
    payload: [null] and [0] are falsy. *)
Definition truthy_id (i : option Z) : bool :=
  match i with
  | Some n => negb (n =? 0)
  | None => false
  end.

(** ** Strings

    A text is held as the bytes of its UTF-8 encoding. *)

Definition dquote : string := String (ascii_of_nat 34) EmptyString.

(** The white space that [trim] and [parseInt] skip is the WhiteSpace and
    the LineTerminator of ECMAScript. Below U+0080 these are one byte
    each: TAB, LF, VT, FF, CR and the space. *)
Definition is_space (c : ascii) : bool :=
  let n := nat_of_ascii c in
  ((9 <=? n) && (n <=? 13) || (n =? 32))%nat.

(** The no-break space U+00A0, two bytes: C2 A0. *)
Definition is_space2 (a b : ascii) : bool :=
  ((nat_of_ascii a =? 194) && (nat_of_ascii b =? 160))%nat.

(** The white space of three bytes: U+1680 (E1 9A 80); U+2000 to U+200A,
    U+2028, U+2029 and U+202F (E2 80 80 to 8A, A8, A9, AF); U+205F
    (E2 81 9F); U+3000 (E3 80 80); U+FEFF (EF BB BF). *)
Definition is_space3 (a b c : ascii) : bool :=
  let x := nat_of_ascii a in
  let y := nat_of_ascii b in
  let z := nat_of_ascii c in
  ((x =? 225) && ((y =? 154) && (z =? 128))
   || (x =? 226) && ((y =? 128) &&
        ((128 <=? z) && (z <=? 138) || (z =? 168) || (z =? 169) || (z =? 175)))
   || (x =? 226) && ((y =? 129) && (z =? 159))
   || (x =? 227) && ((y =? 128) && (z =? 128))
   || (x =? 239) && ((y =? 187) && (z =? 191)))%nat.

(** [s.trimStart()] *)
Fixpoint trimStart (s : string) : string :=
  match s with
  | String a r1 =>
      if is_space a then trimStart r1
      else
        match r1 with
        | String b r2 =>
            if is_space2 a b then trimStart r2
            else
              match r2 with
              | String c r3 => if is_space3 a b c then trimStart r3 else s
              | EmptyString => s
              end
        | EmptyString => s
        end
  | EmptyString => EmptyString
  end.

(** A text of white space only. *)
Fixpoint blank (s : string) : bool :=
  match s with
  | String a r1 =>
      if is_space a then blank r1
      else
        match r1 with
        | String b r2 =>
            if is_space2 a b then blank r2
            else
              match r2 with
              | String c r3 => if is_space3 a b c then blank r3 else false
              | EmptyString => false
              end
        | EmptyString => false
        end
  | EmptyString => true
  end.

(** [s.trimEnd()]: the longest suffix of white space is dropped. *)
Fixpoint trimEnd (s : string) : string :=
  match s with
  | String a r => if blank s then EmptyString else String a (trimEnd r)
  | EmptyString => EmptyString
  end.

(** [s.trim()] *)
Definition trim (s : string) : string := trimEnd (trimStart s).

Fixpoint rev_string (s acc : string) : string :=
  match s with
  | String c r => rev_string r (String c acc)
  | EmptyString => acc
  end.

(** [s.slice(n)] for a non-negative [n]. *)
Fixpoint slice (n : nat) (s : string) : string :=
  match n, s with
  | O, _ => s
  | S k, String _ r => slice k r
  | S _, EmptyString => EmptyString
  end.

(** [xs.join(sep)] *)
Fixpoint join (sep : string) (xs : list string) : string :=
  match xs with
  | [] => EmptyString
  | [x] => x
  | x :: r => x +:+ sep +:+ join sep r
  end.

(** [s.split(',')] *)
Fixpoint split_comma (s cur : string) : list string :=
  match s with
  | EmptyString => [rev_string cur EmptyString]
  | String c r =>
      if Ascii.eqb c ","%char
      then rev_string cur EmptyString :: split_comma r EmptyString
      else split_comma r (String c cur)
  end.

Definition digit_of (c : ascii) : option Z :=
  let n := nat_of_ascii c in
  if ((48 <=? n) && (n <=? 57))%nat then Some (Z.of_nat n - 48) else None.

Fixpoint parse_digits (s : string) (acc : option Z) : option Z :=
  match s with
  | EmptyString => acc
  | String c r =>
      match digit_of c with
      | Some d => parse_digits r (Some (10 * default 0 acc + d))
      | None => acc
      end
  end.

(** [parseInt(s, 10)]; [None] is [NaN]. The value is the integer that the
    digits denote; the code has the double nearest to it, which is the
    same integer as long as it is below 2^53 in magnitude. *)
Definition parseInt (s : string) : option Z :=
  match trimStart s with
  | String "-" r => Z.opp <$> parse_digits r None
  | String "+" r => parse_digits r None
  | t => parse_digits t None
  end.

(** ** Payloads of the HTTP API *)

Record Habit := {
  id : Z;
  name : string;
  color : option string;
  target_per_week : JsValue;
  completed : bool;
  streak : JsValue;
  best_streak : JsValue;
  score : JsValue }.

Record HabitSnapshot := {
  snap_name : string;
  snap_color : option string;
  snap_target_per_week : JsValue }.

(** The progress payload; [dates] and [habit] are [None] when the field is
    missing, which makes [data.dates.map] and [data.habit.color] throw. *)
Record Progress := {
  dates : option (list string);
  ideal : list Q;
  actual : list Q;
  habit : option HabitSnapshot }.

Record IdealSelf := {
  vision : option string;
  focus_areas : option (list string) }.

Record Entry := {
  content : string;
  timestamp : string }.

(** The body of the answer to [POST /api/habits]; [created_id] is [None]
    when the body carries no id. *)
Record Created := { created_id : option Z }.

Inductive Request :=
| GetHabits
| PostDemoReset
| GetIdealSelf
| PostIdealSelf (v : string) (focus : list string)
| GetJournal
| PostJournal (c : string)
| PostHabit (n c : string) (target : option Z)
| PutHabit (i : Z) (done : bool)
| GetProgress (i : Z) (days : Z).

Definition request_method (r : Request) : string :=
  match r with
  | GetHabits | GetIdealSelf | GetJournal | GetProgress _ _ => "GET"
  | PostDemoReset | PostIdealSelf _ _ | PostJournal _ | PostHabit _ _ _ => "POST"
  | PutHabit _ _ => "PUT"
  end.

Definition request_url (r : Request) : string :=
  match r with
  | GetHabits | PostHabit _ _ _ => "/api/habits"
  | PostDemoReset => "/api/demo/reset"
  | GetIdealSelf | PostIdealSelf _ _ => "/api/idealself"
  | GetJournal | PostJournal _ => "/api/journal"
  | PutHabit i _ => "/api/habits/" +:+ Z_to_string i
  | GetProgress i d =>
      "/api/habits/" +:+ Z_to_string i +:+ "/progress?days=" +:+ Z_to_string d
  end.

Definition Payload (r : Request) : Type :=
  match r with
  | GetHabits => list Habit
  | GetIdealSelf => IdealSelf
  | GetJournal => list Entry
  | PostHabit _ _ _ => Created
  | GetProgress _ _ => Progress
  | PostDemoReset | PostIdealSelf _ _ | PostJournal _ | PutHabit _ _ => unit
  end.

(** What [res.json()] does: it rejects, or it yields the payload. *)
Inductive Json (A : Type) :=
| JsonError
| JsonValue (a : A).
Arguments JsonError {A}.
Arguments JsonValue {A} a.

(** What [fetch] does: it rejects, or it resolves to a response. *)
Inductive FetchResult (A : Type) :=
| NetworkError
| Response (ok : bool) (body : Json A).
Arguments NetworkError {A}.
Arguments Response {A} ok body.

(** ** The page *)

(** The closures registered with [addEventListener], by what they capture. *)
Inductive Handler :=
| ToggleCompletion (h : Habit)
| ViewProgress (habits : list Habit) (h : Habit)
| SelectRange (range : Z).

Inductive Element := mkElement {
  tagName : string;
  classList : list string;
  textContent : string;
  innerHTML : string;
  value : string;
  defaultValue : string;
  disabled : bool;
  selected : bool;
  style : gmap string string;
  attributes : gmap string string;
  onclick : option Handler;
  children : list Element }.

(** [document.createElement(tag)] *)
Definition createElement (tag : string) : Element :=
  mkElement tag [] "" "" "" "" false false ∅ ∅ None [].

Definition set_classList (v : list string) (e : Element) : Element :=
  mkElement (tagName e) v (textContent e) (innerHTML e) (value e) (defaultValue e)
    (disabled e) (selected e) (style e) (attributes e) (onclick e) (children e).

(** [e.textContent = v] replaces whatever the element held. *)
Definition set_textContent (v : string) (e : Element) : Element :=
  mkElement (tagName e) (classList e) v "" (value e) (defaultValue e)
    (disabled e) (selected e) (style e) (attributes e) (onclick e) [].

(** [e.innerHTML = v] *)
Definition set_innerHTML (v : string) (e : Element) : Element :=
  mkElement (tagName e) (classList e) "" v (value e) (defaultValue e)
    (disabled e) (selected e) (style e) (attributes e) (onclick e) [].

Definition set_value (v : string) (e : Element) : Element :=
  mkElement (tagName e) (classList e) (textContent e) (innerHTML e) v (defaultValue e)
    (disabled e) (selected e) (style e) (attributes e) (onclick e) (children e).

Definition set_disabled (v : bool) (e : Element) : Element :=
  mkElement (tagName e) (classList e) (textContent e) (innerHTML e) (value e)
    (defaultValue e) v (selected e) (style e) (attributes e) (onclick e) (children e).

Definition set_selected (v : bool) (e : Element) : Element :=
  mkElement (tagName e) (classList e) (textContent e) (innerHTML e) (value e)
    (defaultValue e) (disabled e) v (style e) (attributes e) (onclick e) (children e).

(** [e.style.prop = v] *)
Definition set_style (prop v : string) (e : Element) : Element :=
  mkElement (tagName e) (classList e) (textContent e) (innerHTML e) (value e)
    (defaultValue e) (disabled e) (selected e) (<[prop := v]> (style e))
    (attributes e) (onclick e) (children e).

Definition setAttribute (a v : string) (e : Element) : Element :=
  mkElement (tagName e) (classList e) (textContent e) (innerHTML e) (value e)
    (defaultValue e) (disabled e) (selected e) (style e)
    (<[a := v]> (attributes e)) (onclick e) (children e).

Definition removeAttribute (a : string) (e : Element) : Element :=
  mkElement (tagName e) (classList e) (textContent e) (innerHTML e) (value e)
    (defaultValue e) (disabled e) (selected e) (style e)
    (delete a (attributes e)) (onclick e) (children e).

(** [e.addEventListener('click', h)] *)
Definition addClickListener (h : Handler) (e : Element) : Element :=
  mkElement (tagName e) (classList e) (textContent e) (innerHTML e) (value e)
    (defaultValue e) (disabled e) (selected e) (style e) (attributes e)
    (Some h) (children e).

Definition appendChild (c : Element) (e : Element) : Element :=
  mkElement (tagName e) (classList e) (textContent e) (innerHTML e) (value e)
    (defaultValue e) (disabled e) (selected e) (style e) (attributes e)
    (onclick e) (children e ++ [c]).

Arguments set_classList : simpl never.
Arguments set_textContent : simpl never.
Arguments set_innerHTML : simpl never.
Arguments set_value : simpl never.
Arguments set_disabled : simpl never.
Arguments set_selected : simpl never.
Arguments set_style : simpl never.
Arguments setAttribute : simpl never.
Arguments removeAttribute : simpl never.
Arguments addClickListener : simpl never.
Arguments appendChild : simpl never.

(** [e.className = 'a b'] *)
Definition set_className (cs : list string) (e : Element) : Element :=
  set_classList cs e.

(** [e.classList.add(c)]: a token list holds a token once. *)
Definition classList_add (c : string) (e : Element) : Element :=
  if bool_decide (c ∈ classList e) then e
  else set_classList (classList e ++ [c]) e.

Definition classList_remove (c : string) (e : Element) : Element :=
  set_classList (List.filter (fun x => negb (String.eqb x c)) (classList e)) e.

(** ** The chart instances *)

Record ChartConfig := {
  labels : list string;
  ideal_data : list Q;
  actual_data : list Q;
  actual_borderColor : string;
  title_text : string }.

Record ChartInstance := {
  config : ChartConfig;
  destroyed : bool }.

(** ** The application state *)

Record App := {
  habitChart : option nat;
  currentHabitId : option Z;
  currentRange : Z;
  document : gmap string Element;
  chartStore : list ChartInstance;
  console : list string;
  requests : list Request }.

Definition set_habitChart (v : option nat) (st : App) : App :=
  {| habitChart := v; currentHabitId := currentHabitId st;
     currentRange := currentRange st; document := document st;
     chartStore := chartStore st; console := console st;
     requests := requests st |}.

Definition set_currentHabitId (v : option Z) (st : App) : App :=
  {| habitChart := habitChart st; currentHabitId := v;
     currentRange := currentRange st; document := document st;
     chartStore := chartStore st; console := console st;
     requests := requests st |}.

Definition set_currentRange (v : Z) (st : App) : App :=
  {| habitChart := habitChart st; currentHabitId := currentHabitId st;
     currentRange := v; document := document st;
     chartStore := chartStore st; console := console st;
     requests := requests st |}.

Definition set_document (v : gmap string Element) (st : App) : App :=
  {| habitChart := habitChart st; currentHabitId := currentHabitId st;
     currentRange := currentRange st; document := v;
     chartStore := chartStore st; console := console st;
     requests := requests st |}.

Definition set_chartStore (v : list ChartInstance) (st : App) : App :=
  {| habitChart := habitChart st; currentHabitId := currentHabitId st;
     currentRange := currentRange st; document := document st;
     chartStore := v; console := console st; requests := requests st |}.

Definition set_console (v : list string) (st : App) : App :=
  {| habitChart := habitChart st; currentHabitId := currentHabitId st;
     currentRange := currentRange st; document := document st;
     chartStore := chartStore st; console := v; requests := requests st |}.

Definition set_requests (v : list Request) (st : App) : App :=
  {| habitChart := habitChart st; currentHabitId := currentHabitId st;
     currentRange := currentRange st; document := document st;
     chartStore := chartStore st; console := console st; requests := v |}.

Arguments set_habitChart : simpl never.
Arguments set_currentHabitId : simpl never.
Arguments set_currentRange : simpl never.
Arguments set_document : simpl never.
Arguments set_chartStore : simpl never.
Arguments set_console : simpl never.
Arguments set_requests : simpl never.

(** [document.getElementById(i)] *)
Definition getElementById (i : string) (st : App) : option Element :=
  document st !! i.

(** Writing a mutated element back under its id. *)
Definition putElement (i : string) (e : Element) (st : App) : App :=
  set_document (<[i := e]> (document st)) st.

(** [chart.destroy()] *)
Definition destroy (h : nat) (st : App) : App :=
  set_chartStore
    (alter (fun c => {| config := config c; destroyed := true |}) h (chartStore st))
    st.

Definition chartRanges : list Z := [7; 14; 30; 90].
Definition DEFAULT_CHART_MESSAGE : string :=
  "Add a habit to see its ideal vs actual progress.".

(** ** The visibility controller *)

Inductive ChartState := empty | loading | ready | error.

#[global] Instance ChartState_eq_dec : EqDecision ChartState.
Proof. solve_decision. Defined.

Definition state_name (s : ChartState) : string :=
  match s with
  | empty => "empty"
  | loading => "loading"
  | ready => "ready"
  | error => "error"
  end.

(** Entering [empty] or [error] releases the chart; [loading] and [ready]
    leave the handle and the store alone. *)
Definition releases (state : ChartState) : bool :=
  match state with
  | empty | error => true
  | loading | ready => false
  end.

(** [updateChartVisibility(state, message = '')]; [message] is [None] when
    the call leaves the argument out. *)
Definition updateChartVisibility (state : ChartState) (message : option string)
    (st : App) : App :=
  let message := default "" message in
  match getElementById "habitChart" st, getElementById "chartEmptyState" st with
  | Some canvas, Some placeholder =>
      let placeholder :=
        if truthy_string message then set_textContent message placeholder
        else placeholder in
      let placeholder := setAttribute "data-state" (state_name state) placeholder in
      let placeholder :=
        setAttribute "aria-hidden"
          (match state with ready => "true" | _ => "false" end) placeholder in
      match state with
      | ready =>
          let placeholder := classList_add "hidden" placeholder in
          let canvas := set_style "display" "block" canvas in
          let canvas := removeAttribute "aria-hidden" canvas in
          putElement "habitChart" canvas (putElement "chartEmptyState" placeholder st)
      | _ =>
          let placeholder := classList_remove "hidden" placeholder in
          let canvas := set_style "display" "none" canvas in
          let canvas := setAttribute "aria-hidden" "true" canvas in
          let st := putElement "habitChart" canvas
                      (putElement "chartEmptyState" placeholder st) in
          match state, habitChart st with
          | (empty | error), Some h => set_habitChart None (destroy h st)
          | _, _ => st
          end
      end
  | _, _ => st
  end.

(** [showToast(message, tone = 'info')]; the timers that fade the toast
    out and remove it later are left out. *)
Definition showToast (message tone : string) (st : App) : App :=
  match getElementById "toastContainer" st with
  | None => st
  | Some container =>
      let toast := createElement "div" in
      let toast := set_className ["toast"] toast in
      let toast := if String.eqb tone "info" then toast else classList_add tone toast in
      let toast := set_textContent message toast in
      putElement "toastContainer" (appendChild toast container) st
  end.

(** ** What the page shows *)

Definition placeholder_visible (st : App) : bool :=
  match getElementById "chartEmptyState" st with
  | Some p => negb (bool_decide ("hidden" ∈ classList p))
  | None => false
  end.

Definition canvas_visible (st : App) : bool :=
  match getElementById "habitChart" st with
  | Some c => negb (bool_decide (style c !! "display" = Some "none"))
  | None => false
  end.

Definition placeholder_text (st : App) : option string :=
  textContent <$> getElementById "chartEmptyState" st.

Definition visibility_state (st : App) : option string :=
  getElementById "chartEmptyState" st ≫= fun p => attributes p !! "data-state".

Definition placeholder_aria_hidden (st : App) : option string :=
  getElementById "chartEmptyState" st ≫= fun p => attributes p !! "aria-hidden".

Definition canvas_aria_hidden (st : App) : option string :=
  getElementById "habitChart" st ≫= fun c => attributes c !! "aria-hidden".

(** ** Asynchronous functions: state and thrown values *)

Inductive Completion (A : Type) :=
| Normal (a : A)
| Thrown (err : string).
Arguments Normal {A} a.
Arguments Thrown {A} err.

(** An [async] function run to completion: it returns or rejects, and
    leaves a state behind in either case. *)
Definition Async (A : Type) : Type := App -> Completion A * App.

#[global] Instance Async_ret : MRet Async := fun A a st => (Normal a, st).

#[global] Instance Async_bind : MBind Async := fun A B k m st =>
  match m st with
  | (Normal a, st') => k a st'
  | (Thrown e, st') => (Thrown e, st')
  end.

Definition throw {A} (e : string) : Async A := fun st => (Thrown e, st).

(** [try { body } catch (err) { handler }] *)
Definition try_catch {A} (body : Async A) (handler : string -> Async A) : Async A :=
  fun st =>
    match body st with
    | (Normal a, st') => (Normal a, st')
    | (Thrown e, st') => handler e st'
    end.

(** A synchronous function that cannot throw. *)
Definition lift (f : App -> App) : Async unit := fun st => (Normal tt, f st).

Definition gets {A} (f : App -> A) : Async A := fun st => (Normal (f st), st).

(** [console.error(err)] *)
Definition console_error (err : string) : Async unit :=
  lift (fun st => set_console (console st ++ [err]) st).

Definition final_state {A} (r : Completion A * App) : App := snd r.

Definition rejected {A} (r : Completion A * App) : bool :=
  match fst r with
  | Normal _ => false
  | Thrown _ => true
  end.

(** ** The host: server, charting library, number and date formatting *)

Record Host := {
  (** the answer to the [n]-th request of the session *)
  respond : nat -> forall r : Request, FetchResult (Payload r);
  (** [typeof Chart !== 'undefined'] *)
  chartDefined : bool;
  (** whether [new Chart(ctx, config)] returns rather than throws *)
  chartConstructs : ChartConfig -> bool;
  (** [Number::toString] where it is not plain decimal digits: on
      non-integers and from 1e21 on *)
  numberToString : Q -> string;
  (** the time value of [new Date(s)]; [None] is the [NaN] of an invalid
      date *)
  dateValue : string -> option Z;
  (** the order in which [sort] leaves the journal when a comparison is
      [NaN]: the comparator is then not consistent, and the order is up
      to the engine *)
  engineOrder : list Entry -> list Entry;
  (** [new Date(s).toLocaleString()] *)
  toLocaleString : string -> string }.

(** A request fails when [fetch] rejects, when the status is not a
    success, or when the body of a successful answer is not JSON. *)
Definition fetch_failed {A} (r : FetchResult A) : bool :=
  match r with
  | NetworkError => true
  | Response false _ => true
  | Response true JsonError => true
  | Response true (JsonValue _) => false
  end.

(** ** Derived display of a habit (lines 170-180) *)

Definition color_or (d : string) (c : option string) : string :=
  match c with
  | Some s => if truthy_string s then s else d
  | None => d
  end.

Definition safeTarget (h : Habit) : Q :=
  match target_per_week h with
  | JsNum (Finite q) => if Qlt_bool 0 q then q else 7
  | _ => 7
  end.

Definition safeStreak (h : Habit) : Q :=
  match streak h with
  | JsNum (Finite q) => if Qle_bool 0 q then q else 0
  | _ => 0
  end.

Definition safeBest (h : Habit) : Q :=
  match best_streak h with
  | JsNum (Finite q) => if Qle_bool 0 q then q else 0
  | _ => 0
  end.

Definition safeScore (h : Habit) : Q :=
  match score h with
  | JsNum (Finite q) => q
  | _ => 0
  end.

(** [Math.min(1, Math.max(0, safeTarget / 7))]; the quotient is taken
    exactly. *)
Definition idealRatio (h : Habit) : Q := Qmin 1 (Qmax 0 (safeTarget h / 7)).

Definition idealWidth (h : Habit) : Z := Math_round (idealRatio h * 100).

(** [Math.min(100, Math.max(0, Math.round(safeScore)))] *)
Definition actualWidth (h : Habit) : Z :=
  Math_min 100 (Math_max 0 (Math_round (safeScore h))).

Definition percent (z : Z) : string := Z_to_string z +:+ "%".

Section Frontend.

Variable host : Host.

(** The string a template literal makes of a finite number. *)
Definition Number_toString (q : Q) : string :=
  if Q_is_integer q && Q_abs_lt_1e21 q
  then Z_to_string (Qnum q / Z.pos (Qden q))
  else numberToString host q.

(** The string a template literal makes of a value. *)
Definition template (v : JsValue) : string :=
  match v with
  | JsUndefined => "undefined"
  | JsNull => "null"
  | JsBool true => "true"
  | JsBool false => "false"
  | JsString s => s
  | JsNum (Finite q) => Number_toString q
  | JsNum PosInfinity => "Infinity"
  | JsNum NegInfinity => "-Infinity"
  | JsNum NaN => "NaN"
  end.

(** [x.toFixed(1)]: the nearest multiple of one tenth, ties away from
    zero, with its sign. *)
Definition toFixed1 (q : Q) : string :=
  if Q_abs_lt_1e21 q
  then
    let n := Qfloor (Qabs q * 10 + (1 # 2)) in
    (if Qlt_bool q 0 then "-" else "")
      +:+ Z_to_string (n / 10) +:+ "." +:+ Z_to_string (n mod 10)
  else Number_toString q.

Definition meta_text (h : Habit) : string :=
  "Target: " +:+ Number_toString (safeTarget h)
    +:+ "/week • Streak: " +:+ Number_toString (safeStreak h)
    +:+ " (best " +:+ Number_toString (safeBest h)
    +:+ ") • Lifetime score: " +:+ toFixed1 (safeScore h) +:+ "%".

(** The list item [renderHabits] builds for one habit. *)
Definition habit_item (habits : list Habit) (h : Habit) : Element :=
  let li := createElement "li" in
  let li := set_className ["habit-item"] li in
  let li := set_style "borderLeft" ("4px solid " +:+ color_or "#2f7cff" (color h)) li in
  let header := set_className ["habit-header"] (createElement "div") in
  let title := set_textContent (name h) (createElement "h3") in
  let header := appendChild title header in
  let status :=
    set_className ["badge"; if completed h then "success" else "warning"]
      (createElement "span") in
  let status :=
    set_textContent (if completed h then "Completed today" else "Pending today") status in
  let header := appendChild status header in
  let li := appendChild header li in
  let meta := set_className ["habit-meta"] (createElement "div") in
  let meta := set_textContent (meta_text h) meta in
  let li := appendChild meta li in
  let progress := set_className ["habit-progress"] (createElement "div") in
  let idealBar := set_className ["ideal"] (createElement "div") in
  let idealBar := set_style "width" (percent (idealWidth h)) idealBar in
  let actualBar := set_className ["actual"] (createElement "div") in
  let actualBar := set_style "width" (percent (actualWidth h)) actualBar in
  let actualBar :=
    set_style "background"
      ("linear-gradient(90deg, " +:+ color_or "#54e0a6" (color h)
         +:+ ", rgba(84, 224, 166, 0.35))") actualBar in
  let progress := appendChild actualBar (appendChild idealBar progress) in
  let li := appendChild progress li in
  let actions := set_className ["habit-actions"] (createElement "div") in
  let completeBtn := set_className ["secondary"] (createElement "button") in
  let completeBtn :=
    set_textContent (if completed h then "Undo today" else "Mark complete today")
      completeBtn in
  let completeBtn := addClickListener (ToggleCompletion h) completeBtn in
  let chartBtn := set_className ["ghost"] (createElement "button") in
  let chartBtn := set_textContent "View progress" chartBtn in
  let chartBtn := addClickListener (ViewProgress habits h) chartBtn in
  let actions := appendChild chartBtn (appendChild completeBtn actions) in
  appendChild actions li.

Definition no_habits_markup : string :=
  "<strong>No habits yet.</strong><p style=" +:+ dquote +:+ "margin-top:8px;" +:+ dquote
    +:+ ">Translate the ideal self into a measurable commitment to track.</p>".

(** [renderHabits(habits)] *)
Definition renderHabits (habits : list Habit) (st : App) : App :=
  match getElementById "habitList" st with
  | None => st
  | Some list =>
      let list := set_innerHTML "" list in
      match habits with
      | [] =>
          let li := set_className ["empty-state"] (createElement "li") in
          let li := set_innerHTML no_habits_markup li in
          let st := putElement "habitList" (appendChild li list) st in
          updateChartVisibility empty (Some DEFAULT_CHART_MESSAGE) st
      | _ =>
          let list :=
            fold_left (fun l h => appendChild (habit_item habits h) l) habits list in
          putElement "habitList" list st
      end
  end.

(** One turn of the [forEach] of [updateHabitSelectOptions], on the
    selector being filled and the state holding [currentHabitId]. *)
Definition select_step (previous : option Z) (acc : Element * App) (h : Habit)
    : Element * App :=
  let '(select, st) := acc in
  let option := createElement "option" in
  let option := set_value (Z_to_string (id h)) option in
  let option := set_textContent (name h) option in
  if (truthy_id previous && bool_decide (previous = Some (id h)))
     || (negb (truthy_id previous) && negb (truthy_id (currentHabitId st)))
  then (appendChild (set_selected true option) select,
        set_currentHabitId (Some (id h)) st)
  else (appendChild option select, st).

Definition no_habits_option : Element :=
  let option := createElement "option" in
  let option := set_textContent "No habits yet" option in
  let option := set_disabled true option in
  set_selected true option.

(** [updateHabitSelectOptions(habits)] *)
Definition updateHabitSelectOptions (habits : list Habit) (st : App) : App :=
  match getElementById "habitSelect" st with
  | None => st
  | Some select =>
      let previous := currentHabitId st in
      let select := set_innerHTML "" select in
      let '(select, st) := fold_left (select_step previous) habits (select, st) in
      let '(select, st) :=
        match habits with
        | first :: _ =>
            let found :=
              existsb (fun h => bool_decide (Some (id h) = currentHabitId st)) habits in
            if found then (select, st)
            else (set_value (Z_to_string (id first)) select,
                  set_currentHabitId (Some (id first)) st)
        | [] => (appendChild no_habits_option select, set_currentHabitId None st)
        end in
      let select := set_disabled (match habits with [] => true | _ => false end) select in
      putElement "habitSelect" select st
  end.

Definition range_button (st : App) (range : Z) : Element :=
  let btn := createElement "button" in
  let btn := setAttribute "type" "button" btn in
  let btn := set_textContent (Z_to_string range +:+ " days") btn in
  let btn := if range =? currentRange st then classList_add "active" btn else btn in
  let btn := set_disabled (negb (truthy_id (currentHabitId st))) btn in
  addClickListener (SelectRange range) btn.

(** [setupRangeButtons()] *)
Definition setupRangeButtons (st : App) : App :=
  match getElementById "rangeButtons" st with
  | None => st
  | Some container =>
      let container := set_innerHTML "" container in
      let container :=
        fold_left (fun c range => appendChild (range_button st range) c)
          chartRanges container in
      putElement "rangeButtons" container st
  end.

(** ** The gateway *)

(** [await fetch(..)]: the request is recorded, the host answers. *)
Definition fetch (r : Request) : Async (bool * Json (Payload r)) := fun st =>
  let st' := set_requests (requests st ++ [r]) st in
  match respond host (length (requests st)) r with
  | NetworkError => (Thrown "TypeError: Failed to fetch", st')
  | Response ok body => (Normal (ok, body), st')
  end.

(** [await res.json()] *)
Definition json {A} (body : Json A) : Async A :=
  match body with
  | JsonError => throw "SyntaxError: Unexpected token"
  | JsonValue a => mret a
  end.

(** [if (!res.ok) throw new Error(msg);] *)
Definition require_ok {A} (msg : string) (res : bool * Json A) : Async unit :=
  if fst res then mret tt else throw ("Error: " +:+ msg).

(** [if (!res.ok) throw new Error(msg); .. await res.json()] *)
Definition ok_json {A} (msg : string) (res : bool * Json A) : Async A :=
  require_ok msg res ;; json (snd res).

(** [ensureDemoSeed()] *)
Definition ensureDemoSeed : Async bool :=
  try_catch
    (r ← fetch GetHabits;
     if negb (fst r) then mret false
     else
       list ← json (snd r);
       match list with
       | _ :: _ => mret true
       | [] =>
           try_catch (fetch PostDemoReset ;; mret tt) (fun _ => mret tt) ;;
           mret true
       end)
    (fun _ => mret false).

(** [new Chart(ctx, config)] *)
Definition newChart (cfg : ChartConfig) : Async nat := fun st =>
  if chartConstructs host cfg
  then (Normal (length (chartStore st)),
        set_chartStore (chartStore st ++ [{| config := cfg; destroyed := false |}]) st)
  else (Thrown "Error: chart construction failed", st).

(** The configuration handed to [new Chart]: the labels, the two data
    sets, the colour of the actual line and the title. *)
Definition chart_config (labels : list string) (data : Progress)
    (snapshot : HabitSnapshot) : ChartConfig :=
  {| labels := labels;
     ideal_data := ideal data;
     actual_data := actual data;
     actual_borderColor := color_or "#54e0a6" (snap_color snapshot);
     title_text :=
       snap_name snapshot +:+ " ("
         +:+ template (snap_target_per_week snapshot) +:+ "/week ideal)" |}.

(** [loadHabitProgress()]; the colours read from the style sheet and the
    options that only style the chart are left out of the configuration. *)
Definition loadHabitProgress : Async unit := fun st =>
  match currentHabitId st with
  | Some habitId =>
      if negb (truthy_id (Some habitId)) then (Normal tt, st)
      else
        (lift (updateChartVisibility loading (Some "Loading progress...")) ;;
         try_catch
           (res ← fetch (GetProgress habitId (currentRange st));
            data ← ok_json "Failed to fetch progress" res;
            canvas ← gets (getElementById "habitChart");
            match canvas with
            | Some _ =>
                if chartDefined host then
                  old ← gets habitChart;
                  match old with
                  | Some h => lift (destroy h)
                  | None => mret tt
                  end ;;
                  labels ← match dates data with
                           | Some ds => mret (slice 5 <$> ds)
                           | None => throw "TypeError: data.dates is undefined"
                           end;
                  snapshot ← match habit data with
                             | Some s => mret s
                             | None => throw "TypeError: data.habit is undefined"
                             end;
                  chart ← newChart (chart_config labels data snapshot);
                  lift (set_habitChart (Some chart)) ;;
                  lift (updateChartVisibility ready None)
                else
                  lift (updateChartVisibility error (Some "Chart unavailable.")) ;;
                  lift (showToast "Progress chart unavailable right now" "error")
            | None =>
                lift (updateChartVisibility error (Some "Chart unavailable.")) ;;
                lift (showToast "Progress chart unavailable right now" "error")
            end)
           (fun err =>
              console_error err ;;
              lift (updateChartVisibility error (Some "Could not load progress right now.")) ;;
              lift (showToast "Could not load progress" "error"))) st
  | None => (Normal tt, st)
  end.

(** [loadHabits()] *)
Definition loadHabits : Async unit :=
  try_catch
    (seeded ← ensureDemoSeed;
     res ← fetch GetHabits;
     habits ← ok_json "Failed to fetch habits" res;
     lift (renderHabits habits) ;;
     lift (updateHabitSelectOptions habits) ;;
     lift setupRangeButtons ;;
     cur ← gets currentHabitId;
     if truthy_id cur then loadHabitProgress
     else lift (updateChartVisibility empty (Some DEFAULT_CHART_MESSAGE)))
    (fun err =>
       console_error err ;;
       lift (showToast "Could not load habits" "error") ;;
       lift (updateChartVisibility error (Some "Could not load habits."))).

(** ** Ideal self *)

(** [renderIdealSelfSummary(vision, focusAreas)] *)
Definition renderIdealSelfSummary (vision : string) (focusAreas : list string)
    (st : App) : App :=
  match getElementById "idealSelfSummary" st with
  | None => st
  | Some summary =>
      let hasAny :=
        (truthy_string vision && negb (String.length (trim vision) =? 0)%nat)
        || negb (length focusAreas =? 0)%nat in
      let st :=
        putElement "idealSelfSummary"
          (set_style "display" (if hasAny then "block" else "none") summary) st in
      let st :=
        match getElementById "idealVisionCopy" st with
        | Some visionCopy =>
            putElement "idealVisionCopy" (set_textContent vision visionCopy) st
        | None => st
        end in
      match getElementById "idealFocusCopy" st with
      | Some focusCopy =>
          putElement "idealFocusCopy"
            (set_textContent
               (match focusAreas with
                | [] => ""
                | _ => "Focus areas: " +:+ join " • " focusAreas
                end) focusCopy) st
      | None => st
      end
  end.

(** [el.value = v] on a field that may be missing from the page. *)
Definition set_field (i v : string) (st : App) : App :=
  match getElementById i st with
  | Some e => putElement i (set_value v e) st
  | None => st
  end.

(** [document.getElementById(i)?.value || ''] *)
Definition field_value (i : string) (st : App) : string :=
  match getElementById i st with
  | Some e => value e
  | None => ""
  end.

(** [loadIdealSelf()] *)
Definition loadIdealSelf : Async unit :=
  try_catch
    (res ← fetch GetIdealSelf;
     data ← ok_json "Failed to load ideal self" res;
     lift (renderIdealSelfSummary (default "" (vision data))
             (default [] (focus_areas data))) ;;
     match vision data with
     | Some v => if truthy_string v then lift (set_field "idealVision" v) else mret tt
     | None => mret tt
     end ;;
     match focus_areas data with
     | Some l => lift (set_field "idealFocusAreas" (join ", " l))
     | None => mret tt
     end)
    (fun err => console_error err).

(** The request [saveIdealSelf] builds from the form: the trimmed vision
    and the focus areas, split at commas, trimmed, the empty ones
    dropped. *)
Definition ideal_self_form_request (st : App) : Request :=
  let vision := trim (field_value "idealVision" st) in
  let raw := field_value "idealFocusAreas" st in
  let focus_areas := List.filter truthy_string (trim <$> split_comma raw "") in
  PostIdealSelf vision focus_areas.

(** [saveIdealSelf(event)] *)
Definition saveIdealSelf : Async unit := fun st =>
  let vision := trim (field_value "idealVision" st) in
  let raw := field_value "idealFocusAreas" st in
  let focus_areas := List.filter truthy_string (trim <$> split_comma raw "") in
  try_catch
    (res ← fetch (ideal_self_form_request st);
     require_ok "Save failed" res ;;
     lift (renderIdealSelfSummary vision focus_areas) ;;
     lift (showToast "Ideal self updated" "success"))
    (fun err =>
       console_error err ;;
       lift (showToast "Could not save ideal self" "error")) st.

(** ** Journal *)

(** [entries.sort((a, b) => new Date(b.timestamp) - new Date(a.timestamp))].
    When every timestamp is a valid date the comparator is consistent
    and the sort, which is stable, puts the newest first; otherwise the
    order is the engine's. *)
Definition time_value (e : Entry) : Z := default 0 (dateValue host (timestamp e)).

Definition valid_date (e : Entry) : bool :=
  match dateValue host (timestamp e) with
  | Some _ => true
  | None => false
  end.

Fixpoint insert_entry (e : Entry) (l : list Entry) : list Entry :=
  match l with
  | [] => [e]
  | x :: r =>
      if time_value e <? time_value x
      then x :: insert_entry e r
      else e :: l
  end.

Definition sort_entries (l : list Entry) : list Entry :=
  if forallb valid_date l then fold_right insert_entry [] l
  else engineOrder host l.

Definition journal_item (entry : Entry) : Element :=
  let li := set_className ["journal-entry"] (createElement "li") in
  let time :=
    set_textContent (toLocaleString host (timestamp entry)) (createElement "time") in
  let content := set_textContent (content entry) (createElement "p") in
  appendChild content (appendChild time li).

Definition no_entries_text : string :=
  "No journal entries yet. Capture a reflection to start building insights.".

(** [loadJournalEntries()]; the sort is in place and keeps the length, so
    the test [!entries.length] is the one on the entries received. *)
Definition loadJournalEntries : Async unit :=
  try_catch
    (res ← fetch GetJournal;
     entries ← ok_json "Failed to fetch journal" res;
     let sorted := sort_entries entries in
     lift (fun st =>
       match getElementById "journalEntries" st with
       | None => st
       | Some list =>
           let list := set_innerHTML "" list in
           match entries with
           | [] =>
               let empty := set_className ["empty-state"] (createElement "li") in
               let empty := set_textContent no_entries_text empty in
               putElement "journalEntries" (appendChild empty list) st
           | _ =>
               putElement "journalEntries"
                 (fold_left (fun l entry => appendChild (journal_item entry) l)
                    sorted list) st
           end
       end))
    (fun err =>
       console_error err ;;
       lift (showToast "Could not load journal entries" "error")).

(** [addJournalEntry(event)] *)
Definition addJournalEntry : Async unit := fun st =>
  let content := trim (field_value "journalInput" st) in
  if negb (truthy_string content) then (Normal tt, st)
  else
    try_catch
      (res ← fetch (PostJournal content);
       require_ok "Failed to save entry" res ;;
       lift (set_field "journalInput" "") ;;
       lift (showToast "Journal entry saved" "success") ;;
       loadJournalEntries)
      (fun err =>
         console_error err ;;
         lift (showToast "Could not save entry" "error")) st.

(** ** Habit mutations *)

(** [form.reset()] on the habit form: its controls, taken to be the three
    fields [addHabit] reads, go back to their default values. *)
Definition reset_field (i : string) (st : App) : App :=
  match getElementById i st with
  | Some e => putElement i (set_value (defaultValue e) e) st
  | None => st
  end.

Definition habitForm_reset (st : App) : App :=
  match getElementById "habitForm" st with
  | Some _ =>
      reset_field "targetPerWeek" (reset_field "habitColor" (reset_field "habitName" st))
  | None => st
  end.

(** The request [addHabit] builds from the form: the trimmed name, the
    colour (the default blue when the field is empty or missing) and the
    weekly target read with [parseInt]. *)
Definition habit_form_request (st : App) : Request :=
  let name := trim (field_value "habitName" st) in
  let color :=
    if truthy_string (field_value "habitColor" st) then field_value "habitColor" st
    else "#2f7cff" in
  let target_per_week :=
    parseInt (if truthy_string (field_value "targetPerWeek" st)
              then field_value "targetPerWeek" st else "7") in
  PostHabit name color target_per_week.

(** [addHabit(event)] *)
Definition addHabit : Async unit := fun st =>
  let name := trim (field_value "habitName" st) in
  if negb (truthy_string name) then (Normal tt, st)
  else
    try_catch
      (res ← fetch (habit_form_request st);
       created ← ok_json "Failed to add habit" res;
       lift (fun st =>
         if truthy_id (created_id created)
         then set_currentHabitId (created_id created) st else st) ;;
       lift habitForm_reset ;;
       lift (set_field "habitColor" "#2f7cff") ;;
       lift (showToast "Habit added" "success") ;;
       loadHabits ;;
       cur ← gets currentHabitId;
       if truthy_id cur then loadHabitProgress else mret tt)
      (fun err =>
         console_error err ;;
         lift (showToast "Could not add habit" "error")) st.

(** [toggleHabitCompletion(habit)] *)
Definition toggleHabitCompletion (h : Habit) : Async unit :=
  try_catch
    (res ← fetch (PutHabit (id h) (negb (completed h)));
     require_ok "Failed to update habit" res ;;
     loadHabits ;;
     cur ← gets currentHabitId;
     if bool_decide (cur = Some (id h)) then loadHabitProgress else mret tt)
    (fun err =>
       console_error err ;;
       lift (showToast "Could not update habit" "error")).

(** ** Event handlers *)

(** The click listeners that [renderHabits] and [setupRangeButtons]
    register. *)
Definition click (h : Handler) : Async unit :=
  match h with
  | ToggleCompletion habit => toggleHabitCompletion habit
  | ViewProgress habits habit =>
      lift (set_currentHabitId (Some (id habit))) ;;
      lift (updateHabitSelectOptions habits) ;;
      loadHabitProgress
  | SelectRange range =>
      lift (set_currentRange range) ;;
      lift setupRangeButtons ;;
      loadHabitProgress
  end.

(** The [change] listener of the selector; [v] is [event.target.value]. *)
Definition habitSelect_change (v : string) : Async unit :=
  match parseInt v with
  | Some nextId =>
      lift (set_currentHabitId (Some nextId)) ;;
      loadHabitProgress
  | None => mret tt
  end.

(** The [click] listener of the demo button. *)
Definition demoSeedBtn_click : Async unit :=
  try_catch
    (fetch PostDemoReset ;;
     lift (showToast "Demo data loaded" "success") ;;
     loadHabits ;;
     loadJournalEntries)
    (fun err =>
       console_error err ;;
       lift (showToast "Could not load demo data" "error")).

(** The [DOMContentLoaded] listener, without the navigation and the theme;
    the three loads it starts are run one after the other. *)
Definition onDOMContentLoaded : Async unit :=
  lift setupRangeButtons ;;
  lift (updateChartVisibility empty (Some DEFAULT_CHART_MESSAGE)) ;;
  loadIdealSelf ;;
  loadHabits ;;
  loadJournalEntries.

End Frontend.

(** ** Reading a rendered habit item back *)




(** ** Observations used by the properties *)

(** The toasts that are on the page. *)
Definition toasts (st : App) : list Element :=
  match getElementById "toastContainer" st with
  | Some container => children container
  | None => []
  end.

(** The page has the chart area and the toast container. *)
Definition page_ready (st : App) : Prop :=
  is_Some (getElementById "habitChart" st) /\
  is_Some (getElementById "chartEmptyState" st) /\
  is_Some (getElementById "toastContainer" st).

(** A chart instance is live from [new Chart] until [destroy]. *)
Definition live (st : App) (h : nat) : Prop :=
  exists c, chartStore st !! h = Some c /\ destroyed c = false.

(** The only chart that may be live is the one [habitChart] holds. *)
Definition single_chart (st : App) : Prop :=
  forall h, live st h -> habitChart st = Some h.

Definition no_live_chart (st : App) : bool := forallb destroyed (chartStore st).

Section Failures.

Variable host : Host.

(** The run of [loadHabitProgress] from [st] fails: the identifier passes
    the guard, and the request is rejected, or answered with a status that
    is not a success, or with a body that is not JSON, or the charting
    library is missing, or the payload lacks [dates] or [habit], or the
    chart constructor throws. *)
Definition progress_fails (st : App) : bool :=
  match currentHabitId st with
  | Some i =>
      truthy_id (Some i) &&
      match respond host (length (requests st)) (GetProgress i (currentRange st)) with
      | NetworkError => true
      | Response false _ => true
      | Response true JsonError => true
      | Response true (JsonValue data) =>
          negb (chartDefined host) ||
          match dates data, habit data with
          | Some ds, Some s =>
              negb (chartConstructs host (chart_config host (slice 5 <$> ds) data s))
          | _, _ => true
          end
      end
  | None => false
  end.

(** The answer [loadHabits] gets to its own request for the collection,
    which it sends once [ensureDemoSeed] has returned. *)
Definition habits_answer (st : App) : FetchResult (list Habit) :=
  respond host (length (requests (final_state (ensureDemoSeed host st)))) GetHabits.

(** The operations that go through the gateway. *)
Inductive Operation :=
| LoadIdealSelf
| SaveIdealSelf
| LoadJournalEntries
| AddJournalEntry
| LoadHabits
| AddHabit
| ToggleHabitCompletion (h : Habit)
| LoadHabitProgress.

Definition run (op : Operation) : Async unit :=
  match op with
  | LoadIdealSelf => loadIdealSelf host
  | SaveIdealSelf => saveIdealSelf host
  | LoadJournalEntries => loadJournalEntries host
  | AddJournalEntry => addJournalEntry host
  | LoadHabits => loadHabits host
  | AddHabit => addHabit host
  | ToggleHabitCompletion h => toggleHabitCompletion host h
  | LoadHabitProgress => loadHabitProgress host
  end.

(** The requests whose answer is read with [res.json()]. *)
Definition reads_body (r : Request) : bool :=
  match r with
  | GetHabits | GetIdealSelf | GetJournal | PostHabit _ _ _ | GetProgress _ _ => true
  | PostDemoReset | PostIdealSelf _ _ | PostJournal _ | PutHabit _ _ => false
  end.

(** A request fails when [fetch] rejects, when the status is not a
    success, or when the body is read and is not JSON. *)
Definition request_failed (r : Request) (a : FetchResult (Payload r)) : bool :=
  match a with
  | NetworkError => true
  | Response false _ => true
  | Response true JsonError => reads_body r
  | Response true (JsonValue _) => false
  end.

(** The request an operation sends for itself from a state, with its
    position in the session; none when a guard returns first. *)
Definition own_request (op : Operation) (st : App) : option (nat * Request) :=
  match op with
  | LoadIdealSelf => Some (length (requests st), GetIdealSelf)
  | SaveIdealSelf => Some (length (requests st), ideal_self_form_request st)
  | LoadJournalEntries => Some (length (requests st), GetJournal)
  | AddJournalEntry =>
      let content := trim (field_value "journalInput" st) in
      if truthy_string content then Some (length (requests st), PostJournal content)
      else None
  | LoadHabits =>
      Some (length (requests (final_state (ensureDemoSeed host st))), GetHabits)
  | AddHabit =>
      if truthy_string (trim (field_value "habitName" st))
      then Some (length (requests st), habit_form_request st)
      else None
  | ToggleHabitCompletion h =>
      Some (length (requests st), PutHabit (id h) (negb (completed h)))
  | LoadHabitProgress =>
      match currentHabitId st with
      | Some i =>
          if truthy_id (Some i)
          then Some (length (requests st), GetProgress i (currentRange st))
          else None
      | None => None
      end
  end.

Definition own_request_fails (op : Operation) (st : App) : bool :=
  match own_request op st with
  | Some (n, r) => request_failed r (respond host n r)
  | None => false
  end.

(** The operations whose result is drawn in the chart area. *)
Definition feeds_chart (op : Operation) : bool :=
  match op with
  | LoadHabits | LoadHabitProgress => true
  | _ => false
  end.

(** The one operation whose failure is logged and not shown. *)
Definition fails_silently (op : Operation) : bool :=
  match op with
  | LoadIdealSelf => true
  | _ => false
  end.

End Failures.

(** ** Counting the progress loads *)

Definition is_progress (r : Request) : bool :=
  match r with
  | GetProgress _ _ => true
  | _ => false
  end.

(** The progress requests sent between two states of a session. *)
Definition progress_calls (before after : App) : list Request :=
  List.filter is_progress (drop (length (requests before)) (requests after)).

(** The one request [loadHabitProgress] sends from a state: none when the
    identifier does not pass the guard. *)
Definition progress_call (st : App) : list Request :=
  match currentHabitId st with
  | Some i => if truthy_id (Some i) then [GetProgress i (currentRange st)] else []
  | None => []
  end.

(** An asynchronous function that never rejects. *)
Definition total {A} (m : Async A) : Prop := forall st, rejected (m st) = false.

(** Whether [loadHabits] gets the collection when it runs once the
    requests [reqs] have been sent from [st]. *)
Definition reload_succeeds (host : Host) (st : App) (reqs : list Request) : bool :=
  negb (fetch_failed (habits_answer host (set_requests (requests st ++ reqs) st))).

(** ** Derived forms used in the proofs *)

(** What the controller does to the placeholder before it touches the
    class list: message, data-state, aria-hidden. *)
Definition mark_of (a v b w m : string) (p : Element) : Element :=
  setAttribute a v (setAttribute b w
    (if truthy_string m then set_textContent m p else p)).

(** [state === 'ready'] *)
Definition is_ready (state : ChartState) : bool :=
  match state with
  | ready => true
  | _ => false
  end.

(** The placeholder as [updateChartVisibility] leaves it. *)
Definition placeholder_after (state : ChartState) (message : option string)
    (placeholder : Element) : Element :=
  (if is_ready state then classList_add "hidden" else classList_remove "hidden")
    (mark_of "aria-hidden" (if is_ready state then "true" else "false")
       "data-state" (state_name state) (default "" message) placeholder).

(** The canvas as [updateChartVisibility] leaves it. *)
Definition canvas_after (state : ChartState) (canvas : Element) : Element :=
  if is_ready state
  then removeAttribute "aria-hidden" (set_style "display" "block" canvas)
  else setAttribute "aria-hidden" "true" (set_style "display" "none" canvas).

(** The last line of the controller: the chart is destroyed and the handle
    cleared on entering [empty] or [error]. *)
Definition release (state : ChartState) (st : App) : App :=
  match habitChart st with
  | Some h => if releases state then set_habitChart None (destroy h st) else st
  | None => st
  end.

(** The states from which a failing run enters the error state: the
    loading state has been set and the request recorded; an error may have
    been logged and the previous chart destroyed. *)
Definition progress_mid (st X : App) : Prop :=
  document X =
    document (updateChartVisibility loading (Some "Loading progress...") st) /\
  currentHabitId X = currentHabitId st /\
  currentRange X = currentRange st /\
  habitChart X = habitChart st /\
  (forall h, live X h -> live st h) /\
  exists i, currentHabitId st = Some i /\
            requests X = requests st ++ [GetProgress i (currentRange st)].

(** A function that sends nothing and keeps the chosen range. *)
Definition quiet (f : App -> App) : Prop :=
  forall st, requests (f st) = requests st /\ currentRange (f st) = currentRange st.

(** Requests among which none asks for a progress series. *)
Definition no_progress (reqs : list Request) : Prop :=
  List.filter is_progress reqs = [].

(** What a caught failure leaves on the page: a toast of tone error, or,
    for the one silent operation, a line on the console and no toast. *)
Definition failure_shown (op : Operation) (st st' : App) : Prop :=
  if fails_silently op
  then toasts st' = toasts st /\ exists e, console st' = console st ++ [e]
  else exists toast,
         toasts st' = toasts st ++ [toast] /\
         "error" ∈ classList toast /\ textContent toast <> "".


(** ** What the visibility controller may touch *)

(** The placeholder without what shows or hides it: the class [hidden]
    and the attributes [data-state] and [aria-hidden]. *)
Definition without_marks (e : Element) : Element :=
  mkElement (tagName e)
    (List.filter (fun x => negb (String.eqb x "hidden")) (classList e))
    (textContent e) (innerHTML e) (value e) (defaultValue e) (disabled e) (selected e)
    (style e) (delete "data-state" (delete "aria-hidden" (attributes e)))
    (onclick e) (children e).

(** The canvas without what shows or hides it: the display of its style
    and the attribute [aria-hidden]. *)
Definition without_display (e : Element) : Element :=
  mkElement (tagName e) (classList e) (textContent e) (innerHTML e) (value e)
    (defaultValue e) (disabled e) (selected e)
    (delete "display" (style e)) (delete "aria-hidden" (attributes e))
    (onclick e) (children e).

(** Two pages that differ at most in the visibility, the dataset state
    and the aria attributes of the chart area. *)
Definition same_page_but_marks (st st' : App) : Prop :=
  without_display <$> getElementById "habitChart" st' =
    without_display <$> getElementById "habitChart" st /\
  without_marks <$> getElementById "chartEmptyState" st' =
    without_marks <$> getElementById "chartEmptyState" st /\
  forall i, i <> "habitChart" -> i <> "chartEmptyState" ->
    getElementById i st' = getElementById i st.

(** Nothing but those marks differs between two states. *)
Definition only_marks_change (st st' : App) : Prop :=
  same_page_but_marks st st' /\
  habitChart st' = habitChart st /\
  chartStore st' = chartStore st /\
  currentHabitId st' = currentHabitId st /\
  currentRange st' = currentRange st /\
  console st' = console st /\
  requests st' = requests st.

(** The chart store once the chart of the handle has been destroyed. *)
Definition released_store (st : App) : list ChartInstance :=
  match habitChart st with
  | Some h => alter (fun c => {| config := config c; destroyed := true |}) h (chartStore st)
  | None => chartStore st
  end.

(** ** Example pages, payloads and hosts *)

Definition field (tag v : string) : Element := set_value v (createElement tag).

(** A page with every element the script looks up, and a filled form. *)
Definition example_page : gmap string Element :=
  list_to_map
    [("habitChart", createElement "canvas");
     ("chartEmptyState", createElement "div");
     ("toastContainer", createElement "div");
     ("habitSelect", createElement "select");
     ("habitList", createElement "ul");
     ("rangeButtons", createElement "div");
     ("habitForm", createElement "form");
     ("habitName", field "input" "Meditate");
     ("habitColor", field "input" "#2f7cff");
     ("targetPerWeek", field "input" "5");
     ("journalInput", field "textarea" " note ");
     ("journalEntries", createElement "ul");
     ("idealVision", field "input" "Be consistent");
     ("idealFocusAreas", field "input" "health, focus");
     ("idealSelfSummary", createElement "div");
     ("idealVisionCopy", createElement "p");
     ("idealFocusCopy", createElement "p")].

(** The state of the script when it starts. *)
Definition initial_app : App :=
  {| habitChart := None; currentHabitId := None; currentRange := 30;
     document := example_page; chartStore := []; console := []; requests := [] |}.

Definition plain_habit (i : Z) (n : string) (s : JsValue) : Habit :=
  {| id := i; name := n; color := Some "#2f7cff";
     target_per_week := JsNum (Finite 5); completed := false;
     streak := JsNum (Finite 0); best_streak := JsNum (Finite 0); score := s |}.

Definition meditate : Habit := plain_habit 1 "Meditate" (JsNum (Finite 0)).

(** A habit whose identifier is 0. *)
Definition habit_zero : Habit := plain_habit 0 "Stretch" (JsNum (Finite 0)).



(** A payload that has only an id and a name. *)
Definition habit_bare : Habit :=
  {| id := 4; name := "Write"; color := None;
     target_per_week := JsUndefined; completed := false;
     streak := JsUndefined; best_streak := JsUndefined; score := JsUndefined |}.

Definition meditate_progress : Progress :=
  {| dates := Some ["2024-01-01"; "2024-01-02"];
     ideal := [1%Q; 2%Q]; actual := [1%Q; 1%Q];
     habit := Some {| snap_name := "Meditate"; snap_color := Some "#2f7cff";
                      snap_target_per_week := JsNum (Finite 5) |} |}.

(** A server that holds the one habit "Meditate" and answers every
    request. *)
Definition healthy_answers (n : nat) (r : Request) : FetchResult (Payload r) :=
  match r with
  | GetHabits => Response true (JsonValue [meditate])
  | GetIdealSelf =>
      Response true
        (JsonValue {| vision := Some "Be consistent";
                      focus_areas := Some ["health"; "focus"] |})
  | GetJournal => Response true (JsonValue [])
  | PostHabit _ _ _ => Response true (JsonValue {| created_id := Some 1 |})
  | GetProgress _ _ => Response true (JsonValue meditate_progress)
  | PostDemoReset | PostIdealSelf _ _ | PostJournal _ | PutHabit _ _ =>
      Response true (JsonValue tt)
  end.

Definition healthy_host : Host :=
  {| respond := healthy_answers;
     chartDefined := true;
     chartConstructs := fun _ => true;
     numberToString := fun _ => "";
     dateValue := fun s => Some (Z.of_nat (String.length s));
     engineOrder := fun l => l;
     toLocaleString := fun s => s |}.

(** A host whose every request is rejected. *)
Definition offline_host : Host :=
  {| respond := fun _ _ => NetworkError;
     chartDefined := true;
     chartConstructs := fun _ => true;
     numberToString := fun _ => "";
     dateValue := fun s => Some (Z.of_nat (String.length s));
     engineOrder := fun l => l;
     toLocaleString := fun s => s |}.

(** A state in which "Meditate" is selected and its chart is live. *)
Definition charted_app : App :=
  {| habitChart := Some 0%nat; currentHabitId := Some 1; currentRange := 30;
     document := example_page;
     chartStore :=
       [{| config :=
             {| labels := []; ideal_data := []; actual_data := [];
                actual_borderColor := "#2f7cff"; title_text := "Meditate" |};
           destroyed := false |}];
     console := []; requests := [] |}.

(** ** Reading the rendered page back *)

(** The title of a rendered habit item: the text of the [h3] of its
    header. *)
Definition rendered_title (li : Element) : option string :=
  header ← children li !! 0%nat;
  title ← children header !! 0%nat;
  Some (textContent title).

(** The badge of a rendered habit item: the text of the [span] of its
    header. *)
Definition rendered_badge (li : Element) : option string :=
  header ← children li !! 0%nat;
  status ← children header !! 1%nat;
  Some (textContent status).

(** The click listeners of the two buttons of a rendered habit item. *)
Definition rendered_listeners (li : Element) : option (list (option Handler)) :=
  actions ← children li !! 3%nat;
  Some (onclick <$> children actions).

(** The value and the label of an option of the selector. *)
Definition option_entry (o : Element) : string * string := (value o, textContent o).

(** Whether a button carries the class [active]. *)
Definition is_active (btn : Element) : bool := bool_decide ("active" ∈ classList btn).

(** The range a range button selects when clicked. *)
Definition button_range (btn : Element) : option Z :=
  match onclick btn with
  | Some (SelectRange r) => Some r
  | _ => None
  end.

(** [Number.isSafeInteger]: the integers that a number of the script
    holds exactly, and that it prints with all their digits. *)
Definition safe_integer (z : Z) : Prop := Z.abs z < 2 ^ 53.

(** The requests sent between two states of a session. *)
Definition sent (before after : App) : list Request :=
  drop (length (requests before)) (requests after).

(** A collection came back and it is empty. *)
Definition answered_empty (a : FetchResult (list Habit)) : bool :=
  match a with
  | Response true (JsonValue []) => true
  | _ => false
  end.

(** An entry that is not older than the next one. *)
Definition newest_first (host : Host) (a b : Entry) : Prop :=
  time_value host b <= time_value host a.

(** The entries written at the time value [d]. *)
Definition dated (host : Host) (d : Z) (e : Entry) : bool :=
  time_value host e =? d.

(** The texts of the parts of a rendered journal entry. *)
Definition rendered_entry (li : Element) : list string := textContent <$> children li.

(** The items of the journal list. *)
Definition journal_items (st : App) : option (list Element) :=
  children <$> getElementById "journalEntries" st.

(** What is left of a text after its first character, when that
    character is white space. *)
Definition skip_space (s : string) : option string :=
  match s with
  | String a r1 =>
      if is_space a then Some r1
      else
        match r1 with
        | String b r2 =>
            if is_space2 a b then Some r2
            else
              match r2 with
              | String c r3 => if is_space3 a b c then Some r3 else None
              | EmptyString => None
              end
        | EmptyString => None
        end
  | EmptyString => None
  end.

(** The [display] of the ideal-self summary, and the texts of its parts. *)
Definition summary_display (st : App) : option string :=
  summary ← getElementById "idealSelfSummary" st; style summary !! "display".

Definition copy_text (i : string) (st : App) : option string :=
  textContent <$> getElementById i st.

Fixpoint has_comma (s : string) : bool :=
  match s with
  | EmptyString => false
  | String c r => Ascii.eqb c ","%char || has_comma r
  end.

(** A focus area as the form hands it back: not empty, trimmed, without a
    comma. *)
Definition tidy (s : string) : bool :=
  truthy_string s && String.eqb (trim s) s && negb (has_comma s).

(** ** The entry points of the script *)

(** What the page can ask of the script: one of the operations, a click
    on a rendered button, a change of the selector, a click on the demo
    button, and the start of the page. *)
Inductive Event :=
| Operate (op : Operation)
| Click (h : Handler)
| Change (v : string)
| DemoSeed
| Loaded.

Definition handle (host : Host) (e : Event) : Async unit :=
  match e with
  | Operate op => run host op
  | Click h => click host h
  | Change v => habitSelect_change host v
  | DemoSeed => demoSeedBtn_click host
  | Loaded => onDOMContentLoaded host
  end.

(** Between two states nothing was taken away: the requests sent, the
    lines on the console and the toasts are still there, in their order
    and before what came after, and every element that could be looked up
    still can. *)
Definition grows (st st' : App) : Prop :=
  (exists reqs, requests st' = requests st ++ reqs) /\
  (exists lines, console st' = console st ++ lines) /\
  (exists more, toasts st' = toasts st ++ more) /\
  forall i, is_Some (getElementById i st) -> is_Some (getElementById i st').

Definition growing {A} (m : Async A) : Prop :=
  forall st, grows st (final_state (m st)).

Definition gentle (f : App -> App) : Prop := forall st, grows st (f st).

(** ** The fill of the actual line (lines 233-234) *)

(** A character of [[a-f\d]] under the flag [i], with its value. *)
Definition hex_digit (c : ascii) : option Z :=
  let n := nat_of_ascii c in
  if ((48 <=? n) && (n <=? 57))%nat then Some (Z.of_nat n - 48)
  else if ((97 <=? n) && (n <=? 102))%nat then Some (Z.of_nat n - 87)
  else if ((65 <=? n) && (n <=? 70))%nat then Some (Z.of_nat n - 55)
  else None.

(** [parseInt(m[k], 16)] on a group of two such characters. *)
Definition hex_pair (a b : ascii) : option Z :=
  x ← hex_digit a; y ← hex_digit b; Some (16 * x + y).

(** The three groups of [/^#?([a-f\d]{2})([a-f\d]{2})([a-f\d]{2})$/i],
    read as numbers; [None] when the expression does not match. *)
Definition hex_groups (hex : string) : option (Z * Z * Z) :=
  let body := match hex with String "#" r => r | _ => hex end in
  match body with
  | String a (String b (String c (String d (String e (String f EmptyString))))) =>
      r ← hex_pair a b; g ← hex_pair c d; b ← hex_pair e f; Some (r, g, b)
  | _ => None
  end.

Definition rgba (r g b alpha : string) : string :=
  "rgba(" +:+ r +:+ "," +:+ g +:+ "," +:+ b +:+ "," +:+ alpha +:+ ")".

(** [hexToRGBA(hex, alpha)] *)
Definition hexToRGBA (host : Host) (hex : string) (alpha : Q) : string :=
  match hex_groups hex with
  | None => rgba "84" "224" "166" (Number_toString host alpha)
  | Some (r, g, b) =>
      rgba (Z_to_string r) (Z_to_string g) (Z_to_string b) (Number_toString host alpha)
  end.

(** What [actualFill] returns: a colour, or a vertical gradient with its
    colour stops. *)
Inductive Fill :=
| Flat (colour : string)
| Gradient (top bottom : Q) (stops : list (Q * string)).

(** [actualFill(context)], on the chart area (top, bottom) of the context,
    if it has one, and the border colour of its data set. *)
Definition actualFill (host : Host) (chartArea : option (Q * Q))
    (borderColor : option string) : Fill :=
  match chartArea with
  | None => Flat "rgba(84,224,166,0.18)"
  | Some (top, bottom) =>
      let color := color_or "#54e0a6" borderColor in
      Gradient top bottom
        [(0%Q, hexToRGBA host color (28 # 100)); (1%Q, hexToRGBA host color (6 # 100))]
  end.

(** The lower-case hexadecimal digit of a value below sixteen, and the
    colour written with six of them. *)
Definition hex_char (k : Z) : ascii :=
  nth (Z.to_nat k) (list_ascii_of_string "0123456789abcdef") "0"%char.

Definition hex_byte (z : Z) : string :=
  String (hex_char (z / 16)) (String (hex_char (z mod 16)) EmptyString).

Definition hex_colour (r g b : Z) : string := hex_byte r +:+ hex_byte g +:+ hex_byte b.

(** ** The journal modal ([modal.js])

    The file declares [openModal] twice; the second declaration, with a
    text as its argument, replaces the first, and is the one embedded. *)

(** [document.getElementById(i).p = v]: on a missing element the
    assignment throws. *)
Definition update_element (i : string) (f : Element -> Element) : Async unit := fun st =>
  match getElementById i st with
  | Some e => (Normal tt, putElement i (f e) st)
  | None => (Thrown "TypeError: document.getElementById(...) is null", st)
  end.

(** [openModal(content)] *)
Definition openModal (content : string) : Async unit :=
  update_element "modalContent" (set_textContent content) ;;
  update_element "journalModal" (set_style "display" "block").

(** [closeModal()] *)
Definition closeModal : Async unit :=
  update_element "journalModal" (set_style "display" "none").

Definition modal_display (st : App) : option string :=
  modal ← getElementById "journalModal" st; style modal !! "display".

Definition modal_text (st : App) : option string :=
  textContent <$> getElementById "modalContent" st.

(** ** The theme (lines 268-279) *)

(** The attribute [data-theme] of the root element and the entry [theme]
    of the local storage. *)
Record Theme := {
  data_theme : option string;
  stored_theme : option string }.

(** [applyTheme(theme)] *)
Definition applyTheme (theme : string) (p : Theme * App) : Theme * App :=
  ({| data_theme := Some theme; stored_theme := Some theme |},
   match getElementById "themeToggle" (snd p) with
   | Some btn =>
       putElement "themeToggle"
         (set_textContent
            (if String.eqb theme "light" then "Dark Mode" else "Light Mode") btn) (snd p)
   | None => snd p
   end).

(** [applyTheme(localStorage.getItem('theme') || 'dark')] *)
Definition initTheme (p : Theme * App) : Theme * App :=
  applyTheme (match stored_theme (fst p) with
              | Some s => if truthy_string s then s else "dark"
              | None => "dark"
              end) p.

(** The [click] listener of the theme button. *)
Definition themeToggle_click (p : Theme * App) : Theme * App :=
  applyTheme (if bool_decide (data_theme (fst p) = Some "light") then "dark" else "light") p.

Definition toggle_label (st : App) : option string :=
  textContent <$> getElementById "themeToggle" st.

(** ** The navigation bar (lines 251-255) *)

(** The buttons that [document.querySelectorAll('nav.primary-nav button')]
    finds, in the order of the document, and the targets that were
    scrolled into view. *)
Record Nav := {
  navButtons : list Element;
  scrolledTo : list string }.

(** [btn.dataset.target], as [getElementById] reads it. *)
Definition dataset_target (btn : Element) : string :=
  default "undefined" (attributes btn !! "data-target").

(** The [click] listener of the [k]-th navigation button. *)
Definition nav_click (k : nat) (st : App) (nav : Nav) : Nav :=
  match navButtons nav !! k with
  | Some btn =>
      match getElementById (dataset_target btn) st with
      | Some _ =>
          {| navButtons :=
               alter (classList_add "active") k
                 (classList_remove "active" <$> navButtons nav);
             scrolledTo := scrolledTo nav ++ [dataset_target btn] |}
      | None => nav
      end
  | None => nav
  end.

(** [setupNavigation()], the listeners apart. *)
Definition setupNavigation (nav : Nav) : Nav :=
  match navButtons nav with
  | first :: rest =>
      {| navButtons := classList_add "active" first :: rest;
         scrolledTo := scrolledTo nav |}
  | [] => nav
  end.

(** ** Invariants of a session *)

(** An asynchronous function, or a synchronous one, every run of which
    relates the state before to the state after. *)
Definition preserving (R : App -> App -> Prop) {A} (m : Async A) : Prop :=
  forall st, R st (final_state (m st)).

Definition stepping (R : App -> App -> Prop) (f : App -> App) : Prop :=
  forall st, R st (f st).

Definition same_range (st st' : App) : Prop := currentRange st' = currentRange st.

(** On a page with the chart area and the toast container, at most the
    chart behind the handle is live. *)
Definition keeps_one_chart (st st' : App) : Prop :=
  page_ready st /\ single_chart st -> page_ready st' /\ single_chart st'.

(** The events of a session, handled one after the other. *)
Definition session (host : Host) (events : list Event) (st : App) : App :=
  fold_left (fun s e => final_state (handle host e s)) events st.

Definition is_range_click (e : Event) : bool :=
  match e with
  | Click (SelectRange _) => true
  | _ => false
  end.

(** ** Further example pages and hosts *)

Definition diary : list Entry :=
  [{| content := "Slept well"; timestamp := "2024-01-01" |};
   {| content := "Long run"; timestamp := "2024-01-02T08:00" |}].

(** A server that holds no habit and two journal entries. *)
Definition diary_answers (n : nat) (r : Request) : FetchResult (Payload r) :=
  match r with
  | GetHabits => Response true (JsonValue [])
  | GetJournal => Response true (JsonValue diary)
  | GetIdealSelf => healthy_answers n GetIdealSelf
  | PostHabit a b c => healthy_answers n (PostHabit a b c)
  | GetProgress i d => healthy_answers n (GetProgress i d)
  | PostDemoReset | PostIdealSelf _ _ | PostJournal _ | PutHabit _ _ =>
      Response true (JsonValue tt)
  end.

Definition diary_host : Host :=
  {| respond := diary_answers;
     chartDefined := true;
     chartConstructs := fun _ => true;
     numberToString := fun _ => "";
     dateValue := fun s => Some (Z.of_nat (String.length s));
     engineOrder := fun l => l;
     toLocaleString := fun s => s |}.

(** A server that answers every request with a failure status. *)
Definition refusing_host : Host :=
  {| respond := fun _ _ => Response false JsonError;
     chartDefined := true;
     chartConstructs := fun _ => true;
     numberToString := fun _ => "";
     dateValue := fun s => Some (Z.of_nat (String.length s));
     engineOrder := fun l => l;
     toLocaleString := fun s => s |}.

(** The example page with "Meditate" selected and no chart yet. *)
Definition selected_app : App := set_currentHabitId (Some 1) initial_app.

(** The example page with a journal input of white space. *)
Definition blank_entry_app : App := set_field "journalInput" "   " initial_app.

(** The example page with the journal modal. *)
Definition modal_app : App :=
  putElement "journalModal" (createElement "div")
    (putElement "modalContent" (createElement "p") initial_app).

(** A navigation bar of three buttons; the markup marks the second one
    active, and the third one has no target. *)
Definition example_nav : Nav :=
  {| navButtons :=
       [setAttribute "data-target" "habitList" (createElement "button");
        classList_add "active"
          (setAttribute "data-target" "journalEntries" (createElement "button"));
        createElement "button"];
     scrolledTo := [] |}.

(** * Properties *)

(** ** Elements and the page *)

Lemma classList_set_classList l e : classList (set_classList l e) = l.
Proof. reflexivity. Qed.

Lemma set_classList_twice l l' e : set_classList l (set_classList l' e) = set_classList l e.
Proof. reflexivity. Qed.

Lemma classList_add_elem c e : c ∈ classList (classList_add c e).
Proof.
  unfold classList_add. case_bool_decide as Hc; [exact Hc|].
  cbn [classList set_classList]. apply elem_of_app. right.
  apply list_elem_of_singleton. reflexivity.
Qed.

Lemma classList_remove_not_elem c e : c ∉ classList (classList_remove c e).
Proof.
  unfold classList_remove. cbn [classList set_classList]. intros Hin.
  apply list_elem_of_In, filter_In in Hin. destruct Hin as [_ Hne].
  rewrite String.eqb_refl in Hne. discriminate.
Qed.

Lemma classList_add_present c e : c ∈ classList e -> classList_add c e = e.
Proof. intros H. unfold classList_add. rewrite bool_decide_eq_true_2; trivial. Qed.

Lemma filter_filter_same {A} (f : A -> bool) (l : list A) :
  List.filter f (List.filter f l) = List.filter f l.
Proof.
  induction l as [|a l IH]; simpl; [reflexivity|].
  destruct (f a) eqn:Hf; simpl; rewrite ?Hf, IH; reflexivity.
Qed.

Lemma insert_twice {V} (a b : string) (v w : V) (m : gmap string V) :
  <[a := v]> (<[b := w]> (<[a := v]> (<[b := w]> m))) = <[a := v]> (<[b := w]> m).
Proof.
  apply map_eq. intros k. rewrite !lookup_insert. repeat case_decide; reflexivity.
Qed.

Lemma mark_of_idem a v b w m p : mark_of a v b w m (mark_of a v b w m p) = mark_of a v b w m p.
Proof.
  unfold mark_of. destruct p as [tg cl tx ih vl dv ds sl sty att oc ch].
  destruct (truthy_string m);
    cbv [setAttribute set_textContent tagName classList textContent innerHTML value
         defaultValue disabled selected style attributes onclick children];
    rewrite insert_twice; reflexivity.
Qed.

Lemma mark_of_classList a v b w m p : classList (mark_of a v b w m p) = classList p.
Proof. unfold mark_of. destruct (truthy_string m); reflexivity. Qed.

Lemma mark_of_set_classList a v b w m l p :
  mark_of a v b w m (set_classList l p) = set_classList l (mark_of a v b w m p).
Proof. unfold mark_of. destruct (truthy_string m); reflexivity. Qed.

Lemma placeholder_hide_idem a v b w (m : string) p :
  classList_add "hidden" (mark_of a v b w m (classList_add "hidden" (mark_of a v b w m p))) =
  classList_add "hidden" (mark_of a v b w m p).
Proof.
  unfold classList_add at 2. rewrite mark_of_classList.
  case_bool_decide as Hcl.
  - rewrite mark_of_idem. reflexivity.
  - rewrite mark_of_set_classList, mark_of_idem.
    rewrite classList_add_present.
    + unfold classList_add. rewrite mark_of_classList.
      rewrite bool_decide_eq_false_2 by exact Hcl. reflexivity.
    + cbn [classList set_classList].
      apply elem_of_app. right. apply list_elem_of_singleton. reflexivity.
Qed.

Lemma placeholder_show_idem a v b w (m : string) p :
  classList_remove "hidden"
    (mark_of a v b w m (classList_remove "hidden" (mark_of a v b w m p))) =
  classList_remove "hidden" (mark_of a v b w m p).
Proof.
  unfold classList_remove.
  rewrite mark_of_set_classList, mark_of_idem, !mark_of_classList.
  rewrite classList_set_classList, filter_filter_same.
  apply set_classList_twice.
Qed.

Lemma canvas_show_idem c :
  let F := fun c => removeAttribute "aria-hidden" (set_style "display" "block" c) in
  F (F c) = F c.
Proof.
  intros F. subst F. cbv beta. destruct c as [tg cl tx ih vl dv ds sl sty att oc ch].
  cbv [removeAttribute set_style tagName classList textContent innerHTML value
       defaultValue disabled selected style attributes onclick children].
  f_equal.
  - apply insert_insert_eq.
  - apply map_eq. intros k. rewrite !lookup_delete. repeat case_decide; reflexivity.
Qed.

Lemma canvas_hide_idem c :
  let F := fun c => setAttribute "aria-hidden" "true" (set_style "display" "none" c) in
  F (F c) = F c.
Proof.
  intros F. subst F. cbv beta. destruct c as [tg cl tx ih vl dv ds sl sty att oc ch].
  cbv [setAttribute set_style tagName classList textContent innerHTML value
       defaultValue disabled selected style attributes onclick children].
  f_equal; apply insert_insert_eq.
Qed.

Lemma App_eq (a b : App) :
  habitChart a = habitChart b -> currentHabitId a = currentHabitId b ->
  currentRange a = currentRange b -> document a = document b ->
  chartStore a = chartStore b -> console a = console b ->
  requests a = requests b -> a = b.
Proof. destruct a, b. cbn. intros. subst. reflexivity. Qed.

Lemma getElementById_putElement_eq i e st :
  getElementById i (putElement i e st) = Some e.
Proof. unfold getElementById, putElement. cbn. apply lookup_insert_eq. Qed.

Lemma getElementById_putElement_ne i j e st :
  i ≠ j -> getElementById j (putElement i e st) = getElementById j st.
Proof. intros Hne. unfold getElementById, putElement. cbn. apply lookup_insert_ne, Hne. Qed.

(** ** Reading a field after a write *)

Lemma currentHabitId_set_habitChart v st :
  currentHabitId (set_habitChart v st) = currentHabitId st.
Proof. reflexivity. Qed.

Lemma currentRange_set_habitChart v st :
  currentRange (set_habitChart v st) = currentRange st.
Proof. reflexivity. Qed.

Lemma requests_set_habitChart v st :
  requests (set_habitChart v st) = requests st.
Proof. reflexivity. Qed.

Lemma console_set_habitChart v st :
  console (set_habitChart v st) = console st.
Proof. reflexivity. Qed.

Lemma document_set_habitChart v st :
  document (set_habitChart v st) = document st.
Proof. reflexivity. Qed.

Lemma currentHabitId_set_chartStore v st :
  currentHabitId (set_chartStore v st) = currentHabitId st.
Proof. reflexivity. Qed.

Lemma currentRange_set_chartStore v st :
  currentRange (set_chartStore v st) = currentRange st.
Proof. reflexivity. Qed.

Lemma requests_set_chartStore v st :
  requests (set_chartStore v st) = requests st.
Proof. reflexivity. Qed.

Lemma console_set_chartStore v st :
  console (set_chartStore v st) = console st.
Proof. reflexivity. Qed.

Lemma document_set_chartStore v st :
  document (set_chartStore v st) = document st.
Proof. reflexivity. Qed.

Lemma currentHabitId_set_console v st :
  currentHabitId (set_console v st) = currentHabitId st.
Proof. reflexivity. Qed.

Lemma currentRange_set_console v st :
  currentRange (set_console v st) = currentRange st.
Proof. reflexivity. Qed.

Lemma requests_set_console v st :
  requests (set_console v st) = requests st.
Proof. reflexivity. Qed.

Lemma console_set_console v st :
  console (set_console v st) = v.
Proof. reflexivity. Qed.

Lemma document_set_console v st :
  document (set_console v st) = document st.
Proof. reflexivity. Qed.

Lemma currentHabitId_set_requests v st :
  currentHabitId (set_requests v st) = currentHabitId st.
Proof. reflexivity. Qed.

Lemma currentRange_set_requests v st :
  currentRange (set_requests v st) = currentRange st.
Proof. reflexivity. Qed.

Lemma requests_set_requests v st :
  requests (set_requests v st) = v.
Proof. reflexivity. Qed.

Lemma console_set_requests v st :
  console (set_requests v st) = console st.
Proof. reflexivity. Qed.

Lemma document_set_requests v st :
  document (set_requests v st) = document st.
Proof. reflexivity. Qed.

Lemma currentHabitId_set_currentHabitId v st :
  currentHabitId (set_currentHabitId v st) = v.
Proof. reflexivity. Qed.

Lemma currentRange_set_currentHabitId v st :
  currentRange (set_currentHabitId v st) = currentRange st.
Proof. reflexivity. Qed.

Lemma requests_set_currentHabitId v st :
  requests (set_currentHabitId v st) = requests st.
Proof. reflexivity. Qed.

Lemma console_set_currentHabitId v st :
  console (set_currentHabitId v st) = console st.
Proof. reflexivity. Qed.

Lemma document_set_currentHabitId v st :
  document (set_currentHabitId v st) = document st.
Proof. reflexivity. Qed.

Lemma currentHabitId_set_currentRange v st :
  currentHabitId (set_currentRange v st) = currentHabitId st.
Proof. reflexivity. Qed.

Lemma currentRange_set_currentRange v st :
  currentRange (set_currentRange v st) = v.
Proof. reflexivity. Qed.

Lemma requests_set_currentRange v st :
  requests (set_currentRange v st) = requests st.
Proof. reflexivity. Qed.

Lemma console_set_currentRange v st :
  console (set_currentRange v st) = console st.
Proof. reflexivity. Qed.

Lemma document_set_currentRange v st :
  document (set_currentRange v st) = document st.
Proof. reflexivity. Qed.

Lemma currentHabitId_destroy h st :
  currentHabitId (destroy h st) = currentHabitId st.
Proof. reflexivity. Qed.

Lemma currentRange_destroy h st :
  currentRange (destroy h st) = currentRange st.
Proof. reflexivity. Qed.

Lemma requests_destroy h st :
  requests (destroy h st) = requests st.
Proof. reflexivity. Qed.

Lemma console_destroy h st :
  console (destroy h st) = console st.
Proof. reflexivity. Qed.

Lemma document_destroy h st :
  document (destroy h st) = document st.
Proof. reflexivity. Qed.

Lemma currentHabitId_putElement i e st :
  currentHabitId (putElement i e st) = currentHabitId st.
Proof. reflexivity. Qed.

Lemma currentRange_putElement i e st :
  currentRange (putElement i e st) = currentRange st.
Proof. reflexivity. Qed.

Lemma requests_putElement i e st :
  requests (putElement i e st) = requests st.
Proof. reflexivity. Qed.

Lemma console_putElement i e st :
  console (putElement i e st) = console st.
Proof. reflexivity. Qed.

Create Rewrite HintDb fields.

#[global] Hint Rewrite
  currentHabitId_set_habitChart currentRange_set_habitChart requests_set_habitChart : fields.
#[global] Hint Rewrite
  console_set_habitChart document_set_habitChart currentHabitId_set_chartStore : fields.
#[global] Hint Rewrite
  currentRange_set_chartStore requests_set_chartStore console_set_chartStore : fields.
#[global] Hint Rewrite
  document_set_chartStore currentHabitId_set_console currentRange_set_console : fields.
#[global] Hint Rewrite
  requests_set_console console_set_console document_set_console : fields.
#[global] Hint Rewrite
  currentHabitId_set_requests currentRange_set_requests requests_set_requests : fields.
#[global] Hint Rewrite
  console_set_requests document_set_requests currentHabitId_set_currentHabitId : fields.
#[global] Hint Rewrite
  currentRange_set_currentHabitId requests_set_currentHabitId console_set_currentHabitId : fields.
#[global] Hint Rewrite
  document_set_currentHabitId currentHabitId_set_currentRange
  currentRange_set_currentRange : fields.
#[global] Hint Rewrite
  requests_set_currentRange console_set_currentRange document_set_currentRange : fields.
#[global] Hint Rewrite
  currentHabitId_destroy currentRange_destroy requests_destroy : fields.
#[global] Hint Rewrite
  console_destroy document_destroy currentHabitId_putElement : fields.
#[global] Hint Rewrite
  currentRange_putElement requests_putElement console_putElement : fields.

(** ** The visibility controller *)

Lemma habitChart_putElement i e st : habitChart (putElement i e st) = habitChart st.
Proof. reflexivity. Qed.

Lemma document_putElement i e st : document (putElement i e st) = <[i := e]> (document st).
Proof. reflexivity. Qed.

Lemma updateChartVisibility_unfold state message st canvas placeholder :
  getElementById "habitChart" st = Some canvas ->
  getElementById "chartEmptyState" st = Some placeholder ->
  updateChartVisibility state message st =
  release state
    (putElement "habitChart" (canvas_after state canvas)
       (putElement "chartEmptyState" (placeholder_after state message placeholder) st)).
Proof.
  intros Hc Hp. unfold updateChartVisibility. rewrite Hc, Hp.
  unfold release, placeholder_after, canvas_after, mark_of.
  rewrite !habitChart_putElement.
  destruct state; cbn [releases is_ready]; destruct (habitChart st); reflexivity.
Qed.

Lemma updateChartVisibility_absent state message st :
  getElementById "habitChart" st = None \/ getElementById "chartEmptyState" st = None ->
  updateChartVisibility state message st = st.
Proof.
  intros H. unfold updateChartVisibility.
  destruct H as [-> | ->]; [reflexivity |].
  destruct (getElementById "habitChart" st); reflexivity.
Qed.

Lemma document_release state st : document (release state st) = document st.
Proof. unfold release. destruct (habitChart st), (releases state); reflexivity. Qed.

Lemma getElementById_release i state st :
  getElementById i (release state st) = getElementById i st.
Proof. unfold getElementById. rewrite document_release. reflexivity. Qed.

Lemma updateChartVisibility_canvas state message st canvas placeholder :
  getElementById "habitChart" st = Some canvas ->
  getElementById "chartEmptyState" st = Some placeholder ->
  getElementById "habitChart" (updateChartVisibility state message st) =
  Some (canvas_after state canvas).
Proof.
  intros Hc Hp. rewrite (updateChartVisibility_unfold _ _ _ _ _ Hc Hp).
  rewrite getElementById_release. apply getElementById_putElement_eq.
Qed.

Lemma updateChartVisibility_placeholder state message st canvas placeholder :
  getElementById "habitChart" st = Some canvas ->
  getElementById "chartEmptyState" st = Some placeholder ->
  getElementById "chartEmptyState" (updateChartVisibility state message st) =
  Some (placeholder_after state message placeholder).
Proof.
  intros Hc Hp. rewrite (updateChartVisibility_unfold _ _ _ _ _ Hc Hp).
  rewrite getElementById_release.
  rewrite getElementById_putElement_ne by discriminate.
  apply getElementById_putElement_eq.
Qed.

Lemma updateChartVisibility_other i state message st :
  i ≠ "habitChart" -> i ≠ "chartEmptyState" ->
  getElementById i (updateChartVisibility state message st) = getElementById i st.
Proof.
  intros H1 H2.
  destruct (getElementById "habitChart" st) as [canvas|] eqn:Hc;
    [| rewrite updateChartVisibility_absent by (left; exact Hc); reflexivity ].
  destruct (getElementById "chartEmptyState" st) as [placeholder|] eqn:Hp;
    [| rewrite updateChartVisibility_absent by (right; exact Hp); reflexivity ].
  rewrite (updateChartVisibility_unfold _ _ _ _ _ Hc Hp), getElementById_release.
  rewrite !getElementById_putElement_ne by congruence. reflexivity.
Qed.

Lemma updateChartVisibility_present state message st :
  is_Some (getElementById "habitChart" st) ->
  is_Some (getElementById "chartEmptyState" st) ->
  is_Some (getElementById "habitChart" (updateChartVisibility state message st)) /\
  is_Some (getElementById "chartEmptyState" (updateChartVisibility state message st)).
Proof.
  intros [c Hc] [p Hp].
  rewrite (updateChartVisibility_canvas _ _ _ _ _ Hc Hp).
  rewrite (updateChartVisibility_placeholder _ _ _ _ _ Hc Hp).
  split; eexists; reflexivity.
Qed.

Ltac ucv_frame st :=
  let c := fresh "canvas" in
  let p := fresh "placeholder" in
  let Hc := fresh "Hc" in
  let Hp := fresh "Hp" in
  destruct (getElementById "habitChart" st) as [c|] eqn:Hc;
    [| rewrite updateChartVisibility_absent by (left; exact Hc); reflexivity ];
  destruct (getElementById "chartEmptyState" st) as [p|] eqn:Hp;
    [| rewrite updateChartVisibility_absent by (right; exact Hp); reflexivity ];
  rewrite (updateChartVisibility_unfold _ _ _ _ _ Hc Hp); unfold release;
  rewrite !habitChart_putElement;
  destruct (habitChart st); [destruct (releases _) |]; reflexivity.

Lemma updateChartVisibility_currentHabitId state message st :
  currentHabitId (updateChartVisibility state message st) = currentHabitId st.
Proof. ucv_frame st. Qed.

Lemma updateChartVisibility_currentRange state message st :
  currentRange (updateChartVisibility state message st) = currentRange st.
Proof. ucv_frame st. Qed.

Lemma updateChartVisibility_console state message st :
  console (updateChartVisibility state message st) = console st.
Proof. ucv_frame st. Qed.

Lemma updateChartVisibility_requests state message st :
  requests (updateChartVisibility state message st) = requests st.
Proof. ucv_frame st. Qed.

Lemma updateChartVisibility_habitChart state message st :
  is_Some (getElementById "habitChart" st) ->
  is_Some (getElementById "chartEmptyState" st) ->
  habitChart (updateChartVisibility state message st) =
  if releases state then None else habitChart st.
Proof.
  intros [c Hc] [p Hp]. rewrite (updateChartVisibility_unfold _ _ _ _ _ Hc Hp).
  unfold release.
  rewrite !habitChart_putElement.
  destruct (habitChart st) eqn:Hh, (releases state);
    rewrite ?habitChart_putElement, ?Hh; reflexivity.
Qed.

Lemma updateChartVisibility_chartStore state message st :
  is_Some (getElementById "habitChart" st) ->
  is_Some (getElementById "chartEmptyState" st) ->
  chartStore (updateChartVisibility state message st) =
  match habitChart st with
  | Some h =>
      if releases state
      then alter (fun c => {| config := config c; destroyed := true |}) h (chartStore st)
      else chartStore st
  | None => chartStore st
  end.
Proof.
  intros [c Hc] [p Hp]. rewrite (updateChartVisibility_unfold _ _ _ _ _ Hc Hp).
  unfold release.
  rewrite !habitChart_putElement.
  destruct (habitChart st) eqn:Hh, (releases state);
    rewrite ?habitChart_putElement, ?Hh; reflexivity.
Qed.

Lemma placeholder_after_idem state message p :
  placeholder_after state message (placeholder_after state message p) =
  placeholder_after state message p.
Proof.
  unfold placeholder_after. destruct (is_ready state).
  - apply placeholder_hide_idem.
  - apply placeholder_show_idem.
Qed.

Lemma canvas_after_idem state c : canvas_after state (canvas_after state c) = canvas_after state c.
Proof.
  unfold canvas_after. destruct (is_ready state).
  - apply canvas_show_idem.
  - apply canvas_hide_idem.
Qed.

Lemma textContent_classList_add c e : textContent (classList_add c e) = textContent e.
Proof. unfold classList_add. case_bool_decide; reflexivity. Qed.

Lemma placeholder_after_text state message p :
  textContent (placeholder_after state message p) =
  if truthy_string (default "" message) then default "" message else textContent p.
Proof.
  unfold placeholder_after, mark_of.
  destruct (is_ready state); rewrite ?textContent_classList_add;
    destruct (truthy_string (default "" message)); reflexivity.
Qed.

Lemma placeholder_after_hidden state message p :
  bool_decide ("hidden" ∈ classList (placeholder_after state message p)) = is_ready state.
Proof.
  unfold placeholder_after. destruct (is_ready state).
  - apply bool_decide_eq_true_2, classList_add_elem.
  - apply bool_decide_eq_false_2, classList_remove_not_elem.
Qed.

Lemma attributes_setAttribute a v e : attributes (setAttribute a v e) = <[a := v]> (attributes e).
Proof. reflexivity. Qed.

Lemma attributes_classList_add c e : attributes (classList_add c e) = attributes e.
Proof. unfold classList_add. case_bool_decide; reflexivity. Qed.

Lemma attributes_classList_remove c e : attributes (classList_remove c e) = attributes e.
Proof. reflexivity. Qed.

Lemma placeholder_after_attribute state message p :
  attributes (placeholder_after state message p) !! "data-state" = Some (state_name state) /\
  attributes (placeholder_after state message p) !! "aria-hidden" =
    Some (if is_ready state then "true" else "false").
Proof.
  unfold placeholder_after, mark_of.
  destruct (is_ready state);
    rewrite ?attributes_classList_add, ?attributes_classList_remove,
      !attributes_setAttribute;
    (split; [ rewrite lookup_insert_ne by discriminate; apply lookup_insert_eq
            | apply lookup_insert_eq ]).
Qed.

Lemma style_set_style a v e : style (set_style a v e) = <[a := v]> (style e).
Proof. reflexivity. Qed.

Lemma canvas_after_display state c :
  bool_decide (style (canvas_after state c) !! "display" = Some "none") = negb (is_ready state).
Proof.
  unfold canvas_after. destruct (is_ready state).
  - apply bool_decide_eq_false_2.
    change (style (removeAttribute "aria-hidden" (set_style "display" "block" c)))
      with (style (set_style "display" "block" c)).
    rewrite style_set_style, lookup_insert_eq. discriminate.
  - apply bool_decide_eq_true_2.
    change (style (setAttribute "aria-hidden" "true" (set_style "display" "none" c)))
      with (style (set_style "display" "none" c)).
    rewrite style_set_style. apply lookup_insert_eq.
Qed.

(** Which of the two is visible once the controller has run. *)
Lemma updateChartVisibility_visible state message st :
  is_Some (getElementById "habitChart" st) ->
  is_Some (getElementById "chartEmptyState" st) ->
  canvas_visible (updateChartVisibility state message st) = is_ready state /\
  placeholder_visible (updateChartVisibility state message st) = negb (is_ready state).
Proof.
  intros [c Hc] [p Hp]. unfold canvas_visible, placeholder_visible.
  rewrite (updateChartVisibility_canvas _ _ _ _ _ Hc Hp).
  rewrite (updateChartVisibility_placeholder _ _ _ _ _ Hc Hp).
  rewrite canvas_after_display, placeholder_after_hidden.
  destruct (is_ready state); split; reflexivity.
Qed.

Lemma updateChartVisibility_text state message st :
  is_Some (getElementById "habitChart" st) ->
  is_Some (getElementById "chartEmptyState" st) ->
  placeholder_text (updateChartVisibility state message st) =
  if truthy_string (default "" message) then Some (default "" message)
  else placeholder_text st.
Proof.
  intros [c Hc] [p Hp]. unfold placeholder_text.
  rewrite (updateChartVisibility_placeholder _ _ _ _ _ Hc Hp), Hp.
  cbn [fmap option_fmap option_map]. rewrite placeholder_after_text.
  destruct (truthy_string (default "" message)); reflexivity.
Qed.

Lemma updateChartVisibility_text_falsy state message st :
  truthy_string (default "" message) = false ->
  placeholder_text (updateChartVisibility state message st) = placeholder_text st.
Proof.
  intros Hm.
  destruct (getElementById "habitChart" st) as [canvas|] eqn:Hc;
    [| rewrite updateChartVisibility_absent by (left; exact Hc); reflexivity ].
  destruct (getElementById "chartEmptyState" st) as [placeholder|] eqn:Hp;
    [| rewrite updateChartVisibility_absent by (right; exact Hp); reflexivity ].
  rewrite updateChartVisibility_text, Hm by (eexists; eassumption). reflexivity.
Qed.

Lemma updateChartVisibility_state state message st :
  is_Some (getElementById "habitChart" st) ->
  is_Some (getElementById "chartEmptyState" st) ->
  visibility_state (updateChartVisibility state message st) = Some (state_name state).
Proof.
  intros [c Hc] [p Hp]. unfold visibility_state.
  rewrite (updateChartVisibility_placeholder _ _ _ _ _ Hc Hp).
  cbn [mbind option_bind]. apply placeholder_after_attribute.
Qed.

(** C2. For every state among empty, loading, ready and error and every
    optional message, once [updateChartVisibility] has run on a page that
    has both the canvas and the placeholder, exactly one of the two is
    visible: the canvas when the state is ready, the placeholder
    otherwise; never both, never neither. *)
Theorem updateChartVisibility_exactly_one_visible
    (state : ChartState) (message : option string) (st : App) :
  is_Some (getElementById "habitChart" st) ->
  is_Some (getElementById "chartEmptyState" st) ->
  let st' := updateChartVisibility state message st in
  canvas_visible st' = negb (placeholder_visible st') /\
  (canvas_visible st' = true <-> state = ready).
Proof.
  intros Hc Hp st'. subst st'.
  destruct (updateChartVisibility_visible state message st Hc Hp) as [-> ->].
  split.
  - destruct (is_ready state); reflexivity.
  - destruct state; cbn; split; congruence.
Qed.

(** C9. The visibility setter is idempotent: for every state and every
    optional message, running [updateChartVisibility] a second time with
    the same arguments leaves the whole application state, hence the
    visibility of the placeholder and of the canvas, the aria attributes
    and the chart handle, as the first run left it. *)
Theorem updateChartVisibility_idempotent
    (state : ChartState) (message : option string) (st : App) :
  updateChartVisibility state message (updateChartVisibility state message st) =
  updateChartVisibility state message st.
Proof.
  destruct (getElementById "habitChart" st) as [canvas|] eqn:Hc;
    [| rewrite !(updateChartVisibility_absent _ _ st) by (left; exact Hc); reflexivity ].
  destruct (getElementById "chartEmptyState" st) as [placeholder|] eqn:Hp;
    [| rewrite !(updateChartVisibility_absent _ _ st) by (right; exact Hp); reflexivity ].
  assert (Hc1 : is_Some (getElementById "habitChart" st)) by (eexists; exact Hc).
  assert (Hp1 : is_Some (getElementById "chartEmptyState" st)) by (eexists; exact Hp).
  destruct (updateChartVisibility_present state message st Hc1 Hp1) as [Hc2 Hp2].
  pose proof (updateChartVisibility_canvas state message _ _ _ Hc Hp) as Hc3.
  pose proof (updateChartVisibility_placeholder state message _ _ _ Hc Hp) as Hp3.
  apply App_eq.
  - rewrite !updateChartVisibility_habitChart by assumption.
    destruct (releases state); reflexivity.
  - rewrite !updateChartVisibility_currentHabitId. reflexivity.
  - rewrite !updateChartVisibility_currentRange. reflexivity.
  - rewrite (updateChartVisibility_unfold _ _ _ _ _ Hc3 Hp3), document_release.
    rewrite canvas_after_idem, placeholder_after_idem.
    rewrite (updateChartVisibility_unfold _ _ _ _ _ Hc Hp).
    rewrite !document_putElement, document_release, !document_putElement.
    apply insert_twice.
  - rewrite (updateChartVisibility_chartStore _ _ (updateChartVisibility state message st))
      by assumption.
    rewrite (updateChartVisibility_habitChart _ _ st) by assumption.
    destruct (releases state) eqn:Hr; [reflexivity |].
    destruct (habitChart st); reflexivity.
  - rewrite !updateChartVisibility_console. reflexivity.
  - rewrite !updateChartVisibility_requests. reflexivity.
Qed.

Lemma without_marks_placeholder_after state message p :
  truthy_string (default "" message) = false ->
  without_marks (placeholder_after state message p) = without_marks p.
Proof.
  intros Hm. unfold placeholder_after, mark_of. rewrite Hm.
  assert (Hf : forall l : list string,
            List.filter (fun x => negb (String.eqb x "hidden")) (l ++ ["hidden"]) =
            List.filter (fun x => negb (String.eqb x "hidden")) l).
  { intros l. rewrite List.filter_app. cbn. apply app_nil_r. }
  assert (Hg : forall l : list string,
            List.filter (fun x => negb (String.eqb x "hidden"))
              (List.filter (fun x => negb (String.eqb x "hidden")) l) =
            List.filter (fun x => negb (String.eqb x "hidden")) l).
  { intros l. induction l as [|x l IH]; [reflexivity|]. cbn [List.filter].
    destruct (negb (String.eqb x "hidden")) eqn:E; [| exact IH].
    cbn [List.filter]. rewrite E, IH. reflexivity. }
  assert (Ha : forall (v w : string) (m : gmap string string),
            delete "data-state" (delete "aria-hidden"
              (<["aria-hidden" := v]> (<["data-state" := w]> m))) =
            delete "data-state" (delete "aria-hidden" m)).
  { intros v w m. apply map_eq. intros k.
    destruct (decide (k = "data-state")) as [-> | Hd]; [by simplify_map_eq|].
    destruct (decide (k = "aria-hidden")) as [-> | Hh]; by simplify_map_eq. }
  destruct (is_ready state); unfold without_marks, classList_add, classList_remove.
  - destruct (bool_decide _); unfold set_classList, setAttribute; cbn; rewrite ?Hf, Ha;
      reflexivity.
  - unfold set_classList, setAttribute; cbn. rewrite Hg, Ha. reflexivity.
Qed.

Lemma without_display_canvas_after state c :
  without_display (canvas_after state c) = without_display c.
Proof.
  assert (Hs : forall (v : string) (m : gmap string string),
            delete "display" (<["display" := v]> m) = delete "display" m).
  { intros v m. apply map_eq. intros k.
    destruct (decide (k = "display")) as [-> | Hd]; by simplify_map_eq. }
  assert (Ha : forall (v : string) (m : gmap string string),
            delete "aria-hidden" (<["aria-hidden" := v]> m) = delete "aria-hidden" m).
  { intros v m. apply map_eq. intros k.
    destruct (decide (k = "aria-hidden")) as [-> | Hd]; by simplify_map_eq. }
  assert (Hd : forall m : gmap string string,
            delete "aria-hidden" (delete "aria-hidden" m) = delete "aria-hidden" m).
  { intros m. apply map_eq. intros k.
    destruct (decide (k = "aria-hidden")) as [-> | Hd]; by simplify_map_eq. }
  unfold canvas_after, without_display.
  destruct (is_ready state); unfold removeAttribute, setAttribute, set_style; cbn;
    rewrite Hs, ?Ha, ?Hd; reflexivity.
Qed.

Lemma updateChartVisibility_same_page state message st :
  truthy_string (default "" message) = false ->
  same_page_but_marks st (updateChartVisibility state message st).
Proof.
  intros Hm.
  destruct (getElementById "habitChart" st) as [canvas|] eqn:Hc;
    [| rewrite updateChartVisibility_absent by (left; exact Hc);
       split; [| split]; reflexivity ].
  destruct (getElementById "chartEmptyState" st) as [placeholder|] eqn:Hp;
    [| rewrite updateChartVisibility_absent by (right; exact Hp);
       split; [| split]; reflexivity ].
  split; [| split].
  - rewrite (updateChartVisibility_canvas _ _ _ _ _ Hc Hp), Hc.
    cbn [fmap option_fmap option_map]. rewrite without_display_canvas_after. reflexivity.
  - rewrite (updateChartVisibility_placeholder _ _ _ _ _ Hc Hp), Hp.
    cbn [fmap option_fmap option_map].
    rewrite without_marks_placeholder_after by exact Hm. reflexivity.
  - intros i H1 H2. apply updateChartVisibility_other; assumption.
Qed.

(** C10. When [updateChartVisibility] is called without a message, or
    with the empty string, the text of the placeholder is what it was
    before the call, whatever the state. What changes is the visibility,
    the dataset state and the aria attributes of the canvas and of the
    placeholder and, on entering the empty or the error state, the chart:
    it is destroyed and its handle cleared. Nothing else changes, and on
    a page without the canvas or without the placeholder nothing at all.
    So a state other than ready that is entered without a message shows,
    in a visible placeholder, the message of an earlier call. *)
Theorem updateChartVisibility_keeps_text_without_message
    (state : ChartState) (message : option string) (st : App) :
  message = None \/ message = Some "" ->
  let st' := updateChartVisibility state message st in
  placeholder_text st' = placeholder_text st /\
  same_page_but_marks st st' /\
  currentHabitId st' = currentHabitId st /\
  currentRange st' = currentRange st /\
  console st' = console st /\
  requests st' = requests st /\
  (is_Some (getElementById "habitChart" st) ->
   is_Some (getElementById "chartEmptyState" st) ->
     visibility_state st' = Some (state_name state) /\
     canvas_visible st' = is_ready state /\
     placeholder_visible st' = negb (is_ready state) /\
     habitChart st' = (if releases state then None else habitChart st) /\
     chartStore st' = (if releases state then released_store st else chartStore st)) /\
  (getElementById "habitChart" st = None \/ getElementById "chartEmptyState" st = None ->
     st' = st) /\
  forall (earlier : ChartState) (m : string),
    is_Some (getElementById "habitChart" st) ->
    is_Some (getElementById "chartEmptyState" st) ->
    truthy_string m = true ->
    state <> ready ->
    let st2 := updateChartVisibility state message
                 (updateChartVisibility earlier (Some m) st) in
    placeholder_text st2 = Some m /\ placeholder_visible st2 = true.
Proof.
  intros Hmsg st'. subst st'.
  assert (Hm : truthy_string (default "" message) = false)
    by (destruct Hmsg as [-> | ->]; reflexivity).
  split; [apply updateChartVisibility_text_falsy, Hm|].
  split; [apply updateChartVisibility_same_page, Hm|].
  split; [apply updateChartVisibility_currentHabitId|].
  split; [apply updateChartVisibility_currentRange|].
  split; [apply updateChartVisibility_console|].
  split; [apply updateChartVisibility_requests|].
  split; [| split].
  - intros Hc Hp.
    split; [apply updateChartVisibility_state; assumption|].
    destruct (updateChartVisibility_visible state message st Hc Hp) as [Hv1 Hv2].
    split; [exact Hv1|]. split; [exact Hv2|].
    split; [apply updateChartVisibility_habitChart; assumption|].
    rewrite updateChartVisibility_chartStore by assumption. unfold released_store.
    destruct (habitChart st), (releases state); reflexivity.
  - apply updateChartVisibility_absent.
  - intros earlier m Hc Hp Htruthy Hs st2.
    destruct (updateChartVisibility_present earlier (Some m) st Hc Hp) as [Hc1 Hp1].
    split.
    + subst st2. rewrite updateChartVisibility_text_falsy by exact Hm.
      rewrite updateChartVisibility_text by assumption.
      change (default "" (Some m)) with m. rewrite Htruthy. reflexivity.
    + destruct (updateChartVisibility_visible state message _ Hc1 Hp1) as [_ Hv].
      subst st2. rewrite Hv. destruct state; try reflexivity. contradiction.
Qed.

(** ** The selector *)

Lemma set_currentHabitId_eta st : set_currentHabitId (currentHabitId st) st = st.
Proof. destruct st. reflexivity. Qed.

Lemma select_step_state previous sel st h :
  exists c, snd (select_step previous (sel, st) h) = set_currentHabitId c st.
Proof.
  unfold select_step.
  destruct (truthy_id previous && bool_decide (previous = Some (id h))
            || negb (truthy_id previous) && negb (truthy_id (currentHabitId st)));
    cbn [snd]; eexists; [reflexivity | symmetry; apply set_currentHabitId_eta].
Qed.

(** The loop only ever writes [currentHabitId]. *)
Lemma select_fold_state previous habits sel st :
  exists c, snd (fold_left (select_step previous) habits (sel, st)) = set_currentHabitId c st.
Proof.
  revert sel st. induction habits as [|h habits IH]; intros sel st.
  - cbn [fold_left snd]. eexists. symmetry. apply set_currentHabitId_eta.
  - cbn [fold_left].
    destruct (select_step_state previous sel st h) as [c Hc].
    destruct (select_step previous (sel, st) h) as [sel1 st1].
    cbn [snd] in Hc. subst st1.
    destruct (IH sel1 (set_currentHabitId c st)) as [c' Hc'].
    exists c'. rewrite Hc'. reflexivity.
Qed.

Lemma select_step_keeps previous sel st h :
  truthy_id previous = true ->
  currentHabitId st = previous ->
  currentHabitId (snd (select_step previous (sel, st) h)) = previous.
Proof.
  intros Ht Hcur. unfold select_step. rewrite Ht. cbn [negb andb]. rewrite orb_false_r.
  case_bool_decide as Heq; cbn [snd]; [symmetry; exact Heq | exact Hcur].
Qed.

(** With a truthy previous identifier the loop can only write that same
    identifier. *)
Lemma select_fold_keeps previous habits sel st :
  truthy_id previous = true ->
  currentHabitId st = previous ->
  currentHabitId (snd (fold_left (select_step previous) habits (sel, st))) = previous.
Proof.
  intros Ht. revert sel st. induction habits as [|h habits IH]; intros sel st Hcur.
  - exact Hcur.
  - cbn [fold_left].
    pose proof (select_step_keeps previous sel st h Ht Hcur) as Hstep.
    destruct (select_step previous (sel, st) h) as [sel1 st1].
    apply IH. exact Hstep.
Qed.

Lemma updateHabitSelectOptions_absent habits st :
  getElementById "habitSelect" st = None -> updateHabitSelectOptions habits st = st.
Proof. intros H. unfold updateHabitSelectOptions. rewrite H. reflexivity. Qed.

(** The selector and the identifier that the reconciliation leaves. *)
Lemma updateHabitSelectOptions_shape habits st select :
  getElementById "habitSelect" st = Some select ->
  exists sel' c,
    updateHabitSelectOptions habits st =
    putElement "habitSelect" sel' (set_currentHabitId c st).
Proof.
  intros Hs. unfold updateHabitSelectOptions. rewrite Hs.
  destruct (select_fold_state (currentHabitId st) habits (set_innerHTML "" select) st)
    as [c Hf].
  destruct (fold_left (select_step (currentHabitId st)) habits (set_innerHTML "" select, st))
    as [sel1 st1].
  cbn [snd] in Hf. subst st1.
  destruct habits as [|first rest].
  - eexists _, _. reflexivity.
  - destruct (existsb _ _); eexists _, _; reflexivity.
Qed.

Lemma existsb_id_elem (habits : list Habit) (cur : option Z) :
  existsb (fun h => bool_decide (Some (id h) = cur)) habits = true <->
  exists h, h ∈ habits /\ cur = Some (id h).
Proof.
  rewrite existsb_exists. split.
  - intros (h & Hin & Hd). exists h. split; [apply list_elem_of_In, Hin|].
    apply bool_decide_eq_true_1 in Hd. congruence.
  - intros (h & Hin & Hd). exists h. split; [apply list_elem_of_In, Hin|].
    apply bool_decide_eq_true_2. congruence.
Qed.

(** C1. After every reconciliation of the selector with a fetched habit
    collection, on a page that has the selector: if the collection is
    empty, the current-habit identifier is null and the selector holds
    exactly one option, the disabled placeholder "No habits yet"; if the
    collection is not empty, the current-habit identifier is the id of
    one of its members. *)
Theorem updateHabitSelectOptions_reconciles (habits : list Habit) (st : App) :
  is_Some (getElementById "habitSelect" st) ->
  let st' := updateHabitSelectOptions habits st in
  (habits = [] ->
     currentHabitId st' = None /\
     exists sel option,
       getElementById "habitSelect" st' = Some sel /\
       children sel = [option] /\
       disabled option = true /\
       textContent option = "No habits yet") /\
  (habits <> [] -> exists h, h ∈ habits /\ currentHabitId st' = Some (id h)).
Proof.
  intros [select Hs] st'. subst st'. split.
  - intros ->. unfold updateHabitSelectOptions. rewrite Hs. cbn [fold_left].
    split; [reflexivity|].
    rewrite getElementById_putElement_eq.
    eexists. exists no_habits_option. split; [reflexivity|].
    split; [reflexivity|]. split; reflexivity.
  - intros Hne. unfold updateHabitSelectOptions. rewrite Hs.
    destruct (fold_left (select_step (currentHabitId st)) habits (set_innerHTML "" select, st))
      as [sel1 st1].
    destruct habits as [|first rest]; [contradiction|].
    destruct (existsb _ _) eqn:Hfound.
    + apply existsb_id_elem in Hfound. destruct Hfound as (h & Hin & Hcur).
      exists h. split; [exact Hin | exact Hcur].
    + exists first. split; [apply list_elem_of_here | reflexivity].
Qed.

(** C5, as the code has it. For every habit collection and every truthy
    (non-null, non-zero) current-habit identifier that is the id of some
    habit of the collection, [updateHabitSelectOptions] leaves the
    current-habit identifier unchanged. *)
Theorem updateHabitSelectOptions_keeps_selection
    (habits : list Habit) (st : App) (h : Habit) :
  h ∈ habits ->
  currentHabitId st = Some (id h) ->
  truthy_id (currentHabitId st) = true ->
  currentHabitId (updateHabitSelectOptions habits st) = currentHabitId st.
Proof.
  intros Hin Hcur Ht.
  destruct (getElementById "habitSelect" st) as [select|] eqn:Hs;
    [| rewrite updateHabitSelectOptions_absent by exact Hs; reflexivity ].
  unfold updateHabitSelectOptions. rewrite Hs.
  pose proof (select_fold_keeps (currentHabitId st) habits (set_innerHTML "" select) st
                Ht eq_refl) as Hkeep.
  destruct (fold_left (select_step (currentHabitId st)) habits (set_innerHTML "" select, st))
    as [sel1 st1].
  cbn [snd] in Hkeep.
  destruct habits as [|first rest]; [inversion Hin|].
  assert (Hfound : existsb (fun h0 => bool_decide (Some (id h0) = currentHabitId st1))
                     (first :: rest) = true).
  { apply existsb_id_elem. exists h. split; [exact Hin | congruence]. }
  rewrite Hfound. exact Hkeep.
Qed.

(** ** The derived display of a habit *)

Section Display.

Variable host : Host.

Lemma fold_appendChild_children {A} (f : A -> Element) (xs : list A) (l : Element) :
  children (fold_left (fun l x => appendChild (f x) l) xs l) = children l ++ (f <$> xs).
Proof.
  revert l. induction xs as [|x xs IH]; intros l; cbn [fold_left fmap list_fmap].
  - rewrite app_nil_r. reflexivity.
  - rewrite IH. change (children (appendChild (f x) l)) with (children l ++ [f x]).
    rewrite <- app_assoc. reflexivity.
Qed.

(** What [renderHabits] puts in the list for a collection that is not
    empty: one item per habit, in order. *)
Lemma renderHabits_items (habits : list Habit) (st : App) (list : Element) :
  getElementById "habitList" st = Some list ->
  habits <> [] ->
  children <$> getElementById "habitList" (renderHabits host habits st) =
  Some (habit_item host habits <$> habits).
Proof.
  intros Hl Hne. unfold renderHabits. rewrite Hl.
  destruct habits as [|h0 rest]; [contradiction|].
  rewrite getElementById_putElement_eq. cbn [fmap option_fmap option_map].
  rewrite fold_appendChild_children. reflexivity.
Qed.




Lemma actualWidth_range h : 0 <= actualWidth h <= 100.
Proof. unfold actualWidth, Math_min, Math_max. lia. Qed.







End Display.

(** ** Frames of the synchronous functions *)

Lemma classList_add_mono c c' e : c' ∈ classList e -> c' ∈ classList (classList_add c e).
Proof.
  intros H. unfold classList_add. case_bool_decide; [exact H|].
  rewrite classList_set_classList. apply elem_of_app. left. exact H.
Qed.

Lemma showToast_absent message tone st :
  getElementById "toastContainer" st = None -> showToast message tone st = st.
Proof. intros H. unfold showToast. rewrite H. reflexivity. Qed.

Lemma showToast_unfold message tone st container :
  getElementById "toastContainer" st = Some container ->
  exists toast,
    showToast message tone st = putElement "toastContainer" (appendChild toast container) st /\
    textContent toast = message /\
    "toast" ∈ classList toast /\
    (tone <> "info" -> tone ∈ classList toast).
Proof.
  intros H. unfold showToast. rewrite H. eexists. split; [reflexivity|].
  destruct (String.eqb_spec tone "info") as [-> | Hne].
  - split; [reflexivity|]. split; [apply list_elem_of_here | congruence].
  - split; [reflexivity|]. split.
    + change (classList (set_textContent message ?e)) with (classList e).
      apply classList_add_mono, list_elem_of_here.
    + intros _. change (classList (set_textContent message ?e)) with (classList e).
      apply classList_add_elem.
Qed.

Lemma showToast_document message tone st :
  exists e, showToast message tone st = st \/
            showToast message tone st = putElement "toastContainer" e st.
Proof.
  destruct (getElementById "toastContainer" st) as [container|] eqn:H.
  - destruct (showToast_unfold message tone st container H) as (toast & Heq & _).
    eexists. right. exact Heq.
  - exists (createElement "div"). left. apply showToast_absent, H.
Qed.

Lemma showToast_other i message tone st :
  i <> "toastContainer" ->
  getElementById i (showToast message tone st) = getElementById i st.
Proof.
  intros Hne. destruct (showToast_document message tone st) as [e [-> | ->]];
    [reflexivity | apply getElementById_putElement_ne; congruence].
Qed.

Ltac toast_frame message tone st :=
  destruct (showToast_document message tone st) as [? [-> | ->]]; reflexivity.

Lemma showToast_habitChart message tone st :
  habitChart (showToast message tone st) = habitChart st.
Proof. toast_frame message tone st. Qed.

Lemma showToast_chartStore message tone st :
  chartStore (showToast message tone st) = chartStore st.
Proof. toast_frame message tone st. Qed.

Lemma showToast_currentHabitId message tone st :
  currentHabitId (showToast message tone st) = currentHabitId st.
Proof. toast_frame message tone st. Qed.

Lemma showToast_currentRange message tone st :
  currentRange (showToast message tone st) = currentRange st.
Proof. toast_frame message tone st. Qed.

Lemma showToast_console message tone st :
  console (showToast message tone st) = console st.
Proof. toast_frame message tone st. Qed.

Lemma showToast_requests message tone st :
  requests (showToast message tone st) = requests st.
Proof. toast_frame message tone st. Qed.

Lemma showToast_toasts message tone st :
  is_Some (getElementById "toastContainer" st) ->
  exists toast,
    toasts (showToast message tone st) = toasts st ++ [toast] /\
    textContent toast = message /\
    (tone <> "info" -> tone ∈ classList toast).
Proof.
  intros [container H].
  destruct (showToast_unfold message tone st container H) as (toast & Heq & Ht & _ & Hc).
  exists toast. split; [| split; assumption].
  unfold toasts. rewrite Heq, getElementById_putElement_eq, H. reflexivity.
Qed.

Lemma updateChartVisibility_toasts state message st :
  toasts (updateChartVisibility state message st) = toasts st.
Proof.
  unfold toasts. rewrite updateChartVisibility_other by discriminate. reflexivity.
Qed.

Lemma showToast_visibility_state message tone st :
  visibility_state (showToast message tone st) = visibility_state st.
Proof. unfold visibility_state. rewrite showToast_other by discriminate. reflexivity. Qed.

Lemma showToast_placeholder_text message tone st :
  placeholder_text (showToast message tone st) = placeholder_text st.
Proof. unfold placeholder_text. rewrite showToast_other by discriminate. reflexivity. Qed.

(** ** Chart instances *)

Lemma live_destroy h st h' : live (destroy h st) h' -> live st h'.
Proof.
  unfold live, destroy. intros (c & Hl & Hd).
  change (chartStore (set_chartStore ?v st)) with v in Hl.
  destruct (decide (h = h')) as [<- | Hne].
  - rewrite list_lookup_alter_eq in Hl.
    destruct (chartStore st !! h) as [c0|]; [|discriminate].
    cbn in Hl. injection Hl as <-. discriminate.
  - rewrite list_lookup_alter_ne in Hl by exact Hne. eauto.
Qed.

Lemma not_live_destroy h st : ~ live (destroy h st) h.
Proof.
  unfold live, destroy. intros (c & Hl & Hd).
  change (chartStore (set_chartStore ?v st)) with v in Hl.
  rewrite list_lookup_alter_eq in Hl.
  destruct (chartStore st !! h) as [c0|]; [|discriminate].
  cbn in Hl. injection Hl as <-. discriminate.
Qed.

Lemma no_live_chart_spec st : no_live_chart st = true <-> forall h, ~ live st h.
Proof.
  unfold no_live_chart, live. rewrite forallb_forall. split.
  - intros H h (c & Hl & Hd).
    assert (Hin : In c (chartStore st)).
    { apply list_elem_of_In, list_elem_of_lookup. eauto. }
    rewrite (H c Hin) in Hd. discriminate.
  - intros H c Hin. apply list_elem_of_In, list_elem_of_lookup in Hin.
    destruct Hin as [h Hl]. destruct (destroyed c) eqn:Hd; [reflexivity|].
    exfalso. apply (H h). eauto.
Qed.

(** Entering the error state on a ready page, then showing a toast. *)
Lemma error_exit (X : App) (m t : string) :
  page_ready X -> single_chart X -> truthy_string m = true ->
  let st' := showToast t "error" (updateChartVisibility error (Some m) X) in
  visibility_state st' = Some "error" /\
  placeholder_text st' = Some m /\
  placeholder_visible st' = true /\
  habitChart st' = None /\
  no_live_chart st' = true /\
  (exists toast, toasts st' = toasts X ++ [toast] /\
                 textContent toast = t /\ "error" ∈ classList toast) /\
  currentHabitId st' = currentHabitId X /\
  currentRange st' = currentRange X /\
  requests st' = requests X /\
  console st' = console X.
Proof.
  intros (Hc & Hp & Ht) Hsingle Hm st'. subst st'.
  rewrite showToast_visibility_state, showToast_placeholder_text, showToast_habitChart.
  rewrite updateChartVisibility_state, updateChartVisibility_text by assumption.
  rewrite updateChartVisibility_habitChart by assumption.
  change (default "" (Some m)) with m. rewrite Hm.
  repeat split.
  - unfold placeholder_visible. rewrite showToast_other by discriminate.
    destruct (updateChartVisibility_visible error (Some m) X Hc Hp) as [_ Hv]. exact Hv.
  - apply no_live_chart_spec. intros h Hlive.
    unfold live in Hlive. rewrite showToast_chartStore in Hlive.
    rewrite updateChartVisibility_chartStore in Hlive by assumption.
    destruct (habitChart X) as [h0|] eqn:Hh; cbn [releases] in Hlive.
    + assert (Hl : live (destroy h0 X) h) by exact Hlive.
      pose proof (live_destroy _ _ _ Hl) as Hl0.
      apply Hsingle in Hl0. rewrite Hh in Hl0. injection Hl0 as ->.
      apply (not_live_destroy _ _ Hl).
    + assert (Hl : live X h) by exact Hlive.
      apply Hsingle in Hl. congruence.
  - destruct (showToast_toasts t "error" (updateChartVisibility error (Some m) X))
      as (toast & Htoasts & Htext & Hclass).
    { rewrite updateChartVisibility_other by discriminate. exact Ht. }
    exists toast. rewrite Htoasts, updateChartVisibility_toasts.
    split; [reflexivity|]. split; [exact Htext | apply Hclass; discriminate].
  - rewrite showToast_currentHabitId. apply updateChartVisibility_currentHabitId.
  - rewrite showToast_currentRange. apply updateChartVisibility_currentRange.
  - rewrite showToast_requests. apply updateChartVisibility_requests.
  - rewrite showToast_console. apply updateChartVisibility_console.
Qed.

(** ** The progress chart orchestrator *)

Section Progress.

Variable host : Host.

Lemma truthy_id_Some i : truthy_id (Some i) = true <-> i <> 0.
Proof. cbn. rewrite negb_true_iff, Z.eqb_neq. reflexivity. Qed.

Lemma loadHabitProgress_noop st :
  truthy_id (currentHabitId st) = false ->
  loadHabitProgress host st = (Normal tt, st).
Proof.
  intros H. unfold loadHabitProgress.
  destruct (currentHabitId st) as [i|]; [rewrite H|]; reflexivity.
Qed.

Lemma progress_mid_page st X : progress_mid st X -> page_ready st -> page_ready X.
Proof.
  intros (Hdoc & _) (Hc & Hp & Ht). unfold page_ready, getElementById. rewrite Hdoc.
  destruct (updateChartVisibility_present loading (Some "Loading progress...") st Hc Hp)
    as [Hc' Hp'].
  split; [exact Hc' | split; [exact Hp' |]].
  change (is_Some (getElementById "toastContainer"
            (updateChartVisibility loading (Some "Loading progress...") st))).
  rewrite updateChartVisibility_other by discriminate. exact Ht.
Qed.

Lemma progress_mid_single st X : progress_mid st X -> single_chart st -> single_chart X.
Proof.
  intros (_ & _ & _ & Hh & Hlive & _) Hs h Hl. rewrite Hh. apply Hs, Hlive, Hl.
Qed.

Lemma progress_mid_toasts st X : progress_mid st X -> toasts X = toasts st.
Proof.
  intros (Hdoc & _). unfold toasts at 1. unfold getElementById. rewrite Hdoc.
  apply (updateChartVisibility_toasts loading (Some "Loading progress...") st).
Qed.

Ltac mid_frame :=
  repeat split;
  [ reflexivity
  | apply updateChartVisibility_currentHabitId
  | apply updateChartVisibility_currentRange
  | idtac
  | idtac
  | idtac ].

(** The state a failing run leaves, as an entry into the error state
    followed by a toast. *)
Lemma loadHabitProgress_fails_shape st :
  is_Some (getElementById "habitChart" st) ->
  is_Some (getElementById "chartEmptyState" st) ->
  progress_fails host st = true ->
  exists X m t,
    loadHabitProgress host st =
      (Normal tt, showToast t "error" (updateChartVisibility error (Some m) X)) /\
    truthy_string m = true /\ truthy_string t = true /\ progress_mid st X.
Proof.
  intros Hc Hp Hfail. unfold progress_fails in Hfail. unfold loadHabitProgress.
  destruct (currentHabitId st) as [i|] eqn:Hcur; [|discriminate].
  apply andb_true_iff in Hfail. destruct Hfail as [Ht Hfail]. rewrite Ht. cbn [negb].
  unfold mbind, Async_bind, try_catch, fetch, lift, console_error. cbv beta.
  set (st0 := updateChartVisibility loading (Some "Loading progress...") st) in *.
  assert (Hreq : requests st0 = requests st) by apply updateChartVisibility_requests.
  assert (Hhc : habitChart st0 = habitChart st).
  { subst st0. rewrite updateChartVisibility_habitChart by assumption. reflexivity. }
  assert (Hcs : chartStore st0 = chartStore st).
  { subst st0. rewrite updateChartVisibility_chartStore by assumption.
    destruct (habitChart st); reflexivity. }
  assert (Hmid : forall X,
            document X = document st0 -> currentHabitId X = currentHabitId st0 ->
            currentRange X = currentRange st0 -> habitChart X = habitChart st0 ->
            (forall h, live X h -> live st0 h) ->
            requests X = requests st0 ++ [GetProgress i (currentRange st)] ->
            progress_mid st X).
  { intros X H1 H2 H3 H4 H5 H6. unfold progress_mid. fold st0.
    split; [exact H1|]. split.
    { rewrite H2. apply updateChartVisibility_currentHabitId. }
    split.
    { rewrite H3. apply updateChartVisibility_currentRange. }
    split; [congruence|]. split.
    { intros h Hl. apply H5 in Hl. unfold live in *. rewrite Hcs in Hl. exact Hl. }
    exists i. split; [exact Hcur | congruence]. }
  rewrite Hreq.
  set (st1 := set_requests (requests st ++ [GetProgress i (currentRange st)]) st0).
  assert (Hmid1 : forall e, progress_mid st (set_console (console st1 ++ [e]) st1)).
  { intros e. apply Hmid; try reflexivity; [intros h Hl; exact Hl |].
    subst st1. cbn. rewrite Hreq. reflexivity. }
  destruct (respond host (length (requests st)) (GetProgress i (currentRange st)))
    as [|ok body].
  - eexists _, _, _. split; [reflexivity|]. split; [reflexivity|].
    split; [reflexivity | apply Hmid1].
  - unfold ok_json, require_ok, mbind, Async_bind. cbn [fst snd]. destruct ok.
    + unfold mret, Async_ret. cbv beta. unfold json. destruct body as [|data].
      * unfold throw. eexists _, _, _. split; [reflexivity|]. split; [reflexivity|].
        split; [reflexivity | apply Hmid1].
      * unfold mret, Async_ret, gets. cbv beta.
        assert (Hc1 : is_Some (getElementById "habitChart" st1)).
        { apply (updateChartVisibility_present loading _ st Hc Hp). }
        destruct Hc1 as [canvas1 Hc1]. rewrite Hc1.
        destruct (chartDefined host) eqn:Hdef.
        2:{ eexists _, _, _. split; [reflexivity|]. split; [reflexivity|].
            split; [reflexivity|].
            apply Hmid; try reflexivity; [intros h Hl; exact Hl |].
            subst st1. cbn. rewrite Hreq. reflexivity. }
        cbn [negb orb] in Hfail.
        assert (Hmid2 : forall e st2,
                  st2 = match habitChart st1 with
                        | Some h => destroy h st1
                        | None => st1
                        end ->
                  progress_mid st (set_console (console st2 ++ [e]) st2)).
        { intros e st2 ->. apply Hmid; destruct (habitChart st1) eqn:Hh1;
            try reflexivity;
            try (intros h Hl; try apply live_destroy in Hl; exact Hl);
            try (subst st1; cbn; rewrite Hreq; reflexivity). }
        destruct (habitChart st1) as [h1|] eqn:Hh1; cbv beta iota;
          (destruct (dates data) as [ds|];
           [| unfold throw; eexists _, _, _; split; [reflexivity|]; split; [reflexivity|];
              split; [reflexivity | apply Hmid2; reflexivity] ]);
          (destruct (habit data) as [s|];
           [| unfold throw; eexists _, _, _; split; [reflexivity|]; split; [reflexivity|];
              split; [reflexivity | apply Hmid2; reflexivity] ]);
          unfold newChart; apply negb_true_iff in Hfail; rewrite Hfail;
          eexists _, _, _; (split; [reflexivity|]); (split; [reflexivity|]);
          (split; [reflexivity | apply Hmid2; reflexivity]).
    + unfold throw. eexists _, _, _. split; [reflexivity|]. split; [reflexivity|].
      split; [reflexivity | apply Hmid1].
Qed.

(** The complement: a run that passes the guard and does not fail ends
    in the ready state with a fresh chart behind the handle. *)
Lemma loadHabitProgress_succeeds st :
  is_Some (getElementById "habitChart" st) ->
  is_Some (getElementById "chartEmptyState" st) ->
  truthy_id (currentHabitId st) = true ->
  progress_fails host st = false ->
  let st' := final_state (loadHabitProgress host st) in
  visibility_state st' = Some "ready" /\
  canvas_visible st' = true /\
  habitChart st' = Some (length (chartStore st)) /\
  live st' (length (chartStore st)) /\
  (single_chart st -> single_chart st').
Proof.
  intros Hc Hp Htr Hfail st'. subst st'. unfold progress_fails in Hfail.
  unfold loadHabitProgress.
  destruct (currentHabitId st) as [i|] eqn:Hcur; [|discriminate].
  rewrite Htr in *. cbn [negb andb] in *.
  unfold mbind, Async_bind, try_catch, fetch, lift, console_error. cbv beta.
  set (st0 := updateChartVisibility loading (Some "Loading progress...") st) in *.
  assert (Hreq : requests st0 = requests st) by apply updateChartVisibility_requests.
  assert (Hhc : habitChart st0 = habitChart st).
  { subst st0. rewrite updateChartVisibility_habitChart by assumption. reflexivity. }
  assert (Hcs : chartStore st0 = chartStore st).
  { subst st0. rewrite updateChartVisibility_chartStore by assumption.
    destruct (habitChart st); reflexivity. }
  destruct (updateChartVisibility_present loading (Some "Loading progress...") st Hc Hp)
    as [Hc0 Hp0]. fold st0 in Hc0, Hp0.
  rewrite Hreq.
  destruct (respond host (length (requests st)) (GetProgress i (currentRange st)))
    as [|ok body]; [discriminate|].
  destruct ok; [|discriminate]. destruct body as [|data]; [discriminate|].
  unfold ok_json, require_ok, mbind, Async_bind, json, mret, Async_ret, gets.
  cbn [fst snd]. cbv beta.
  set (st1 := set_requests (requests st ++ [GetProgress i (currentRange st)]) st0).
  destruct Hc0 as [canvas0 Hc0].
  replace (getElementById "habitChart" st1) with (Some canvas0) by (symmetry; exact Hc0).
  destruct (chartDefined host); [|discriminate]. cbn [negb orb] in Hfail.
  destruct (dates data) as [ds|]; [|discriminate].
  destruct (habit data) as [s|]; [|discriminate].
  apply negb_false_iff in Hfail.
  assert (Hfinal : forall st2,
            document st2 = document st0 ->
            length (chartStore st2) = length (chartStore st) ->
            (single_chart st -> forall h, ~ live st2 h) ->
            let st3 := updateChartVisibility ready None
                         (set_habitChart (Some (length (chartStore st2)))
                            (set_chartStore
                               (chartStore st2 ++
                                  [{| config := chart_config host (slice 5 <$> ds) data s;
                                      destroyed := false |}]) st2)) in
            visibility_state st3 = Some "ready" /\
            canvas_visible st3 = true /\
            habitChart st3 = Some (length (chartStore st)) /\
            live st3 (length (chartStore st)) /\
            (single_chart st -> single_chart st3)).
  { intros st2 Hdoc Hlen Hdead st3. subst st3.
    match goal with |- context [updateChartVisibility ready None ?Z] => set (Y := Z) end.
    assert (HcY : is_Some (getElementById "habitChart" Y)).
    { unfold getElementById. subst Y. autorewrite with fields. rewrite Hdoc.
      eexists. exact Hc0. }
    assert (HpY : is_Some (getElementById "chartEmptyState" Y)).
    { unfold getElementById. subst Y. autorewrite with fields. rewrite Hdoc. exact Hp0. }
    rewrite updateChartVisibility_state by assumption.
    destruct (updateChartVisibility_visible ready None Y HcY HpY) as [-> _].
    rewrite updateChartVisibility_habitChart by assumption.
    split; [reflexivity|]. split; [reflexivity|].
    cbn [releases].
    assert (HhY : habitChart Y = Some (length (chartStore st))).
    { subst Y. cbn. rewrite Hlen. reflexivity. }
    split; [exact HhY|].
    assert (Hstore : chartStore (updateChartVisibility ready None Y) =
              chartStore st2 ++
                [{| config := chart_config host (slice 5 <$> ds) data s;
                    destroyed := false |}]).
    { rewrite updateChartVisibility_chartStore by assumption. cbn [releases].
      destruct (habitChart Y); reflexivity. }
    split.
    - unfold live. rewrite Hstore, <- Hlen.
      eexists. split; [apply list_lookup_middle; reflexivity | reflexivity].
    - intros Hsingle h (c & Hl & Hd).
      rewrite updateChartVisibility_habitChart by assumption. cbn [releases].
      rewrite HhY. f_equal. rewrite Hstore in Hl.
      destruct (decide (h < length (chartStore st2))%nat) as [Hlt | Hge].
      + rewrite lookup_app_l in Hl by exact Hlt.
        exfalso. apply (Hdead Hsingle h). exists c. split; assumption.
      + apply lookup_lt_Some in Hl. rewrite length_app in Hl. cbn in Hl. lia. }
  assert (Hlive1 : forall h, live st1 h -> live st h).
  { intros h Hl. unfold live in *. change (chartStore st1) with (chartStore st0) in Hl.
    rewrite Hcs in Hl. exact Hl. }
  assert (Hh1st : habitChart st1 = habitChart st) by exact Hhc.
  destruct (habitChart st1) as [h1|] eqn:Hh1; cbv beta iota; unfold newChart;
    rewrite Hfail; cbn [final_state snd]; apply Hfinal; try reflexivity.
  - unfold destroy. autorewrite with fields.
    change (length (alter (fun c => {| config := config c; destroyed := true |}) h1
                      (chartStore st1)) = length (chartStore st)).
    rewrite length_alter. exact (f_equal length Hcs).
  - intros Hsingle h Hl. pose proof (live_destroy _ _ _ Hl) as Hl1.
    apply Hlive1, Hsingle in Hl1. rewrite <- Hh1st in Hl1. injection Hl1 as <-.
    apply (not_live_destroy _ _ Hl).
  - exact (f_equal length Hcs).
  - intros Hsingle h Hl. apply Hlive1, Hsingle in Hl. congruence.
Qed.

(** The chart that may be live is always the one behind the handle: every
    run of [loadHabitProgress] keeps it so. *)
Lemma loadHabitProgress_single_chart st :
  page_ready st -> single_chart st ->
  single_chart (final_state (loadHabitProgress host st)).
Proof.
  intros Hpage Hsingle. pose proof Hpage as (Hc & Hp & Htc).
  destruct (truthy_id (currentHabitId st)) eqn:Ht.
  - destruct (progress_fails host st) eqn:Hf.
    + destruct (loadHabitProgress_fails_shape st Hc Hp Hf) as (X & m & t & -> & Hm & _ & Hmid).
      pose proof (progress_mid_page _ _ Hmid Hpage) as HpageX.
      pose proof (progress_mid_single _ _ Hmid Hsingle) as HsingleX.
      destruct (error_exit X m t HpageX HsingleX Hm) as (_ & _ & _ & _ & Hdead & _).
      cbn [final_state snd]. intros h Hl.
      exfalso. apply (proj1 (no_live_chart_spec _) Hdead h Hl).
    + apply (loadHabitProgress_succeeds st Hc Hp Ht Hf). exact Hsingle.
  - rewrite loadHabitProgress_noop by exact Ht. exact Hsingle.
Qed.

(** C3. Every failure of [loadHabitProgress] run with a current-habit
    identifier that passes its guard - the request rejected, a status that
    is not a success, a body that is not JSON, the charting library
    missing, a payload without [dates] or [habit], the chart constructor
    throwing - on a page that has the chart area and the toast container,
    ends with the visibility state [error] and a message that is not
    empty in a visible placeholder, one more toast of tone error, no chart
    handle and no live chart instance; the promise is not rejected. With a null
    identifier the function does nothing. No run past the guard, failing
    or not, leaves the state at [loading]: it ends at [error] or at
    [ready]. *)
Theorem loadHabitProgress_failure_ends_in_error (st : App) :
  (currentHabitId st = None -> loadHabitProgress host st = (Normal tt, st)) /\
  (page_ready st -> single_chart st -> progress_fails host st = true ->
   let st' := final_state (loadHabitProgress host st) in
   rejected (loadHabitProgress host st) = false /\
   visibility_state st' = Some "error" /\
   visibility_state st' <> Some "loading" /\
   (exists m, placeholder_text st' = Some m /\ m <> "") /\
   placeholder_visible st' = true /\
   (exists toast, toasts st' = toasts st ++ [toast] /\
                  textContent toast <> "" /\ "error" ∈ classList toast) /\
   habitChart st' = None /\
   no_live_chart st' = true) /\
  (page_ready st -> truthy_id (currentHabitId st) = true ->
   let st' := final_state (loadHabitProgress host st) in
   visibility_state st' = Some "error" \/ visibility_state st' = Some "ready").
Proof.
  split; [| split].
  - intros Hnone. apply loadHabitProgress_noop. rewrite Hnone. reflexivity.
  - intros Hpage Hsingle Hfail st'. subst st'.
    destruct Hpage as (Hc & Hp & Htc).
    destruct (loadHabitProgress_fails_shape st Hc Hp Hfail) as (X & m & t & -> & Hm & Ht & Hmid).
    pose proof (progress_mid_page _ _ Hmid (conj Hc (conj Hp Htc))) as HpageX.
    pose proof (progress_mid_single _ _ Hmid Hsingle) as HsingleX.
    destruct (error_exit X m t HpageX HsingleX Hm)
      as (Hvs & Htext & Hvis & Hh & Hlive & (toast & Htoasts & Htt & Htc') & _).
    cbn [final_state rejected fst snd].
    split; [reflexivity|]. split; [exact Hvs|]. split; [rewrite Hvs; discriminate|].
    split; [exists m; split; [exact Htext | intros ->; discriminate]|].
    split; [exact Hvis|]. split.
    { exists toast. rewrite Htoasts, (progress_mid_toasts _ _ Hmid).
      split; [reflexivity|]. split; [rewrite Htt; intros ->; discriminate | exact Htc']. }
    split; assumption.
  - intros (Hc & Hp & Htc) Ht st'. subst st'.
    destruct (progress_fails host st) eqn:Hf.
    + left.
      destruct (loadHabitProgress_fails_shape st Hc Hp Hf) as (X & m & t & -> & Hm & _ & Hmid).
      cbn [final_state snd]. rewrite showToast_visibility_state.
      destruct (progress_mid_page _ _ Hmid (conj Hc (conj Hp Htc))) as (HcX & HpX & _).
      apply updateChartVisibility_state; assumption.
    + right. apply (loadHabitProgress_succeeds st Hc Hp Ht Hf).
Qed.

End Progress.

(** ** Functions that never reject *)

Lemma total_ret {A} (a : A) : total (mret a).
Proof. intros st. reflexivity. Qed.

Lemma total_lift f : total (lift f).
Proof. intros st. reflexivity. Qed.

Lemma total_gets {A} (f : App -> A) : total (gets f).
Proof. intros st. reflexivity. Qed.

Lemma total_console_error e : total (console_error e).
Proof. intros st. reflexivity. Qed.

Lemma total_bind {A B} (m : Async A) (k : A -> Async B) :
  total m -> (forall a, total (k a)) -> total (m ≫= k).
Proof.
  intros Hm Hk st. unfold mbind, Async_bind. specialize (Hm st).
  destruct (m st) as [[a|e] st']; [apply Hk | discriminate].
Qed.

Lemma total_try_catch {A} (body : Async A) (handler : string -> Async A) :
  (forall e, total (handler e)) -> total (try_catch body handler).
Proof.
  intros Hh st. unfold try_catch.
  destruct (body st) as [[a|e] st']; [reflexivity | apply Hh].
Qed.

Lemma total_if {A} (b : bool) (m1 m2 : Async A) :
  total m1 -> total m2 -> total (if b then m1 else m2).
Proof. destruct b; trivial. Qed.

Ltac total_tac :=
  repeat first
    [ apply total_try_catch; intros ?
    | apply total_bind; [| intros ?]
    | apply total_lift
    | apply total_gets
    | apply total_console_error
    | apply total_ret
    | apply total_if ].

Section Totality.

Variable host : Host.

Lemma total_loadHabitProgress : total (loadHabitProgress host).
Proof.
  intros st. unfold loadHabitProgress.
  destruct (currentHabitId st) as [i|]; [|reflexivity].
  destruct (negb (truthy_id (Some i))); [reflexivity|].
  apply total_bind; [apply total_lift | intros _].
  apply total_try_catch. intros e. total_tac.
Qed.

Lemma total_ensureDemoSeed : total (ensureDemoSeed host).
Proof. unfold ensureDemoSeed. total_tac. Qed.

Lemma total_loadHabits : total (loadHabits host).
Proof. unfold loadHabits. total_tac. Qed.

Lemma total_loadIdealSelf : total (loadIdealSelf host).
Proof. unfold loadIdealSelf. total_tac. Qed.

Lemma total_saveIdealSelf : total (saveIdealSelf host).
Proof. intros st. unfold saveIdealSelf. apply total_try_catch. intros e. total_tac. Qed.

Lemma total_loadJournalEntries : total (loadJournalEntries host).
Proof. unfold loadJournalEntries. total_tac. Qed.

Lemma total_addJournalEntry : total (addJournalEntry host).
Proof.
  intros st. unfold addJournalEntry.
  destruct (negb (truthy_string _)); [reflexivity|].
  apply total_try_catch. intros e. total_tac.
Qed.

Lemma total_addHabit : total (addHabit host).
Proof.
  intros st. unfold addHabit.
  destruct (negb (truthy_string _)); [reflexivity|].
  apply total_try_catch. intros e. total_tac.
Qed.

Lemma total_toggleHabitCompletion h : total (toggleHabitCompletion host h).
Proof. unfold toggleHabitCompletion. total_tac. Qed.

Lemma total_demoSeedBtn_click : total (demoSeedBtn_click host).
Proof. unfold demoSeedBtn_click. total_tac. Qed.

Lemma total_click h : total (click host h).
Proof.
  destruct h; cbn [click].
  - apply total_toggleHabitCompletion.
  - total_tac. apply total_loadHabitProgress.
  - total_tac. apply total_loadHabitProgress.
Qed.

Lemma total_habitSelect_change v : total (habitSelect_change host v).
Proof.
  unfold habitSelect_change. destruct (parseInt v); total_tac.
  apply total_loadHabitProgress.
Qed.

End Totality.

(** ** What the rendering functions leave alone *)

Lemma quiet_compose f g : quiet f -> quiet g -> quiet (fun st => g (f st)).
Proof.
  intros Hf Hg st. destruct (Hf st) as [H1 H2]. destruct (Hg (f st)) as [H3 H4].
  split; congruence.
Qed.

Lemma quiet_updateChartVisibility state message : quiet (updateChartVisibility state message).
Proof.
  intros st. split;
    [apply updateChartVisibility_requests | apply updateChartVisibility_currentRange].
Qed.

Lemma quiet_showToast message tone : quiet (showToast message tone).
Proof. intros st. split; [apply showToast_requests | apply showToast_currentRange]. Qed.

Lemma quiet_putElement i e : quiet (putElement i e).
Proof. intros st. split; reflexivity. Qed.

Lemma quiet_set_currentHabitId c : quiet (set_currentHabitId c).
Proof. intros st. split; reflexivity. Qed.

Lemma quiet_set_field i v : quiet (set_field i v).
Proof. intros st. unfold set_field. destruct (getElementById i st); split; reflexivity. Qed.

Lemma quiet_reset_field i : quiet (reset_field i).
Proof. intros st. unfold reset_field. destruct (getElementById i st); split; reflexivity. Qed.

Lemma quiet_habitForm_reset : quiet habitForm_reset.
Proof.
  intros st. unfold habitForm_reset. destruct (getElementById "habitForm" st).
  - apply (quiet_compose _ _ (quiet_compose _ _ (quiet_reset_field "habitName")
                                (quiet_reset_field "habitColor"))
             (quiet_reset_field "targetPerWeek")).
  - split; reflexivity.
Qed.

Lemma quiet_setupRangeButtons : quiet setupRangeButtons.
Proof.
  intros st. unfold setupRangeButtons.
  destruct (getElementById "rangeButtons" st); split; reflexivity.
Qed.

Lemma quiet_updateHabitSelectOptions habits : quiet (updateHabitSelectOptions habits).
Proof.
  intros st. destruct (getElementById "habitSelect" st) as [select|] eqn:Hs.
  - destruct (updateHabitSelectOptions_shape habits st select Hs) as (sel' & c & ->).
    split; reflexivity.
  - rewrite updateHabitSelectOptions_absent by exact Hs. split; reflexivity.
Qed.

Lemma setupRangeButtons_currentHabitId st :
  currentHabitId (setupRangeButtons st) = currentHabitId st.
Proof.
  unfold setupRangeButtons. destruct (getElementById "rangeButtons" st); reflexivity.
Qed.

Section Rendering.

Variable host : Host.

Lemma quiet_renderHabits habits : quiet (renderHabits host habits).
Proof.
  intros st. unfold renderHabits.
  destruct (getElementById "habitList" st) as [list|]; [| split; reflexivity].
  destruct habits as [|h rest].
  - apply (quiet_compose _ _ (quiet_putElement _ _) (quiet_updateChartVisibility _ _)).
  - split; reflexivity.
Qed.


(** ** What a run of [loadHabitProgress] sends *)

Ltac leaf :=
  eexists; split; [reflexivity |];
  repeat (rewrite ?showToast_currentHabitId, ?showToast_currentRange, ?showToast_requests,
            ?updateChartVisibility_currentHabitId, ?updateChartVisibility_currentRange,
            ?updateChartVisibility_requests;
          autorewrite with fields);
  repeat split; try reflexivity.

Lemma loadHabitProgress_trace st :
  exists st',
    loadHabitProgress host st = (Normal tt, st') /\
    currentHabitId st' = currentHabitId st /\
    currentRange st' = currentRange st /\
    requests st' = requests st ++ progress_call st.
Proof.
  unfold progress_call, loadHabitProgress.
  destruct (currentHabitId st) as [i|] eqn:Hcur.
  2:{ eexists. split; [reflexivity|]. rewrite app_nil_r. repeat split; assumption. }
  destruct (truthy_id (Some i)) eqn:Ht; cbn [negb].
  2:{ eexists. split; [reflexivity|]. rewrite app_nil_r. repeat split; assumption. }
  unfold mbind, Async_bind, try_catch, fetch, lift, console_error. cbv beta.
  set (st0 := updateChartVisibility loading (Some "Loading progress...") st) in *.
  assert (Hreq : requests st0 = requests st) by apply updateChartVisibility_requests.
  assert (Hcur0 : currentHabitId st0 = Some i).
  { subst st0. rewrite updateChartVisibility_currentHabitId. exact Hcur. }
  assert (Hrange0 : currentRange st0 = currentRange st)
    by apply updateChartVisibility_currentRange.
  rewrite Hreq.
  destruct (respond host (length (requests st)) (GetProgress i (currentRange st)))
    as [|ok body].
  { leaf; congruence. }
  unfold ok_json, require_ok, mbind, Async_bind. cbn [fst snd]. destruct ok.
  2:{ unfold throw. leaf; congruence. }
  unfold mret, Async_ret. cbv beta. unfold json. destruct body as [|data].
  { unfold throw. leaf; congruence. }
  unfold mret, Async_ret, gets. cbv beta.
  destruct (getElementById "habitChart" _) as [canvas1|].
  2:{ leaf; congruence. }
  destruct (chartDefined host).
  2:{ leaf; congruence. }
  destruct (habitChart _) as [h1|]; cbv beta iota;
    (destruct (dates data) as [ds|]; [| unfold throw; leaf; congruence ]);
    (destruct (habit data) as [s|]; [| unfold throw; leaf; congruence ]);
    unfold newChart;
    match goal with |- context [chartConstructs host ?c] =>
      destruct (chartConstructs host c) end;
    leaf; congruence.
Qed.

End Rendering.

(** ** What the habit loaders send *)

Section Loaders.

Variable host : Host.

Ltac seed_leaf :=
  eexists _, _; split; [reflexivity |]; split; [| reflexivity];
  autorewrite with fields; try rewrite <- app_assoc; reflexivity.

(** [ensureDemoSeed] never rejects and only sends requests, none of them
    for a progress series. *)
Lemma ensureDemoSeed_trace st :
  exists b reqs,
    ensureDemoSeed host st = (Normal b, set_requests (requests st ++ reqs) st) /\
    no_progress reqs.
Proof.
  unfold ensureDemoSeed, no_progress.
  unfold mbind, Async_bind, try_catch, fetch. cbv beta.
  destruct (respond host (length (requests st)) GetHabits) as [|ok body].
  { exists false, [GetHabits]. split; reflexivity. }
  cbn [fst snd]. destruct ok; cbn [negb].
  2:{ exists false, [GetHabits]. split; reflexivity. }
  unfold json. destruct body as [|list].
  { exists false, [GetHabits]. split; reflexivity. }
  unfold mret, Async_ret. cbv beta. destruct list as [|h rest].
  2:{ exists true, [GetHabits]. split; reflexivity. }
  autorewrite with fields.
  destruct (respond host (length (requests st ++ [GetHabits])) PostDemoReset) as [|ok2 body2];
    exists true, [GetHabits; PostDemoReset]; (split; [| reflexivity]);
    unfold mret, Async_ret; cbv beta; autorewrite with fields;
    rewrite <- app_assoc; reflexivity.
Qed.

Lemma filter_progress_call st : List.filter is_progress (progress_call st) = progress_call st.
Proof.
  unfold progress_call. destruct (currentHabitId st) as [i|]; [|reflexivity].
  destruct (truthy_id (Some i)); reflexivity.
Qed.

Lemma progress_call_ext st st' :
  currentHabitId st' = currentHabitId st -> currentRange st' = currentRange st ->
  progress_call st' = progress_call st.
Proof. intros H1 H2. unfold progress_call. rewrite H1, H2. reflexivity. Qed.

(** What [loadHabits] sends: the requests of the seeding and its own,
    then, when the collection came back, the one request of
    [loadHabitProgress] for the identifier the reconciliation left. *)
Lemma loadHabits_trace st :
  exists reqs st',
    loadHabits host st = (Normal tt, st') /\
    no_progress reqs /\
    currentRange st' = currentRange st /\
    match habits_answer host st with
    | Response true (JsonValue habits) =>
        requests st' = requests st ++ reqs ++ progress_call st'
    | _ =>
        requests st' = requests st ++ reqs /\ currentHabitId st' = currentHabitId st
    end.
Proof.
  unfold habits_answer, loadHabits.
  destruct (ensureDemoSeed_trace st) as (b & reqs & Hseed & Hnp).
  unfold mbind at 1. unfold Async_bind at 1. unfold try_catch at 1.
  rewrite Hseed. cbn [final_state snd]. autorewrite with fields.
  set (stS := set_requests (requests st ++ reqs) st).
  unfold mbind at 1. unfold Async_bind at 1. unfold fetch at 1.
  replace (requests stS) with (requests st ++ reqs) by reflexivity.
  assert (Hnp' : no_progress (reqs ++ [GetHabits])).
  { unfold no_progress in *. rewrite List.filter_app, Hnp. reflexivity. }
  destruct (respond host (length (requests st ++ reqs)) GetHabits) as [|ok body].
  { exists (reqs ++ [GetHabits]). eexists. split; [reflexivity|]. split; [exact Hnp'|].
    unfold mbind, Async_bind, lift, console_error. cbv beta.
    rewrite updateChartVisibility_currentRange, updateChartVisibility_requests,
      updateChartVisibility_currentHabitId, showToast_currentRange, showToast_requests,
      showToast_currentHabitId.
    subst stS. autorewrite with fields. rewrite <- app_assoc. repeat split; reflexivity. }
  unfold ok_json, require_ok. unfold mbind at 1 2. unfold Async_bind at 1 2.
  cbn [fst snd]. destruct ok.
  2:{ exists (reqs ++ [GetHabits]). eexists. split; [reflexivity|]. split; [exact Hnp'|].
    unfold throw, mbind, Async_bind, lift, console_error. cbv beta.
    rewrite updateChartVisibility_currentRange, updateChartVisibility_requests,
      updateChartVisibility_currentHabitId, showToast_currentRange, showToast_requests,
      showToast_currentHabitId.
    subst stS. autorewrite with fields. rewrite <- app_assoc. repeat split; reflexivity. }
  unfold mret at 1. unfold Async_ret at 1. cbv beta. unfold json.
  destruct body as [|habits].
  { exists (reqs ++ [GetHabits]). eexists. split; [reflexivity|]. split; [exact Hnp'|].
    unfold throw, mbind, Async_bind, lift, console_error. cbv beta.
    rewrite updateChartVisibility_currentRange, updateChartVisibility_requests,
      updateChartVisibility_currentHabitId, showToast_currentRange, showToast_requests,
      showToast_currentHabitId.
    subst stS. autorewrite with fields. rewrite <- app_assoc. repeat split; reflexivity. }
  unfold mret at 1. unfold Async_ret at 1. cbv beta.
  unfold mbind, Async_bind, lift, gets. cbv beta.
  set (st3 := set_requests (requests st ++ reqs ++ [GetHabits]) stS).
  replace (set_requests ((requests st ++ reqs) ++ [GetHabits]) stS) with st3
    by (subst st3; rewrite <- app_assoc; reflexivity).
  set (st6 := setupRangeButtons
                (updateHabitSelectOptions habits (renderHabits host habits st3))).
  assert (Hq : requests st6 = requests st ++ reqs ++ [GetHabits] /\
               currentRange st6 = currentRange st).
  { subst st6.
    destruct (quiet_setupRangeButtons
                (updateHabitSelectOptions habits (renderHabits host habits st3))) as [-> ->].
    destruct (quiet_updateHabitSelectOptions habits (renderHabits host habits st3))
      as [-> ->].
    destruct (quiet_renderHabits host habits st3) as [-> ->].
    split; reflexivity. }
  destruct Hq as [Hreq6 Hrange6].
  destruct (truthy_id (currentHabitId st6)) eqn:Ht.
  - destruct (loadHabitProgress_trace host st6) as (st' & Hrun & Hcur' & Hrange' & Hreq').
    rewrite Hrun. exists (reqs ++ [GetHabits]), st'.
    split; [reflexivity|]. split; [exact Hnp'|]. split; [congruence|].
    rewrite Hreq', Hreq6, (progress_call_ext _ _ Hcur' Hrange'), <- !app_assoc. reflexivity.
  - exists (reqs ++ [GetHabits]). eexists. split; [reflexivity|]. split; [exact Hnp'|].
    rewrite updateChartVisibility_currentRange, updateChartVisibility_requests.
    split; [exact Hrange6|].
    rewrite Hreq6. unfold progress_call.
    rewrite updateChartVisibility_currentHabitId.
    destruct (currentHabitId st6) as [i|]; [rewrite Ht|];
      rewrite <- !app_assoc, ?app_nil_r; reflexivity.
Qed.

End Loaders.

(** ** Failures of the gateway *)

Section Gateway.

Variable host : Host.

(** A failed request whose body would have been read: the request is
    recorded and something is thrown. *)
Lemma fetch_ok_json_fails {B} (r : Request) (msg : string)
    (k : Payload r -> Async B) (st : App) :
  reads_body r = true ->
  request_failed r (respond host (length (requests st)) r) = true ->
  exists e,
    (res ← fetch host r; data ← ok_json msg res; k data) st =
    (Thrown e, set_requests (requests st ++ [r]) st).
Proof.
  intros Hr Hf. unfold mbind at 1. unfold Async_bind at 1. unfold fetch.
  destruct (respond host (length (requests st)) r) as [|ok body].
  - eexists. reflexivity.
  - unfold ok_json, require_ok, mbind, Async_bind. cbn [fst snd].
    destruct ok; [| eexists; reflexivity].
    destruct body as [|a]; [eexists; reflexivity|]. discriminate.
Qed.

(** A failed request whose body is not read. *)
Lemma fetch_require_ok_fails {B} (r : Request) (msg : string)
    (k : Async B) (st : App) :
  reads_body r = false ->
  request_failed r (respond host (length (requests st)) r) = true ->
  exists e,
    (res ← fetch host r; require_ok msg res ;; k) st =
    (Thrown e, set_requests (requests st ++ [r]) st).
Proof.
  intros Hr Hf. unfold mbind at 1. unfold Async_bind at 1. unfold fetch.
  destruct (respond host (length (requests st)) r) as [|ok body].
  - eexists. reflexivity.
  - unfold require_ok, mbind, Async_bind. cbn [fst snd].
    destruct ok; [| eexists; reflexivity].
    cbn in Hf. rewrite Hr in Hf. destruct body; discriminate.
Qed.

(** The toast a handler shows, on a page whose toast container the
    operation has not touched. *)
Lemma toast_shown (st Y : App) (t : string) :
  is_Some (getElementById "toastContainer" st) ->
  getElementById "toastContainer" Y = getElementById "toastContainer" st ->
  truthy_string t = true ->
  exists toast,
    toasts (showToast t "error" Y) = toasts st ++ [toast] /\
    "error" ∈ classList toast /\ textContent toast <> "".
Proof.
  intros Hc HY Ht. rewrite <- HY in Hc.
  destruct (showToast_toasts t "error" Y Hc) as (toast & Htoasts & Htext & Hclass).
  exists toast. split; [| split].
  - rewrite Htoasts. unfold toasts. rewrite HY. reflexivity.
  - apply Hclass. discriminate.
  - rewrite Htext. intros ->. discriminate.
Qed.

Lemma loadIdealSelf_fails st :
  own_request_fails host LoadIdealSelf st = true ->
  failure_shown LoadIdealSelf st (final_state (loadIdealSelf host st)).
Proof.
  unfold own_request_fails, own_request. intros Hf.
  unfold loadIdealSelf, try_catch.
  edestruct (fetch_ok_json_fails (B := unit) GetIdealSelf) as [e He];
    [reflexivity | exact Hf |].
  rewrite He. cbn [final_state snd failure_shown fails_silently].
  split; [reflexivity|]. eexists. reflexivity.
Qed.

Ltac shown_by_toast Hc :=
  cbn [final_state snd failure_shown fails_silently];
  apply toast_shown; [exact Hc | reflexivity | reflexivity].

Lemma saveIdealSelf_fails st :
  is_Some (getElementById "toastContainer" st) ->
  own_request_fails host SaveIdealSelf st = true ->
  failure_shown SaveIdealSelf st (final_state (saveIdealSelf host st)).
Proof.
  unfold own_request_fails, own_request. intros Hc Hf.
  unfold saveIdealSelf, try_catch.
  edestruct (fetch_require_ok_fails (B := unit) (ideal_self_form_request st)) as [e He];
    [reflexivity | exact Hf |].
  rewrite He. shown_by_toast Hc.
Qed.

Lemma loadJournalEntries_fails st :
  is_Some (getElementById "toastContainer" st) ->
  own_request_fails host LoadJournalEntries st = true ->
  failure_shown LoadJournalEntries st (final_state (loadJournalEntries host st)).
Proof.
  unfold own_request_fails, own_request. intros Hc Hf.
  unfold loadJournalEntries, try_catch.
  edestruct (fetch_ok_json_fails (B := unit) GetJournal) as [e He];
    [reflexivity | exact Hf |].
  rewrite He. shown_by_toast Hc.
Qed.

Lemma addJournalEntry_fails st :
  is_Some (getElementById "toastContainer" st) ->
  own_request_fails host AddJournalEntry st = true ->
  failure_shown AddJournalEntry st (final_state (addJournalEntry host st)).
Proof.
  unfold own_request_fails, own_request. intros Hc Hf. cbv zeta in Hf.
  unfold addJournalEntry.
  destruct (truthy_string (trim (field_value "journalInput" st))); [|discriminate].
  cbn [negb]. unfold try_catch.
  edestruct (fetch_require_ok_fails (B := unit)
               (PostJournal (trim (field_value "journalInput" st)))) as [e He];
    [reflexivity | exact Hf |].
  rewrite He. shown_by_toast Hc.
Qed.

Lemma addHabit_fails st :
  is_Some (getElementById "toastContainer" st) ->
  own_request_fails host AddHabit st = true ->
  failure_shown AddHabit st (final_state (addHabit host st)).
Proof.
  unfold own_request_fails, own_request. intros Hc Hf.
  unfold addHabit.
  destruct (truthy_string (trim (field_value "habitName" st))); [|discriminate].
  cbn [negb]. unfold try_catch.
  edestruct (fetch_ok_json_fails (B := unit) (habit_form_request st)) as [e He];
    [reflexivity | exact Hf |].
  rewrite He. shown_by_toast Hc.
Qed.

Lemma toggleHabitCompletion_fails h st :
  is_Some (getElementById "toastContainer" st) ->
  own_request_fails host (ToggleHabitCompletion h) st = true ->
  failure_shown (ToggleHabitCompletion h) st
    (final_state (toggleHabitCompletion host h st)).
Proof.
  unfold own_request_fails, own_request. intros Hc Hf.
  unfold toggleHabitCompletion, try_catch.
  edestruct (fetch_require_ok_fails (B := unit) (PutHabit (id h) (negb (completed h))))
    as [e He]; [reflexivity | exact Hf |].
  rewrite He. shown_by_toast Hc.
Qed.

(** The state [loadHabits] leaves when its own request fails. *)
Lemma loadHabits_fails_shape st :
  own_request_fails host LoadHabits st = true ->
  exists Y,
    loadHabits host st =
      (Normal tt,
       updateChartVisibility error (Some "Could not load habits.")
         (showToast "Could not load habits" "error" Y)) /\
    document Y = document st.
Proof.
  unfold own_request_fails, own_request. intros Hf.
  destruct (ensureDemoSeed_trace host st) as (b & reqs & Hseed & _).
  rewrite Hseed in Hf. cbn [final_state snd] in Hf.
  unfold loadHabits, try_catch. unfold mbind at 1. unfold Async_bind at 1.
  rewrite Hseed.
  edestruct (fetch_ok_json_fails (B := unit) GetHabits) as [e He];
    [reflexivity | exact Hf |].
  rewrite He. eexists. split; reflexivity.
Qed.

Lemma loadHabits_fails st :
  is_Some (getElementById "toastContainer" st) ->
  own_request_fails host LoadHabits st = true ->
  failure_shown LoadHabits st (final_state (loadHabits host st)).
Proof.
  intros Hc Hf. destruct (loadHabits_fails_shape st Hf) as (Y & -> & HY).
  cbn [final_state snd failure_shown fails_silently].
  rewrite updateChartVisibility_toasts.
  apply toast_shown; [exact Hc | unfold getElementById; rewrite HY | ]; reflexivity.
Qed.

(** The state [loadHabitProgress] leaves when its own request fails. *)
Lemma loadHabitProgress_request_fails_shape st :
  own_request_fails host LoadHabitProgress st = true ->
  exists X,
    loadHabitProgress host st =
      (Normal tt,
       showToast "Could not load progress" "error"
         (updateChartVisibility error (Some "Could not load progress right now.") X)) /\
    document X =
      document (updateChartVisibility loading (Some "Loading progress...") st).
Proof.
  unfold own_request_fails, own_request. intros Hf.
  unfold loadHabitProgress.
  destruct (currentHabitId st) as [i|]; [|discriminate].
  destruct (truthy_id (Some i)); [|discriminate]. cbn [negb].
  unfold mbind at 1. unfold Async_bind at 1. unfold lift at 1. unfold try_catch.
  rewrite <- (updateChartVisibility_requests loading (Some "Loading progress...") st) in Hf.
  edestruct (fetch_ok_json_fails (B := unit) (GetProgress i (currentRange st))) as [e He];
    [reflexivity | exact Hf |].
  rewrite He. eexists. split; reflexivity.
Qed.

Lemma loadHabitProgress_request_fails st :
  is_Some (getElementById "toastContainer" st) ->
  own_request_fails host LoadHabitProgress st = true ->
  failure_shown LoadHabitProgress st (final_state (loadHabitProgress host st)).
Proof.
  intros Hc Hf. destruct (loadHabitProgress_request_fails_shape st Hf) as (X & -> & HX).
  cbn [final_state snd failure_shown fails_silently].
  apply toast_shown; [exact Hc | | reflexivity].
  rewrite updateChartVisibility_other by discriminate.
  unfold getElementById at 1. rewrite HX.
  apply (updateChartVisibility_other "toastContainer" loading); discriminate.
Qed.

(** The chart area after a failure of an operation that feeds it. *)
Lemma chart_shows_error op st :
  feeds_chart op = true ->
  own_request_fails host op st = true ->
  is_Some (getElementById "habitChart" st) ->
  is_Some (getElementById "chartEmptyState" st) ->
  let st' := final_state (run host op st) in
  visibility_state st' = Some "error" /\
  exists m, placeholder_text st' = Some m /\ m <> "".
Proof.
  intros Hfeeds Hf Hc Hp st'. subst st'.
  destruct op; try discriminate; cbn [run].
  - destruct (loadHabits_fails_shape st Hf) as (Y & -> & HY).
    cbn [final_state snd].
    assert (HcY : is_Some (getElementById "habitChart"
                             (showToast "Could not load habits" "error" Y))).
    { rewrite showToast_other by discriminate. unfold getElementById. rewrite HY. exact Hc. }
    assert (HpY : is_Some (getElementById "chartEmptyState"
                             (showToast "Could not load habits" "error" Y))).
    { rewrite showToast_other by discriminate. unfold getElementById. rewrite HY. exact Hp. }
    rewrite updateChartVisibility_state, updateChartVisibility_text by assumption.
    split; [reflexivity|]. eexists. split; [reflexivity | discriminate].
  - destruct (loadHabitProgress_request_fails_shape st Hf) as (X & -> & HX).
    cbn [final_state snd].
    destruct (updateChartVisibility_present loading (Some "Loading progress...") st Hc Hp)
      as [Hc0 Hp0].
    assert (HcX : is_Some (getElementById "habitChart" X)).
    { unfold getElementById. rewrite HX. exact Hc0. }
    assert (HpX : is_Some (getElementById "chartEmptyState" X)).
    { unfold getElementById. rewrite HX. exact Hp0. }
    rewrite showToast_visibility_state, showToast_placeholder_text.
    rewrite updateChartVisibility_state, updateChartVisibility_text by assumption.
    split; [reflexivity|]. eexists. split; [reflexivity | discriminate].
Qed.

End Gateway.
(** ** One progress load per change of the current habit *)

Section Orchestration.

Variable host : Host.

Lemma progress_calls_app st st' reqs :
  requests st' = requests st ++ reqs ->
  progress_calls st st' = List.filter is_progress reqs.
Proof. intros H. unfold progress_calls. rewrite H, drop_app_length. reflexivity. Qed.

(** The answer to [loadHabits] depends on the state through the requests
    that were sent before. *)
Lemma habits_answer_ext a b :
  requests a = requests b -> habits_answer host a = habits_answer host b.
Proof.
  intros H. unfold habits_answer. f_equal. f_equal.
  unfold ensureDemoSeed.
  unfold mbind, Async_bind, try_catch, fetch. cbv beta. rewrite H.
  destruct (respond host (length (requests b)) GetHabits) as [|ok body].
  { reflexivity. }
  cbn [fst snd]. destruct ok; cbn [negb]; [| reflexivity].
  unfold json. destruct body as [|list]; [reflexivity|].
  unfold mret, Async_ret. cbv beta. destruct list as [|h rest]; [| reflexivity].
  autorewrite with fields.
  destruct (respond host (length (requests b ++ [GetHabits])) PostDemoReset)
    as [|ok2 body2]; cbn [fst snd final_state]; autorewrite with fields; reflexivity.
Qed.

(** A reload of the collection followed by a guarded load of the
    progress, as [addHabit] and [toggleHabitCompletion] end. *)
Lemma reload_then_progress_trace (test : option Z -> bool) st2 :
  exists reqs st',
    (loadHabits host ;;
     cur ← gets currentHabitId;
     if test cur then loadHabitProgress host else mret tt) st2 = (Normal tt, st') /\
    no_progress reqs /\
    requests st' =
      requests st2 ++ reqs
        ++ (if negb (fetch_failed (habits_answer host st2)) then progress_call st' else [])
        ++ (if test (currentHabitId st') then progress_call st' else []).
Proof.
  destruct (loadHabits_trace host st2) as (reqs & st3 & Hrun & Hnp & Hrange & Hans).
  unfold mbind at 1. unfold Async_bind at 1. rewrite Hrun.
  unfold mbind, Async_bind, gets. cbv beta.
  set (reloaded := negb (fetch_failed (habits_answer host st2))).
  assert (Hreq3 : requests st3 =
            requests st2 ++ reqs ++ (if reloaded then progress_call st3 else [])).
  { subst reloaded. destruct (habits_answer host st2) as [|[] [|habits]]; cbn;
      rewrite ?app_nil_r; try apply Hans. }
  destruct (test (currentHabitId st3)) eqn:Ht.
  - destruct (loadHabitProgress_trace host st3) as (st' & Hrun' & Hcur' & Hrange' & Hreq').
    rewrite Hrun'. exists reqs, st'.
    split; [reflexivity|]. split; [exact Hnp|].
    rewrite Hcur', Ht.
    rewrite Hreq', Hreq3, (progress_call_ext _ _ Hcur' Hrange'), <- !app_assoc.
    reflexivity.
  - exists reqs, st3.
    split; [reflexivity|]. split; [exact Hnp|].
    rewrite Ht, app_nil_r. exact Hreq3.
Qed.

(** A successful creation: everything up to the reload sends the one
    request that creates the habit. *)
Lemma addHabit_created st created :
  truthy_string (trim (field_value "habitName" st)) = true ->
  respond host (length (requests st)) (habit_form_request st) =
    Response true (JsonValue created) ->
  exists st2,
    requests st2 = requests st ++ [habit_form_request st] /\
    forall st',
      (loadHabits host ;;
       cur ← gets currentHabitId;
       if truthy_id cur then loadHabitProgress host else mret tt) st2 = (Normal tt, st') ->
      addHabit host st = (Normal tt, st').
Proof.
  intros Hname Hpost.
  exists (showToast "Habit added" "success"
            (set_field "habitColor" "#2f7cff"
               (habitForm_reset
                  (if truthy_id (created_id created)
                   then set_currentHabitId (created_id created)
                          (set_requests (requests st ++ [habit_form_request st]) st)
                   else set_requests (requests st ++ [habit_form_request st]) st)))).
  split.
  - rewrite showToast_requests.
    match goal with |- requests (set_field ?i ?v ?s) = _ =>
      destruct (quiet_set_field i v s) as [-> _] end.
    match goal with |- requests (habitForm_reset ?s) = _ =>
      destruct (quiet_habitForm_reset s) as [-> _] end.
    destruct (truthy_id (created_id created)); reflexivity.
  - intros st' Hrun. unfold addHabit. rewrite Hname. cbn [negb].
    unfold try_catch. unfold mbind at 1. unfold Async_bind at 1. unfold fetch at 1.
    rewrite Hpost.
    unfold ok_json, require_ok. unfold mbind at 1 2. unfold Async_bind at 1 2.
    cbn [fst snd]. unfold mret at 1. unfold Async_ret at 1. cbv beta.
    unfold json. unfold mret at 1. unfold Async_ret at 1. cbv beta.
    unfold mbind at 1 2 3 4. unfold Async_bind at 1 2 3 4. unfold lift at 1 2 3 4.
    cbv beta. rewrite Hrun. reflexivity.
Qed.

(** What [toggleHabitCompletion] sends for the progress. *)
Lemma toggleHabitCompletion_progress (h : Habit) (st : App) :
  let put := PutHabit (id h) (negb (completed h)) in
  let st' := final_state (toggleHabitCompletion host h st) in
  if request_failed put (respond host (length (requests st)) put)
  then progress_calls st st' = [] /\ currentHabitId st' = currentHabitId st
  else progress_calls st st' =
         (if reload_succeeds host st [put] then progress_call st' else []) ++
         (if bool_decide (currentHabitId st' = Some (id h)) then progress_call st' else []).
Proof.
  cbv zeta.
  destruct (request_failed (PutHabit (id h) (negb (completed h)))
              (respond host (length (requests st)) (PutHabit (id h) (negb (completed h)))))
    eqn:Hf.
  - unfold toggleHabitCompletion, try_catch.
    edestruct (fetch_require_ok_fails host (B := unit)
                 (PutHabit (id h) (negb (completed h)))) as [e He];
      [reflexivity | exact Hf |].
    rewrite He. unfold mbind, Async_bind, console_error, lift. cbv beta.
    cbn [final_state snd fst]. split.
    + apply (progress_calls_app _ _ [PutHabit (id h) (negb (completed h))]).
      rewrite showToast_requests. reflexivity.
    + rewrite showToast_currentHabitId. reflexivity.
  - set (st1 := set_requests (requests st ++ [PutHabit (id h) (negb (completed h))]) st).
    destruct (reload_then_progress_trace
                (fun cur => bool_decide (cur = Some (id h))) st1)
      as (reqs & st' & Hrun & Hnp & Hreq).
    assert (Hgo : toggleHabitCompletion host h st = (Normal tt, st')).
    { unfold toggleHabitCompletion, try_catch.
      unfold mbind at 1. unfold Async_bind at 1. unfold fetch at 1.
      destruct (respond host (length (requests st)) (PutHabit (id h) (negb (completed h))))
        as [|[] body]; try discriminate Hf.
      unfold require_ok. unfold mbind at 1. unfold Async_bind at 1.
      cbn [fst snd]. unfold mret at 1. unfold Async_ret at 1. cbv beta.
      fold st1. rewrite Hrun. reflexivity. }
    rewrite Hgo. cbn [final_state snd].
    unfold reload_succeeds. fold st1.
    replace (requests st1) with (requests st ++ [PutHabit (id h) (negb (completed h))])
      in Hreq by reflexivity.
    rewrite <- app_assoc in Hreq. rewrite (progress_calls_app _ _ _ Hreq).
    cbn [app List.filter is_progress].
    rewrite !List.filter_app, Hnp. cbn [app].
    destruct (negb (fetch_failed (habits_answer host st1)));
      destruct (bool_decide (currentHabitId st' = Some (id h)));
      rewrite ?filter_progress_call; reflexivity.
Qed.

(** C4, as the code has it. Along every path that changes the
    current-habit identifier, [loadHabitProgress] is run for the new
    identifier and the chosen range: exactly once when [loadHabits] has
    fetched the collection (initial load, fallback), on a click on "View
    progress" and on a change of the selector to a safe integer. On a
    successful creation of a habit it is run once by [addHabit] itself
    and, when the reload of the collection succeeds, once more inside
    [loadHabits], twice in all. After a toggle of a completion that the
    server accepted it is run once inside [loadHabits], when the reload
    succeeds, and once more by [toggleHabitCompletion] when the current
    habit is then the toggled one. Where [loadHabits] cannot fetch the
    collection, where the toggle is refused and where the selector holds
    no number, the identifier stays and no progress is loaded. An
    identifier that does not pass the guard of [loadHabitProgress] (null
    or 0) sends nothing. *)
Theorem progress_loaded_for_new_identifier (st : App) :
  (let st' := final_state (loadHabits host st) in
   if fetch_failed (habits_answer host st)
   then progress_calls st st' = [] /\ currentHabitId st' = currentHabitId st
   else progress_calls st st' = progress_call st') /\
  (forall habits h,
     let st' := final_state (click host (ViewProgress habits h) st) in
     progress_calls st st' = progress_call st') /\
  (forall v,
     let st' := final_state (habitSelect_change host v st) in
     match parseInt v with
     | Some n =>
         safe_integer n ->
         currentHabitId st' = Some n /\ progress_calls st st' = progress_call st'
     | None => st' = st
     end) /\
  (forall created,
     truthy_string (trim (field_value "habitName" st)) = true ->
     respond host (length (requests st)) (habit_form_request st) =
       Response true (JsonValue created) ->
     let st' := final_state (addHabit host st) in
     progress_calls st st' =
       (if reload_succeeds host st [habit_form_request st] then progress_call st' else [])
         ++ progress_call st') /\
  (forall h,
     let put := PutHabit (id h) (negb (completed h)) in
     let st' := final_state (toggleHabitCompletion host h st) in
     if request_failed put (respond host (length (requests st)) put)
     then progress_calls st st' = [] /\ currentHabitId st' = currentHabitId st
     else progress_calls st st' =
            (if reload_succeeds host st [put] then progress_call st' else []) ++
            (if bool_decide (currentHabitId st' = Some (id h))
             then progress_call st' else [])) /\
  (forall st', truthy_id (currentHabitId st') = true ->
     exists i, currentHabitId st' = Some i /\
               progress_call st' = [GetProgress i (currentRange st')]).
Proof.
  split; [| split; [| split; [| split; [| split]]]].
  - cbv zeta.
    destruct (loadHabits_trace host st) as (reqs & st' & Hrun & Hnp & Hrange & Hreq).
    rewrite Hrun. cbn [final_state snd].
    assert (Hfail : requests st' = requests st ++ reqs /\
                    currentHabitId st' = currentHabitId st ->
                    progress_calls st st' = [] /\ currentHabitId st' = currentHabitId st).
    { intros [Hr Hcur]. split; [| exact Hcur].
      rewrite (progress_calls_app _ _ _ Hr). exact Hnp. }
    destruct (habits_answer host st) as [|ok body]; [exact (Hfail Hreq)|].
    destruct ok; [| exact (Hfail Hreq)].
    destruct body as [|habits]; [exact (Hfail Hreq)|]. cbn [fetch_failed].
    rewrite (progress_calls_app _ _ _ Hreq), List.filter_app, Hnp.
    apply filter_progress_call.
  - intros habits h st'. subst st'. cbn [click].
    unfold mbind, Async_bind, lift. cbv beta.
    set (st2 := updateHabitSelectOptions habits (set_currentHabitId (Some (id h)) st)).
    destruct (loadHabitProgress_trace host st2) as (st' & Hrun & Hcur & Hrange & Hreq).
    rewrite Hrun. cbn [final_state snd].
    assert (Hreq2 : requests st2 = requests st).
    { subst st2. destruct (quiet_updateHabitSelectOptions habits
                             (set_currentHabitId (Some (id h)) st)) as [-> _].
      reflexivity. }
    rewrite Hreq2 in Hreq. rewrite (progress_calls_app _ _ _ Hreq).
    rewrite filter_progress_call. symmetry. apply progress_call_ext; assumption.
  - intros v st'. subst st'. unfold habitSelect_change.
    destruct (parseInt v) as [n|]; [| reflexivity]. intros _.
    unfold mbind, Async_bind, lift. cbv beta.
    destruct (loadHabitProgress_trace host (set_currentHabitId (Some n) st))
      as (st' & Hrun & Hcur & Hrange & Hreq).
    rewrite Hrun. cbn [final_state snd]. split; [exact Hcur|].
    autorewrite with fields in Hreq. rewrite (progress_calls_app _ _ _ Hreq).
    rewrite filter_progress_call. symmetry. apply progress_call_ext; assumption.
  - intros created Hname Hpost st'. subst st'.
    destruct (addHabit_created st created Hname Hpost) as (st2 & Hreq2 & Hadd).
    destruct (reload_then_progress_trace truthy_id st2) as (reqs & st' & Hrun & Hnp & Hreq).
    rewrite (Hadd st' Hrun). cbn [final_state snd].
    unfold reload_succeeds.
    rewrite (habits_answer_ext
               (set_requests (requests st ++ [habit_form_request st]) st) st2)
      by (rewrite Hreq2; reflexivity).
    rewrite Hreq2, <- app_assoc in Hreq. rewrite (progress_calls_app _ _ _ Hreq).
    cbn [app List.filter].
    replace (is_progress (habit_form_request st)) with false by reflexivity.
    rewrite !List.filter_app, Hnp. cbn [app].
    assert (Hlast : (if truthy_id (currentHabitId st') then progress_call st' else []) =
                    progress_call st').
    { unfold progress_call. destruct (currentHabitId st') as [i|]; [| reflexivity].
      destruct (truthy_id (Some i)); reflexivity. }
    rewrite Hlast.
    destruct (negb (fetch_failed (habits_answer host st2)));
      rewrite ?filter_progress_call; reflexivity.
  - intros h. apply toggleHabitCompletion_progress.
  - intros st' Ht. unfold progress_call.
    destruct (currentHabitId st') as [i|]; [|discriminate].
    rewrite Ht. exists i. split; reflexivity.
Qed.

End Orchestration.

(** * The properties at concrete inputs *)

Lemma example_page_ready : page_ready initial_app.
Proof. repeat split; eexists; vm_compute; reflexivity. Defined.

Lemma charted_app_ready : page_ready charted_app.
Proof. repeat split; eexists; vm_compute; reflexivity. Defined.

Lemma charted_app_single : single_chart charted_app.
Proof.
  intros h (c & Hl & Hd). destruct h as [|h]; [reflexivity|].
  exfalso. destruct h; discriminate Hl.
Defined.

(** C1 at the collection holding "Meditate". *)
Lemma updateHabitSelectOptions_reconciles_witness :
  is_Some (getElementById "habitSelect" initial_app) /\
  [meditate] <> [] /\
  exists h, h ∈ [meditate] /\
            currentHabitId (updateHabitSelectOptions [meditate] initial_app) = Some (id h).
Proof.
  assert (H : is_Some (getElementById "habitSelect" initial_app))
    by (eexists; vm_compute; reflexivity).
  split; [exact H|]. split; [discriminate|].
  apply (proj2 (updateHabitSelectOptions_reconciles [meditate] initial_app H)).
  discriminate.
Defined.

(** C2 at the error state. *)
Lemma updateChartVisibility_exactly_one_visible_witness :
  is_Some (getElementById "habitChart" initial_app) /\
  is_Some (getElementById "chartEmptyState" initial_app) /\
  let st' := updateChartVisibility error (Some "Could not load habits.") initial_app in
  canvas_visible st' = negb (placeholder_visible st') /\
  (canvas_visible st' = true <-> error = ready).
Proof.
  assert (Hc : is_Some (getElementById "habitChart" initial_app))
    by (eexists; vm_compute; reflexivity).
  assert (Hp : is_Some (getElementById "chartEmptyState" initial_app))
    by (eexists; vm_compute; reflexivity).
  split; [exact Hc|]. split; [exact Hp|].
  exact (updateChartVisibility_exactly_one_visible error
           (Some "Could not load habits.") initial_app Hc Hp).
Defined.

(** C3 when the network is down and a chart is live. *)
Lemma loadHabitProgress_failure_ends_in_error_witness :
  page_ready charted_app /\
  single_chart charted_app /\
  progress_fails offline_host charted_app = true /\
  let st' := final_state (loadHabitProgress offline_host charted_app) in
  rejected (loadHabitProgress offline_host charted_app) = false /\
  visibility_state st' = Some "error" /\
  visibility_state st' <> Some "loading" /\
  (exists m, placeholder_text st' = Some m /\ m <> "") /\
  placeholder_visible st' = true /\
  (exists toast, toasts st' = toasts charted_app ++ [toast] /\
                 textContent toast <> "" /\ "error" ∈ classList toast) /\
  habitChart st' = None /\
  no_live_chart st' = true.
Proof.
  assert (Hf : progress_fails offline_host charted_app = true) by (vm_compute; reflexivity).
  split; [exact charted_app_ready|]. split; [exact charted_app_single|].
  split; [exact Hf|].
  exact (proj1 (proj2 (loadHabitProgress_failure_ends_in_error offline_host charted_app))
           charted_app_ready charted_app_single Hf).
Defined.

(** C4 fails on a successful creation: the habit "Meditate" is created
    on an empty selection, the identifier goes from null to 1, and two
    progress requests are sent for it. It fails in the same way on a
    toggle of "Meditate" while no habit is selected: the reload selects
    it, and its progress is requested twice. *)
Lemma addHabit_loads_progress_twice :
  let st' := final_state (addHabit healthy_host initial_app) in
  let toggled := final_state (toggleHabitCompletion healthy_host meditate initial_app) in
  currentHabitId initial_app = None /\
  currentHabitId st' = Some 1 /\
  progress_calls initial_app st' = [GetProgress 1 30; GetProgress 1 30] /\
  length (progress_calls initial_app st') <> 1%nat /\
  currentHabitId toggled = Some 1 /\
  progress_calls initial_app toggled = [GetProgress 1 30; GetProgress 1 30].
Proof.
  vm_compute.
  split; [reflexivity|]. split; [reflexivity|]. split; [reflexivity|].
  split; [discriminate|]. split; reflexivity.
Qed.

(** C4, as the code has it, on that creation. *)
Lemma progress_loaded_for_new_identifier_witness :
  truthy_string (trim (field_value "habitName" initial_app)) = true /\
  respond healthy_host (length (requests initial_app)) (habit_form_request initial_app) =
    Response true (JsonValue {| created_id := Some 1 |}) /\
  reload_succeeds healthy_host initial_app [habit_form_request initial_app] = true /\
  let st' := final_state (addHabit healthy_host initial_app) in
  progress_calls initial_app st' = progress_call st' ++ progress_call st'.
Proof.
  assert (Hname : truthy_string (trim (field_value "habitName" initial_app)) = true)
    by (vm_compute; reflexivity).
  assert (Hpost : respond healthy_host (length (requests initial_app))
                    (habit_form_request initial_app) =
                  Response true (JsonValue {| created_id := Some 1 |}))
    by (vm_compute; reflexivity).
  assert (Hreload : reload_succeeds healthy_host initial_app
                      [habit_form_request initial_app] = true)
    by (vm_compute; reflexivity).
  split; [exact Hname|]. split; [exact Hpost|]. split; [exact Hreload|].
  pose proof (proj1 (proj2 (proj2 (proj2
                (progress_loaded_for_new_identifier healthy_host initial_app))))
                _ Hname Hpost) as Hcalls.
  cbv zeta in Hcalls. rewrite Hreload in Hcalls. exact Hcalls.
Defined.

(** C5 fails on an identifier that is 0: with the habits 1 and 0 and the
    habit 0 selected, the reconciliation selects the habit 1. *)
Lemma updateHabitSelectOptions_drops_zero :
  let st := set_currentHabitId (Some 0) initial_app in
  habit_zero ∈ [meditate; habit_zero] /\
  currentHabitId st = Some (id habit_zero) /\
  currentHabitId (updateHabitSelectOptions [meditate; habit_zero] st) = Some 1 /\
  currentHabitId (updateHabitSelectOptions [meditate; habit_zero] st) <> currentHabitId st.
Proof.
  cbv zeta. split; [apply list_elem_of_further, list_elem_of_here|].
  vm_compute. repeat split; discriminate.
Qed.

(** C5, as the code has it, with "Meditate" selected. *)
Lemma updateHabitSelectOptions_keeps_selection_witness :
  let st := set_currentHabitId (Some 1) initial_app in
  meditate ∈ [meditate; habit_zero] /\
  currentHabitId st = Some (id meditate) /\
  truthy_id (currentHabitId st) = true /\
  currentHabitId (updateHabitSelectOptions [meditate; habit_zero] st) = currentHabitId st.
Proof.
  cbv zeta.
  assert (Hin : meditate ∈ [meditate; habit_zero]) by apply list_elem_of_here.
  assert (Hcur : currentHabitId (set_currentHabitId (Some 1) initial_app) = Some (id meditate))
    by reflexivity.
  assert (Ht : truthy_id (currentHabitId (set_currentHabitId (Some 1) initial_app)) = true)
    by reflexivity.
  split; [exact Hin|]. split; [exact Hcur|]. split; [exact Ht|].
  exact (updateHabitSelectOptions_keeps_selection [meditate; habit_zero]
           (set_currentHabitId (Some 1) initial_app) meditate Hin Hcur Ht).
Defined.




(** C10 fails on a page that shows a chart: entering the error state
    without a message destroys the chart and clears its handle, which is
    more than a change of visibility, dataset state and aria attributes. *)
Lemma updateChartVisibility_error_releases_chart :
  let st' := updateChartVisibility error None charted_app in
  habitChart charted_app = Some 0%nat /\
  habitChart st' = None /\
  destroyed <$> chartStore charted_app !! 0%nat = Some false /\
  destroyed <$> chartStore st' !! 0%nat = Some true /\
  ~ only_marks_change charted_app st'.
Proof.
  cbv zeta.
  split; [reflexivity|]. split; [reflexivity|]. split; [reflexivity|].
  split; [reflexivity|].
  intros (_ & H & _). discriminate H.
Defined.

(** C10, as the code has it, after a failed load: the loading state,
    entered without a message, still shows the message of the failure. *)
Lemma updateChartVisibility_keeps_text_without_message_witness :
  (@None string = None \/ @None string = Some "") /\
  is_Some (getElementById "habitChart" initial_app) /\
  is_Some (getElementById "chartEmptyState" initial_app) /\
  truthy_string "Could not load habits." = true /\
  loading <> ready /\
  let st' := updateChartVisibility loading None
               (updateChartVisibility error (Some "Could not load habits.") initial_app) in
  placeholder_text st' = Some "Could not load habits." /\
  placeholder_visible st' = true.
Proof.
  destruct example_page_ready as (Hc & Hp & _).
  assert (H0 : @None string = None \/ @None string = Some "") by (left; reflexivity).
  assert (Hm : truthy_string "Could not load habits." = true) by reflexivity.
  assert (Hs : loading <> ready) by discriminate.
  split; [exact H0|].
  split; [exact Hc|]. split; [exact Hp|]. split; [exact Hm|]. split; [exact Hs|].
  pose proof (updateChartVisibility_keeps_text_without_message loading None initial_app H0)
    as H.
  cbv zeta in H. destruct H as (_ & _ & _ & _ & _ & _ & _ & _ & H).
  exact (H error "Could not load habits." Hc Hp Hm Hs).
Defined.

(** * Further properties of the script *)

Section ListAndSelector.

Variable host : Host.

Lemma fold_select_children previous habits sel st :
  option_entry <$> children (fst (fold_left (select_step previous) habits (sel, st))) =
  (option_entry <$> children sel)
    ++ ((fun h => (Z_to_string (id h), name h)) <$> habits).
Proof.
  revert sel st. induction habits as [|h habits IH]; intros sel st.
  - cbn [fold_left fst fmap list_fmap]. rewrite app_nil_r. reflexivity.
  - cbn [fold_left].
    assert (Hstep : option_entry <$> children (fst (select_step previous (sel, st) h)) =
                    (option_entry <$> children sel) ++ [(Z_to_string (id h), name h)]).
    { unfold select_step.
      destruct (truthy_id previous && bool_decide (previous = Some (id h))
                || negb (truthy_id previous) && negb (truthy_id (currentHabitId st)));
        cbn [fst];
        match goal with |- context [children (appendChild ?c ?s)] =>
          change (children (appendChild c s)) with (children s ++ [c]) end;
        rewrite fmap_app; reflexivity. }
    destruct (select_step previous (sel, st) h) as [sel1 st1]. cbn [fst] in Hstep.
    rewrite IH, Hstep, <- app_assoc. reflexivity.
Qed.

(** X1. On a page that has the selector, [updateHabitSelectOptions]
    replaces its options by one option per habit, in the order of the
    collection, whose value is the habit's id in decimal and whose label is
    the habit's name; the selector is enabled. This for a collection that
    is not empty and whose ids are safe integers, which a number prints
    digit by digit. *)
Theorem updateHabitSelectOptions_lists_habits
    (habits : list Habit) (st : App) (select : Element) :
  getElementById "habitSelect" st = Some select ->
  habits <> [] ->
  Forall (fun h => safe_integer (id h)) habits ->
  exists sel,
    getElementById "habitSelect" (updateHabitSelectOptions habits st) = Some sel /\
    option_entry <$> children sel = (fun h => (Z_to_string (id h), name h)) <$> habits /\
    disabled sel = false.
Proof.
  intros Hs Hne _. unfold updateHabitSelectOptions. rewrite Hs.
  pose proof (fold_select_children (currentHabitId st) habits (set_innerHTML "" select) st)
    as Hfold.
  destruct (fold_left (select_step (currentHabitId st)) habits (set_innerHTML "" select, st))
    as [sel1 st1].
  cbn [fst] in Hfold. change (children (set_innerHTML "" select)) with (@nil Element) in Hfold.
  cbn [fmap list_fmap app] in Hfold.
  destruct habits as [|first rest]; [contradiction|].
  destruct (existsb _ _); rewrite getElementById_putElement_eq;
    eexists; (split; [reflexivity|]); (split; [exact Hfold | reflexivity]).
Qed.

Lemma select_fold_settled previous habits sel st :
  truthy_id previous = false ->
  truthy_id (currentHabitId st) = true ->
  currentHabitId (snd (fold_left (select_step previous) habits (sel, st))) =
  currentHabitId st.
Proof.
  intros Hp. revert sel st. induction habits as [|h habits IH]; intros sel st Hc.
  - reflexivity.
  - cbn [fold_left]. unfold select_step at 2. rewrite Hp, Hc. cbn [andb negb orb].
    apply IH, Hc.
Qed.

(** X2. The fallback of the reconciliation. On a page that has the
    selector and for a collection that is not empty, the current-habit
    identifier becomes the id of the first habit of the collection when
    the identifier held before is truthy and is the id of no habit of the
    collection (a stale selection), and also when the identifier held
    before is null or 0 and the first habit's id is not 0 (no
    selection). *)
Theorem updateHabitSelectOptions_falls_back_to_first
    (first : Habit) (rest : list Habit) (st : App) :
  is_Some (getElementById "habitSelect" st) ->
  (truthy_id (currentHabitId st) = true /\
   forall h, h ∈ first :: rest -> currentHabitId st <> Some (id h))
  \/ (truthy_id (currentHabitId st) = false /\ id first <> 0) ->
  currentHabitId (updateHabitSelectOptions (first :: rest) st) = Some (id first).
Proof.
  intros [select Hs] Hcase. unfold updateHabitSelectOptions. rewrite Hs.
  destruct Hcase as [[Ht Hstale] | [Hf Hfirst]].
  - pose proof (select_fold_keeps (currentHabitId st) (first :: rest)
                  (set_innerHTML "" select) st Ht eq_refl) as Hkeep.
    destruct (fold_left (select_step (currentHabitId st)) (first :: rest)
                (set_innerHTML "" select, st)) as [sel1 st1].
    cbn [snd] in Hkeep.
    destruct (existsb _ _) eqn:Hfound; [| reflexivity].
    apply existsb_id_elem in Hfound. destruct Hfound as (h & Hin & Hcur).
    exfalso. apply (Hstale h Hin). congruence.
  - cbn [fold_left]. unfold select_step at 2. rewrite Hf. cbn [andb negb orb].
    assert (Ht1 : truthy_id (currentHabitId (set_currentHabitId (Some (id first)) st)) = true).
    { apply truthy_id_Some, Hfirst. }
    pose proof (select_fold_settled (currentHabitId st) rest
                  (appendChild
                     (set_selected true
                        (set_textContent (name first)
                           (set_value (Z_to_string (id first)) (createElement "option"))))
                     (set_innerHTML "" select))
                  (set_currentHabitId (Some (id first)) st) Hf Ht1) as Hkeep.
    destruct (fold_left _ rest _) as [sel1 st1]. cbn [snd] in Hkeep.
    destruct (existsb _ _); [exact Hkeep | reflexivity].
Qed.

End ListAndSelector.

Section RangeButtons.

Variable host : Host.

Lemma range_button_facts st r :
  button_range (range_button st r) = Some r /\
  disabled (range_button st r) = negb (truthy_id (currentHabitId st)) /\
  is_active (range_button st r) = (r =? currentRange st) /\
  textContent (range_button st r) = Z_to_string r +:+ " days".
Proof.
  unfold range_button, is_active. destruct (r =? currentRange st); repeat split.
Qed.

Lemma setupRangeButtons_children st container :
  getElementById "rangeButtons" st = Some container ->
  children <$> getElementById "rangeButtons" (setupRangeButtons st) =
  Some (range_button st <$> chartRanges).
Proof.
  intros Hc. unfold setupRangeButtons. rewrite Hc.
  rewrite getElementById_putElement_eq. cbn [fmap option_fmap option_map].
  rewrite fold_appendChild_children. reflexivity.
Qed.

(** X3. On a page that has the range container, [setupRangeButtons]
    replaces its content by four buttons, for 7, 14, 30 and 90 days in
    this order; each is disabled exactly when the current-habit
    identifier is null or 0, and a button is marked active exactly when
    its range is the current range. *)
Theorem setupRangeButtons_renders (st : App) (container : Element) :
  getElementById "rangeButtons" st = Some container ->
  exists c,
    getElementById "rangeButtons" (setupRangeButtons st) = Some c /\
    button_range <$> children c = [Some 7; Some 14; Some 30; Some 90] /\
    textContent <$> children c = ["7 days"; "14 days"; "30 days"; "90 days"] /\
    Forall (fun b => disabled b = negb (truthy_id (currentHabitId st))) (children c) /\
    Forall (fun b => is_active b = true <-> button_range b = Some (currentRange st))
      (children c).
Proof.
  intros Hc. pose proof (setupRangeButtons_children st container Hc) as Hch.
  destruct (getElementById "rangeButtons" (setupRangeButtons st)) as [c|];
    [| discriminate].
  exists c. split; [reflexivity|]. injection Hch as ->.
  cbn [chartRanges fmap list_fmap].
  destruct (range_button_facts st 7) as (R7 & D7 & A7 & T7).
  destruct (range_button_facts st 14) as (R14 & D14 & A14 & T14).
  destruct (range_button_facts st 30) as (R30 & D30 & A30 & T30).
  destruct (range_button_facts st 90) as (R90 & D90 & A90 & T90).
  split; [rewrite R7, R14, R30, R90; reflexivity|].
  split; [rewrite T7, T14, T30, T90; reflexivity|].
  split; [repeat constructor; assumption|].
  assert (Hact : forall r,
            is_active (range_button st r) = true <->
            button_range (range_button st r) = Some (currentRange st)).
  { intros r. destruct (range_button_facts st r) as (-> & _ & -> & _).
    rewrite Z.eqb_eq. split; congruence. }
  repeat (apply List.Forall_cons; [apply Hact|]). apply List.Forall_nil.
Qed.

Ltac other_leaf H0 :=
  cbn [final_state snd];
  repeat (rewrite ?showToast_other, ?updateChartVisibility_other by congruence);
  apply H0; reflexivity.

(** [loadHabitProgress] writes to the canvas, the placeholder and the
    toast container only. *)
Lemma loadHabitProgress_other i st :
  i <> "habitChart" -> i <> "chartEmptyState" -> i <> "toastContainer" ->
  getElementById i (final_state (loadHabitProgress host st)) = getElementById i st.
Proof.
  intros H1 H2 H3. unfold loadHabitProgress.
  destruct (currentHabitId st) as [h|]; [|reflexivity].
  destruct (truthy_id (Some h)); cbn [negb]; [|reflexivity].
  unfold mbind, Async_bind, try_catch, fetch, console_error, lift. cbv beta.
  set (st0 := updateChartVisibility loading (Some "Loading progress...") st).
  assert (H0 : forall X, document X = document st0 ->
                         getElementById i X = getElementById i st).
  { intros X HX. unfold getElementById at 1. rewrite HX.
    apply (updateChartVisibility_other i loading); assumption. }
  destruct (respond host (length (requests st0)) (GetProgress h (currentRange st)))
    as [|ok body].
  { other_leaf H0. }
  unfold ok_json, require_ok, mbind, Async_bind. cbn [fst snd]. destruct ok.
  2:{ unfold throw. other_leaf H0. }
  unfold mret, Async_ret. cbv beta. unfold json. destruct body as [|data].
  { unfold throw. other_leaf H0. }
  unfold mret, Async_ret, gets. cbv beta.
  destruct (getElementById "habitChart" _) as [canvas1|].
  2:{ other_leaf H0. }
  destruct (chartDefined host).
  2:{ other_leaf H0. }
  destruct (habitChart _) as [h1|]; cbv beta iota;
    (destruct (dates data) as [ds|];
     [| unfold throw; other_leaf H0 ]);
    (destruct (habit data) as [s|];
     [| unfold throw; other_leaf H0 ]);
    unfold newChart;
    match goal with |- context [chartConstructs host ?c] =>
      destruct (chartConstructs host c) end;
    other_leaf H0.
Qed.

(** X4. A click on a range button sets the current range to the
    button's range, renders the range buttons again so that the active
    ones are exactly those of that range - exactly one of them when the
    range is 7, 14, 30 or 90 - keeps the current habit, and sends the one
    progress request for the current habit and the new range (none when
    no habit is selected). *)
Theorem range_click_reloads_progress (r : Z) (st : App) (container : Element) :
  getElementById "rangeButtons" st = Some container ->
  let st' := final_state (click host (SelectRange r) st) in
  currentRange st' = r /\
  currentHabitId st' = currentHabitId st /\
  progress_calls st st' = progress_call st' /\
  exists buttons,
    children <$> getElementById "rangeButtons" st' = Some buttons /\
    Forall (fun b => is_active b = true <-> button_range b = Some r) buttons /\
    (r ∈ chartRanges -> length (List.filter is_active buttons) = 1%nat).
Proof.
  intros Hc st'. subst st'. cbn [click].
  unfold mbind, Async_bind, lift. cbv beta.
  set (st2 := setupRangeButtons (set_currentRange r st)).
  pose proof (loadHabitProgress_other "rangeButtons" st2) as Hother.
  destruct (loadHabitProgress_trace host st2) as (st' & Hrun & Hcur & Hrange & Hreq).
  rewrite Hrun in *. cbn [final_state snd] in *.
  destruct (quiet_setupRangeButtons (set_currentRange r st)) as [Hreq2 Hrange2].
  fold st2 in Hreq2, Hrange2.
  assert (Hcur2 : currentHabitId st2 = currentHabitId st)
    by apply (setupRangeButtons_currentHabitId (set_currentRange r st)).
  autorewrite with fields in Hrange2.
  split; [congruence|]. split; [congruence|]. split.
  { rewrite Hreq2 in Hreq. autorewrite with fields in Hreq.
    rewrite (progress_calls_app _ _ _ Hreq), filter_progress_call.
    symmetry. apply progress_call_ext; assumption. }
  exists (range_button (set_currentRange r st) <$> chartRanges).
  split.
  { rewrite Hother by discriminate. subst st2.
    apply (setupRangeButtons_children _ container). exact Hc. }
  assert (Hact : forall x,
            is_active (range_button (set_currentRange r st) x) = (x =? r)).
  { intros x. apply range_button_facts. }
  split.
  - cbn [chartRanges fmap list_fmap].
    repeat (apply List.Forall_cons;
            [ rewrite Hact, Z.eqb_eq;
              match goal with |- context [button_range (range_button ?s ?x)] =>
                destruct (range_button_facts s x) as (-> & _) end;
              split; congruence |]).
    apply List.Forall_nil.
  - intros Hin. cbn [chartRanges fmap list_fmap List.filter]. rewrite !Hact.
    unfold chartRanges in Hin.
    repeat (apply elem_of_cons in Hin; destruct Hin as [-> | Hin]);
      [reflexivity.. | inversion Hin].
Qed.

End RangeButtons.

Section HabitList.

Variable host : Host.

(** X5. On a page that has the habit list, [renderHabits] replaces its
    content. For a collection that is not empty it puts one item per
    habit, in the order of the collection, that shows the habit's name,
    the badge "Completed today" or "Pending today", and two buttons whose
    listeners toggle and chart that very habit; nothing but the list
    changes. For the empty collection it puts the single empty-state item
    and, when the chart area is on the page, sets it to the empty state
    with the default message and drops the chart handle. *)
Theorem renderHabits_renders (habits : list Habit) (st : App) (list : Element) :
  getElementById "habitList" st = Some list ->
  let st' := renderHabits host habits st in
  exists items,
    children <$> getElementById "habitList" st' = Some items /\
    (habits <> [] ->
       rendered_title <$> items = (fun h => Some (name h)) <$> habits /\
       rendered_badge <$> items =
         (fun h => Some (if completed h then "Completed today" else "Pending today"))
           <$> habits /\
       rendered_listeners <$> items =
         (fun h => Some [Some (ToggleCompletion h); Some (ViewProgress habits h)])
           <$> habits /\
       exists e, st' = putElement "habitList" e st) /\
    (habits = [] ->
       (exists li, items = [li] /\ classList li = ["empty-state"]) /\
       (is_Some (getElementById "habitChart" st) ->
        is_Some (getElementById "chartEmptyState" st) ->
        visibility_state st' = Some "empty" /\
        placeholder_text st' = Some DEFAULT_CHART_MESSAGE /\
        habitChart st' = None)).
Proof.
  intros Hl st'. subst st'. destruct habits as [|h0 rest].
  - unfold renderHabits. rewrite Hl.
    rewrite updateChartVisibility_other by discriminate.
    rewrite getElementById_putElement_eq. eexists. split; [reflexivity|].
    split; [intros Hne; contradiction|]. intros _. split.
    + eexists. split; reflexivity.
    + intros Hc Hp.
      match goal with |- context [updateChartVisibility empty ?m ?s] =>
        assert (Hc1 : is_Some (getElementById "habitChart" s))
          by (rewrite getElementById_putElement_ne by discriminate; exact Hc);
        assert (Hp1 : is_Some (getElementById "chartEmptyState" s))
          by (rewrite getElementById_putElement_ne by discriminate; exact Hp)
      end.
      rewrite updateChartVisibility_state, updateChartVisibility_text,
        updateChartVisibility_habitChart by assumption.
      repeat split.
  - pose proof (renderHabits_items host (h0 :: rest) st list Hl) as Hitems.
    exists (habit_item host (h0 :: rest) <$> (h0 :: rest)).
    split; [apply Hitems; discriminate|].
    split; [| intros Hnil; discriminate]. intros _.
    rewrite <- !list_fmap_compose.
    repeat split.
    unfold renderHabits. rewrite Hl. eexists. reflexivity.
Qed.

End HabitList.

Section Seeding.

Variable host : Host.

Lemma sent_app st st' reqs : requests st' = requests st ++ reqs -> sent st st' = reqs.
Proof. intros H. unfold sent. rewrite H. apply drop_app_length. Qed.

(** What [ensureDemoSeed] returns, sends and leaves. *)
Lemma ensureDemoSeed_shape (st : App) :
  let answer := respond host (length (requests st)) GetHabits in
  let run := ensureDemoSeed host st in
  fst run = Normal (negb (fetch_failed answer)) /\
  sent st (snd run) =
    GetHabits :: (if answered_empty answer then [PostDemoReset] else []) /\
  snd run = set_requests (requests (snd run)) st.
Proof.
  cbv zeta. unfold ensureDemoSeed.
  unfold mbind, Async_bind, try_catch, fetch. cbv beta.
  destruct (respond host (length (requests st)) GetHabits) as [|ok body].
  { cbn [fst snd]. split; [reflexivity|]. split; [apply sent_app|]; reflexivity. }
  cbn [fst snd]. destruct ok; cbn [negb].
  2:{ split; [reflexivity|]. split; [apply sent_app|]; reflexivity. }
  unfold json. destruct body as [|list].
  { cbn [fst snd]. split; [reflexivity|]. split; [apply sent_app|]; reflexivity. }
  unfold mret, Async_ret. cbv beta. destruct list as [|h rest].
  2:{ cbn [fst snd]. split; [reflexivity|]. split; [apply sent_app|]; reflexivity. }
  autorewrite with fields.
  destruct (respond host (length (requests st ++ [GetHabits])) PostDemoReset)
    as [|ok2 body2]; cbn [fst snd];
    (split; [reflexivity|]); (split; [apply sent_app|]);
    autorewrite with fields; rewrite <- ?app_assoc; reflexivity.
Qed.

(** X6. For a server whose answer to the request for the collection
    carries, when it can be read as JSON, an array of habits:
    [ensureDemoSeed] asks for the collection and asks the server to seed
    the demo data exactly when the array came back empty; it never asks
    when habits exist or when the collection could not be read. It returns
    false exactly when its request for the collection failed - whatever
    becomes of the seeding request -, never rejects, and changes nothing
    but the record of requests. *)
Theorem ensureDemoSeed_seeds_only_when_empty (st : App) :
  let answer := respond host (length (requests st)) GetHabits in
  let run := ensureDemoSeed host st in
  fst run = Normal (negb (fetch_failed answer)) /\
  sent st (snd run) =
    GetHabits :: (if answered_empty answer then [PostDemoReset] else []) /\
  snd run = set_requests (requests (snd run)) st.
Proof. exact (ensureDemoSeed_shape st). Qed.

End Seeding.

Section ChartDrawing.

Variable host : Host.



End ChartDrawing.

Section Journal.

Variable host : Host.

Lemma insert_entry_perm e l : Permutation (insert_entry host e l) (e :: l).
Proof.
  induction l as [|x r IH]; cbn [insert_entry]; [reflexivity|].
  destruct (time_value host e <? time_value host x).
  - rewrite IH. apply perm_swap.
  - reflexivity.
Qed.

Lemma insert_entry_HdRel a e l :
  newest_first host a e -> HdRel (newest_first host) a l ->
  HdRel (newest_first host) a (insert_entry host e l).
Proof.
  intros Hae Hl. destruct l as [|x r]; cbn [insert_entry]; [constructor; exact Hae|].
  destruct (time_value host e <? time_value host x).
  - constructor. inversion Hl; assumption.
  - constructor. exact Hae.
Qed.

Lemma insert_entry_sorted e l :
  Sorted (newest_first host) l -> Sorted (newest_first host) (insert_entry host e l).
Proof.
  induction l as [|x r IH]; intros Hs; cbn [insert_entry].
  - repeat constructor.
  - destruct (time_value host e <? time_value host x) eqn:Hlt.
    + inversion Hs as [|? ? Hr Hhd]; subst. constructor; [apply IH, Hr|].
      apply insert_entry_HdRel; [| exact Hhd].
      unfold newest_first. apply Z.ltb_lt in Hlt. lia.
    + constructor; [exact Hs|]. constructor.
      unfold newest_first. apply Z.ltb_ge in Hlt. exact Hlt.
Qed.

Lemma insert_entry_dated d e l :
  List.filter (dated host d) (insert_entry host e l) =
  List.filter (dated host d) (e :: l).
Proof.
  induction l as [|x r IH]; cbn [insert_entry]; [reflexivity|].
  destruct (time_value host e <? time_value host x) eqn:Hlt;
    [| reflexivity].
  cbn [List.filter] in *. rewrite IH. apply Z.ltb_lt in Hlt.
  unfold dated.
  destruct (time_value host x =? d) eqn:Hx;
    destruct (time_value host e =? d) eqn:He; try reflexivity.
  apply Z.eqb_eq in Hx, He. lia.
Qed.

Lemma insertion_newest_first (l : list Entry) :
  Permutation (fold_right (insert_entry host) [] l) l /\
  Sorted (newest_first host) (fold_right (insert_entry host) [] l) /\
  forall d, List.filter (dated host d) (fold_right (insert_entry host) [] l) =
            List.filter (dated host d) l.
Proof.
  induction l as [|e l (Hperm & Hsorted & Hstable)];
    [repeat split; constructor|].
  cbn [fold_right]. split; [| split].
  - rewrite insert_entry_perm. constructor. exact Hperm.
  - apply insert_entry_sorted, Hsorted.
  - intros d. rewrite insert_entry_dated. cbn [List.filter]. rewrite Hstable. reflexivity.
Qed.

(** X8. The order in which the journal is shown when every timestamp
    is a valid date: the entries the server sent, each exactly once, none
    older than the one after it, and the entries of one and the same time
    in the order in which they came. (With a timestamp that is not a
    valid date the comparison is [NaN] and the order is the engine's.) *)
Theorem sort_entries_newest_first_stable (entries : list Entry) :
  forallb (valid_date host) entries = true ->
  Permutation (sort_entries host entries) entries /\
  Sorted (newest_first host) (sort_entries host entries) /\
  forall d, List.filter (dated host d) (sort_entries host entries) =
            List.filter (dated host d) entries.
Proof.
  intros Hvalid. unfold sort_entries. rewrite Hvalid. apply insertion_newest_first.
Qed.

(** X9. When the journal request succeeds on a page that has the list,
    [loadJournalEntries] replaces the items of the list: by one item per
    entry of the sorted journal, in its order, made of the local time of
    the entry and then its text, or, when no entry was received, by the
    single item that says so. It shows no toast, sends this one request
    and leaves every other element as it was. *)
Theorem loadJournalEntries_renders (st : App) (ul : Element) (entries : list Entry) :
  getElementById "journalEntries" st = Some ul ->
  respond host (length (requests st)) GetJournal = Response true (JsonValue entries) ->
  let st' := final_state (loadJournalEntries host st) in
  exists items,
    journal_items st' = Some items /\
    (entries <> [] ->
       rendered_entry <$> items =
         (fun e => [toLocaleString host (timestamp e); content e]) <$>
           sort_entries host entries /\
       Forall (fun li => classList li = ["journal-entry"]) items) /\
    (entries = [] ->
       exists li, items = [li] /\ classList li = ["empty-state"] /\
                  textContent li = no_entries_text) /\
    sent st st' = [GetJournal] /\
    toasts st' = toasts st /\
    forall i, i <> "journalEntries" -> getElementById i st' = getElementById i st.
Proof.
  intros Hlist Hans st'. subst st'.
  unfold loadJournalEntries, try_catch.
  unfold mbind, Async_bind, fetch, lift. cbv beta. rewrite Hans.
  unfold ok_json, require_ok, mbind, Async_bind, json, mret, Async_ret.
  cbn [fst snd]. cbv beta. cbn [final_state snd].
  set (st1 := set_requests (requests st ++ [GetJournal]) st).
  assert (Hl1 : getElementById "journalEntries" st1 = Some ul) by exact Hlist.
  rewrite Hl1.
  assert (Hframe : forall e i, i <> "journalEntries" ->
            getElementById i (putElement "journalEntries" e st1) = getElementById i st).
  { intros e i Hne. rewrite getElementById_putElement_ne by congruence. reflexivity. }
  assert (Hsent : forall e, sent st (putElement "journalEntries" e st1) = [GetJournal]).
  { intros e. apply sent_app. reflexivity. }
  assert (Htoasts : forall e, toasts (putElement "journalEntries" e st1) = toasts st).
  { intros e. unfold toasts. rewrite Hframe by discriminate. reflexivity. }
  destruct entries as [|e0 rest].
  - eexists. unfold journal_items. rewrite getElementById_putElement_eq.
    split; [reflexivity|]. split.
    { intros Hne. contradiction. }
    split.
    { intros _. eexists. split; [reflexivity|]. split; reflexivity. }
    split; [apply Hsent|]. split; [apply Htoasts | intros i; apply Hframe].
  - eexists. unfold journal_items. rewrite getElementById_putElement_eq.
    split; [reflexivity|]. split.
    { intros _. cbn [fmap option_fmap option_map].
      rewrite (fold_appendChild_children (journal_item host)).
      change (children (set_innerHTML "" ul)) with (@nil Element).
      cbn [app]. split.
      - rewrite <- list_fmap_compose. apply list_fmap_ext. intros ? x _. reflexivity.
      - apply Forall_fmap, Forall_forall. intros x _. reflexivity. }
    split.
    { intros H. discriminate H. }
    split; [apply Hsent|]. split; [apply Htoasts | intros i; apply Hframe].
Qed.

End Journal.

(** ** Trimming *)

Lemma trimStart_eq s :
  trimStart s = match skip_space s with Some r => trimStart r | None => s end.
Proof.
  transitivity
    (match s with
     | String a r1 =>
         if is_space a then trimStart r1 else
         match r1 with
         | String b r2 =>
             if is_space2 a b then trimStart r2 else
             match r2 with
             | String c r3 => if is_space3 a b c then trimStart r3 else s
             | EmptyString => s
             end
         | EmptyString => s
         end
     | EmptyString => EmptyString
     end); [destruct s; reflexivity|].
  unfold skip_space.
  destruct s as [|a [|b [|c r3]]];
    repeat match goal with |- context [if ?b then _ else _] => destruct b end;
    reflexivity.
Qed.

Lemma blank_eq s :
  blank s = match skip_space s with
            | Some r => blank r
            | None => negb (truthy_string s)
            end.
Proof.
  transitivity
    (match s with
     | String a r1 =>
         if is_space a then blank r1 else
         match r1 with
         | String b r2 =>
             if is_space2 a b then blank r2 else
             match r2 with
             | String c r3 => if is_space3 a b c then blank r3 else false
             | EmptyString => false
             end
         | EmptyString => false
         end
     | EmptyString => true
     end); [destruct s; reflexivity|].
  unfold skip_space.
  destruct s as [|a [|b [|c r3]]];
    repeat match goal with |- context [if ?b then _ else _] => destruct b end;
    reflexivity.
Qed.

Lemma skip_space_shorter s r :
  skip_space s = Some r -> (String.length r < String.length s)%nat.
Proof.
  destruct s as [|a [|b [|c r3]]]; cbn [skip_space String.length];
    repeat match goal with |- context [if ?b then _ else _] => destruct b end;
    intros H; try discriminate H; injection H as <-; cbn [String.length]; lia.
Qed.

Lemma append_cons c a b : String c a +:+ b = String c (a +:+ b).
Proof. reflexivity. Qed.

Lemma skip_space_app s r t :
  skip_space s = Some r -> skip_space (s +:+ t) = Some (r +:+ t).
Proof.
  destruct s as [|a [|b [|c r3]]]; cbn [skip_space]; rewrite ?append_cons;
    cbn [skip_space];
    repeat match goal with |- context [if ?b then _ else _] => destruct b eqn:? end;
    intros H; try discriminate H; injection H as <-; try reflexivity.
Qed.

(** Induction along the white space at the head of a text. *)
Lemma skip_space_ind (P : string -> Prop) :
  (forall s, (forall r, skip_space s = Some r -> P r) -> P s) -> forall s, P s.
Proof.
  intros Hstep s. remember (String.length s) as n eqn:Hn.
  revert s Hn. induction n as [n IH] using lt_wf_ind. intros s ->.
  apply Hstep. intros r Hr. apply (IH (String.length r)); [| reflexivity].
  apply skip_space_shorter, Hr.
Qed.

Lemma trimStart_empty s : trimStart s = EmptyString <-> blank s = true.
Proof.
  induction s as [s IH] using skip_space_ind.
  rewrite (trimStart_eq s), (blank_eq s).
  destruct (skip_space s) as [r|]; [apply IH; reflexivity|].
  destruct s; cbn [truthy_string negb]; split; (reflexivity || discriminate).
Qed.

Lemma blank_trimStart s : blank (trimStart s) = blank s.
Proof.
  induction s as [s IH] using skip_space_ind.
  rewrite (trimStart_eq s), (blank_eq s).
  destruct (skip_space s) as [r|] eqn:E; [apply IH; reflexivity|].
  rewrite (blank_eq s), E. reflexivity.
Qed.

Lemma trimEnd_cons a r :
  trimEnd (String a r) = if blank (String a r) then EmptyString else String a (trimEnd r).
Proof. reflexivity. Qed.

Lemma trimEnd_empty s : trimEnd s = EmptyString <-> blank s = true.
Proof.
  destruct s as [|a r]; [split; reflexivity|].
  rewrite trimEnd_cons. destruct (blank (String a r)); split; (reflexivity || discriminate).
Qed.

(** What is left of a text after [trim] is empty exactly when the text
    is white space. *)
Lemma truthy_trim s : truthy_string (trim s) = negb (blank s).
Proof.
  unfold trim. destruct (blank s) eqn:Hb; cbn [negb].
  - apply trimStart_empty in Hb. rewrite Hb. reflexivity.
  - destruct (trimEnd (trimStart s)) eqn:Hr; [| reflexivity].
    apply trimEnd_empty in Hr. rewrite blank_trimStart, Hb in Hr. discriminate.
Qed.

Lemma trimEnd_split s :
  exists w, s = trimEnd s +:+ w /\ blank w = true.
Proof.
  induction s as [|a r (w & Hw & Hb)]; [exists EmptyString; split; reflexivity|].
  rewrite trimEnd_cons. destruct (blank (String a r)) eqn:E.
  - exists (String a r). split; [reflexivity | exact E].
  - exists w. split; [| exact Hb]. rewrite append_cons, <- Hw. reflexivity.
Qed.

Lemma blank_app x y : blank x = true -> blank (x +:+ y) = blank y.
Proof.
  induction x as [x IH] using skip_space_ind. intros Hx.
  rewrite (blank_eq x) in Hx. destruct (skip_space x) as [r|] eqn:E.
  - rewrite (blank_eq (x +:+ y)), (skip_space_app x r y E). apply IH; [reflexivity | exact Hx].
  - destruct x; [reflexivity | discriminate Hx].
Qed.

Lemma trimEnd_idempotent s : trimEnd (trimEnd s) = trimEnd s.
Proof.
  induction s as [|a r IH]; [reflexivity|].
  rewrite (trimEnd_cons a r). destruct (blank (String a r)) eqn:E; [reflexivity|].
  rewrite trimEnd_cons, IH.
  destruct (blank (String a (trimEnd r))) eqn:E'; [| reflexivity].
  destruct (trimEnd_split r) as (w & Hw & Hb).
  pose proof (blank_app (String a (trimEnd r)) w E') as H.
  rewrite append_cons, <- Hw, Hb in H. congruence.
Qed.

Lemma trimStart_skip_space s : skip_space (trimStart s) = None.
Proof.
  induction s as [s IH] using skip_space_ind.
  rewrite (trimStart_eq s). destruct (skip_space s) as [r|] eqn:E; [apply IH; reflexivity | exact E].
Qed.

Lemma trimStart_fixed s : skip_space s = None -> trimStart s = s.
Proof. intros H. rewrite trimStart_eq, H. reflexivity. Qed.

Lemma skip_space_prefix p w : skip_space (p +:+ w) = None -> skip_space p = None.
Proof.
  intros H. destruct (skip_space p) as [r|] eqn:E; [| reflexivity].
  rewrite (skip_space_app p r w E) in H. discriminate H.
Qed.

Lemma trim_idempotent s : trim (trim s) = trim s.
Proof.
  unfold trim. pose proof (trimStart_skip_space s) as Hs.
  destruct (trimEnd_split (trimStart s)) as (w & Hw & _).
  rewrite Hw in Hs at 1. apply skip_space_prefix in Hs.
  rewrite (trimStart_fixed _ Hs). apply trimEnd_idempotent.
Qed.

(** The bytes of a white-space character are none of them a comma. *)
Lemma is_space_comma a : is_space a = true -> Ascii.eqb a "," = false.
Proof.
  intros H. apply Ascii.eqb_neq. intros ->. discriminate H.
Qed.

Lemma is_space2_comma a b :
  is_space2 a b = true -> Ascii.eqb a "," = false /\ Ascii.eqb b "," = false.
Proof.
  intros H. split; apply Ascii.eqb_neq; intros ->; unfold is_space2 in H;
    cbn in H; rewrite ?andb_false_r in H; discriminate H.
Qed.

Lemma is_space3_comma a b c :
  is_space3 a b c = true ->
  Ascii.eqb a "," = false /\ Ascii.eqb b "," = false /\ Ascii.eqb c "," = false.
Proof.
  intros H. unfold is_space3 in H. cbv zeta in H.
  repeat split; apply Ascii.eqb_neq; intros ->;
    repeat match type of H with
    | context [(nat_of_ascii "," =? ?k)%nat] =>
        change (nat_of_ascii "," =? k)%nat with false in H
    | context [(?k <=? nat_of_ascii ",")%nat] =>
        change (k <=? nat_of_ascii ",")%nat with false in H
    end;
    rewrite ?andb_false_r, ?andb_false_l, ?orb_false_r, ?orb_false_l in H;
    cbn [andb orb] in H; try discriminate H.
Qed.

Lemma skip_space_comma s r : skip_space s = Some r -> has_comma s = has_comma r.
Proof.
  destruct s as [|a [|b [|c r3]]]; cbn [skip_space];
    repeat match goal with |- context [if ?b then _ else _] => destruct b eqn:? end;
    intros H; try discriminate H; injection H as <-; cbn [has_comma];
    repeat match goal with
    | H : is_space _ = true |- _ => apply is_space_comma in H
    | H : is_space2 _ _ = true |- _ => apply is_space2_comma in H as [? ?]
    | H : is_space3 _ _ _ = true |- _ => apply is_space3_comma in H as (? & ? & ?)
    end;
    repeat match goal with H : Ascii.eqb _ _ = false |- _ => rewrite H; clear H end;
    reflexivity.
Qed.

Lemma has_comma_app x y : has_comma (x +:+ y) = has_comma x || has_comma y.
Proof.
  induction x as [|c x IH]; [reflexivity|].
  rewrite append_cons. cbn [has_comma]. rewrite IH, orb_assoc. reflexivity.
Qed.

Lemma has_comma_trimStart s : has_comma s = false -> has_comma (trimStart s) = false.
Proof.
  induction s as [s IH] using skip_space_ind. intros H.
  rewrite (trimStart_eq s). destruct (skip_space s) as [r|] eqn:E; [| exact H].
  apply IH; [reflexivity|]. rewrite <- (skip_space_comma s r E). exact H.
Qed.

Lemma has_comma_trim s : has_comma s = false -> has_comma (trim s) = false.
Proof.
  intros H. apply has_comma_trimStart in H. unfold trim.
  destruct (trimEnd_split (trimStart s)) as (w & Hw & _).
  rewrite Hw, has_comma_app in H. apply orb_false_iff in H as [H _]. exact H.
Qed.

Section JournalForm.

Variable host : Host.

(** What [loadJournalEntries] may touch. *)
Lemma loadJournalEntries_frame st :
  exists st1 more,
    loadJournalEntries host st = (Normal tt, st1) /\
    requests st1 = requests st ++ [GetJournal] /\
    toasts st1 = toasts st ++ more /\
    forall i, i <> "journalEntries" -> i <> "toastContainer" ->
              getElementById i st1 = getElementById i st.
Proof.
  unfold loadJournalEntries, try_catch.
  unfold mbind, Async_bind, fetch, console_error, lift. cbv beta.
  set (st1 := set_requests (requests st ++ [GetJournal]) st).
  assert (Hfail : forall e,
    exists st2 more,
      (Normal tt,
       showToast "Could not load journal entries" "error"
         (set_console (console st1 ++ [e]) st1)) = (Normal tt, st2) /\
      requests st2 = requests st ++ [GetJournal] /\
      toasts st2 = toasts st ++ more /\
      forall i, i <> "journalEntries" -> i <> "toastContainer" ->
                getElementById i st2 = getElementById i st).
  { intros e. eexists.
    destruct (getElementById "toastContainer" st) as [c|] eqn:Hc.
    - destruct (showToast_toasts "Could not load journal entries" "error"
                  (set_console (console st1 ++ [e]) st1)) as (toast & Ht & _);
        [exists c; exact Hc|].
      exists [toast]. split; [reflexivity|]. split; [apply showToast_requests|].
      split; [exact Ht|]. intros i _ Hi. rewrite showToast_other by exact Hi. reflexivity.
    - exists []. split; [reflexivity|]. rewrite showToast_absent by exact Hc.
      split; [reflexivity|]. split; [rewrite app_nil_r; reflexivity|].
      intros i _ _. reflexivity. }
  destruct (respond host (length (requests st)) GetJournal) as [|ok body];
    [cbn [fst snd]; apply Hfail|].
  unfold ok_json, require_ok, mbind, Async_bind, json, mret, Async_ret, throw.
  cbn [fst snd]. cbv beta.
  destruct ok; [| cbn [fst snd]; apply Hfail].
  destruct body as [|entries]; cbn [fst snd]; [apply Hfail|].
  fold st1.
  assert (Hput : forall e,
    requests (putElement "journalEntries" e st1) = requests st ++ [GetJournal] /\
    toasts (putElement "journalEntries" e st1) = toasts st ++ [] /\
    forall i, i <> "journalEntries" -> i <> "toastContainer" ->
              getElementById i (putElement "journalEntries" e st1) = getElementById i st).
  { intros e. split; [reflexivity|]. split.
    - rewrite app_nil_r. unfold toasts.
      rewrite getElementById_putElement_ne by discriminate. reflexivity.
    - intros i Hi _. rewrite getElementById_putElement_ne by congruence. reflexivity. }
  destruct (getElementById "journalEntries" st1) as [ul|].
  - destruct entries; eexists; exists [];
      (split; [reflexivity | apply Hput]).
  - exists st1, []. split; [reflexivity|]. split; [reflexivity|].
    split; [rewrite app_nil_r; reflexivity | intros; reflexivity].
Qed.

(** X10. A journal entry that is not blank and that the server accepts:
    [addJournalEntry] posts the trimmed text, empties the input, shows
    the toast of a saved entry and then reloads the journal, in this
    order and with no other request. *)
Theorem addJournalEntry_saves
    (st : App) (input container : Element) (ok_body : Json unit) :
  getElementById "journalInput" st = Some input ->
  getElementById "toastContainer" st = Some container ->
  blank (value input) = false ->
  respond host (length (requests st)) (PostJournal (trim (value input))) =
    Response true ok_body ->
  let st' := final_state (addJournalEntry host st) in
  trim (value input) <> "" /\
  sent st st' = [PostJournal (trim (value input)); GetJournal] /\
  field_value "journalInput" st' = "" /\
  exists toast more,
    toasts st' = toasts st ++ toast :: more /\
    textContent toast = "Journal entry saved" /\
    "success" ∈ classList toast.
Proof.
  intros Hin Hc Hb Hans st'. subst st'.
  assert (Hfv : field_value "journalInput" st = value input).
  { unfold field_value. rewrite Hin. reflexivity. }
  assert (Ht : truthy_string (trim (value input)) = true).
  { rewrite truthy_trim, Hb. reflexivity. }
  split. { intros E. rewrite E in Ht. discriminate. }
  pose (st1 := set_requests (requests st ++ [PostJournal (trim (value input))]) st).
  pose (st2 := set_field "journalInput" "" st1).
  assert (H2 : st2 = putElement "journalInput" (set_value "" input) st1).
  { unfold st2, set_field. replace (getElementById "journalInput" st1) with (Some input)
      by (symmetry; exact Hin). reflexivity. }
  assert (Hc2 : getElementById "toastContainer" st2 = Some container).
  { rewrite H2, getElementById_putElement_ne by discriminate. exact Hc. }
  destruct (showToast_toasts "Journal entry saved" "success" st2) as (toast & Htoast & Htext & Hcls);
    [exists container; exact Hc2|].
  pose (st3 := showToast "Journal entry saved" "success" st2).
  fold st3 in Htoast.
  destruct (loadJournalEntries_frame st3) as (st4 & more & Hrun & Hreq & Hts & Hframe).
  assert (Hfinal : addJournalEntry host st = (Normal tt, st4)).
  { unfold addJournalEntry. rewrite Hfv, Ht. cbn [negb].
    unfold try_catch.
    unfold mbind at 1 2 3 4. unfold Async_bind at 1 2 3 4. unfold fetch, lift. cbv beta.
    rewrite Hans. unfold require_ok, mret, Async_ret. cbn [fst snd]. cbv beta.
    fold st1. fold st2. fold st3. rewrite Hrun. reflexivity. }
  rewrite Hfinal. cbn [final_state snd].
  split.
  { apply sent_app. rewrite Hreq. unfold st3. rewrite showToast_requests, H2.
    change (requests (putElement "journalInput" (set_value "" input) st1))
      with (requests st ++ [PostJournal (trim (value input))]).
    rewrite <- app_assoc. reflexivity. }
  split.
  { unfold field_value. rewrite Hframe by discriminate.
    unfold st3. rewrite showToast_other by discriminate.
    rewrite H2, getElementById_putElement_eq. reflexivity. }
  exists toast, more. split.
  { rewrite Hts, Htoast. unfold toasts at 1. rewrite Hc2.
    unfold toasts. rewrite Hc. rewrite <- app_assoc. reflexivity. }
  split; [exact Htext|]. apply Hcls. discriminate.
Qed.

(** X11. A journal input that is missing, empty or white space only:
    [addJournalEntry] sends nothing and changes nothing. *)
Theorem addJournalEntry_ignores_blank (st : App) :
  blank (field_value "journalInput" st) = true ->
  addJournalEntry host st = (Normal tt, st).
Proof.
  intros Hb. unfold addJournalEntry. rewrite truthy_trim, Hb. reflexivity.
Qed.

End JournalForm.

Section IdealSelf.

Variable host : Host.

Lemma renderIdealSelfSummary_other vision focusAreas st i :
  i <> "idealSelfSummary" -> i <> "idealVisionCopy" -> i <> "idealFocusCopy" ->
  getElementById i (renderIdealSelfSummary vision focusAreas st) = getElementById i st.
Proof.
  intros H1 H2 H3. unfold renderIdealSelfSummary.
  destruct (getElementById "idealSelfSummary" st) as [summary|]; [| reflexivity].
  cbv zeta.
  match goal with |- context [putElement "idealSelfSummary" ?e st] =>
    set (st1 := putElement "idealSelfSummary" e st) end.
  assert (E1 : getElementById i st1 = getElementById i st)
    by (apply getElementById_putElement_ne; congruence).
  match goal with |- context [match getElementById "idealFocusCopy" ?s with _ => _ end] =>
    set (st2 := s) end.
  assert (E2 : getElementById i st2 = getElementById i st).
  { subst st2. destruct (getElementById "idealVisionCopy" st1); [| exact E1].
    rewrite getElementById_putElement_ne by congruence. exact E1. }
  destruct (getElementById "idealFocusCopy" st2); [| exact E2].
  rewrite getElementById_putElement_ne by congruence. exact E2.
Qed.

Lemma renderIdealSelfSummary_requests vision focusAreas st :
  requests (renderIdealSelfSummary vision focusAreas st) = requests st.
Proof.
  unfold renderIdealSelfSummary.
  destruct (getElementById "idealSelfSummary" st) as [summary|]; [| reflexivity].
  cbv zeta.
  match goal with |- context [match getElementById "idealFocusCopy" ?s with _ => _ end] =>
    set (st2 := s) end.
  assert (E2 : requests st2 = requests st).
  { subst st2.
    destruct (getElementById "idealVisionCopy" _); reflexivity. }
  destruct (getElementById "idealFocusCopy" st2); exact E2.
Qed.

Lemma trim_length_blank s : (String.length (trim s) =? 0)%nat = blank s.
Proof.
  pose proof (truthy_trim s) as H. destruct (trim s); cbn in *.
  - destruct (blank s); [reflexivity | discriminate].
  - destruct (blank s); [discriminate | reflexivity].
Qed.

(** X12. [renderIdealSelfSummary] on a page with the summary: the summary
    is displayed exactly when the vision is not blank or there is a focus
    area; the vision copy, if there, gets the vision as it is, and the
    focus copy, if there, the focus areas joined by bullets, or the empty
    text when there is none. No other element changes. *)
Theorem renderIdealSelfSummary_shows_when_filled
    (vision : string) (focusAreas : list string) (st : App) :
  is_Some (getElementById "idealSelfSummary" st) ->
  let st' := renderIdealSelfSummary vision focusAreas st in
  summary_display st' =
    Some (if negb (blank vision) || negb (bool_decide (focusAreas = []))
          then "block" else "none") /\
  (is_Some (getElementById "idealVisionCopy" st) ->
     copy_text "idealVisionCopy" st' = Some vision) /\
  (is_Some (getElementById "idealFocusCopy" st) ->
     copy_text "idealFocusCopy" st' =
       Some (if bool_decide (focusAreas = []) then ""
             else "Focus areas: " +:+ join " • " focusAreas)) /\
  forall i, i <> "idealSelfSummary" -> i <> "idealVisionCopy" -> i <> "idealFocusCopy" ->
            getElementById i st' = getElementById i st.
Proof.
  intros [summary Hs] st'.
  split; [| split; [| split]];
    [| | | intros i; apply renderIdealSelfSummary_other].
  all: subst st'; unfold renderIdealSelfSummary; rewrite Hs; cbv zeta.
  all: match goal with |- context [putElement "idealSelfSummary" ?e ?s0] =>
         set (st1 := putElement "idealSelfSummary" e s0) end.
  all: match goal with |- context [match getElementById "idealFocusCopy" ?s with _ => _ end] =>
         set (st2 := s) end.
  - assert (E : getElementById "idealSelfSummary" st2 = getElementById "idealSelfSummary" st1).
    { subst st2. destruct (getElementById "idealVisionCopy" st1); [| reflexivity].
      apply getElementById_putElement_ne. discriminate. }
    assert (E' : getElementById "idealSelfSummary"
                   match getElementById "idealFocusCopy" st2 with
                   | Some focusCopy =>
                       putElement "idealFocusCopy"
                         (set_textContent
                            match focusAreas with
                            | [] => ""
                            | _ :: _ => "Focus areas: " +:+ join " • " focusAreas
                            end focusCopy) st2
                   | None => st2
                   end = getElementById "idealSelfSummary" st1).
    { destruct (getElementById "idealFocusCopy" st2); [| exact E].
      rewrite getElementById_putElement_ne by discriminate. exact E. }
    unfold summary_display. rewrite E'. unfold st1.
    rewrite getElementById_putElement_eq. cbn [mbind option_bind].
    rewrite style_set_style, lookup_insert_eq. f_equal.
    rewrite trim_length_blank.
    destruct vision as [|c r]; [destruct focusAreas; reflexivity|].
    cbn [truthy_string andb]. destruct focusAreas; reflexivity.
  - intros [vc Hvc].
    assert (E1 : getElementById "idealVisionCopy" st1 = Some vc).
    { unfold st1. rewrite getElementById_putElement_ne by discriminate. exact Hvc. }
    assert (E2 : getElementById "idealVisionCopy" st2 = Some (set_textContent vision vc)).
    { subst st2. rewrite E1. apply getElementById_putElement_eq. }
    unfold copy_text.
    destruct (getElementById "idealFocusCopy" st2);
      [rewrite getElementById_putElement_ne by discriminate|]; rewrite E2; reflexivity.
  - intros [fc Hfc].
    assert (E2 : getElementById "idealFocusCopy" st2 = Some fc).
    { subst st2. destruct (getElementById "idealVisionCopy" st1);
        [rewrite getElementById_putElement_ne by discriminate|];
        unfold st1; rewrite getElementById_putElement_ne by discriminate; exact Hfc. }
    rewrite E2. unfold copy_text. rewrite getElementById_putElement_eq.
    destruct focusAreas; reflexivity.
Qed.

(** *** Focus areas through the form *)

Lemma split_comma_plain s cur :
  has_comma s = false -> split_comma s cur = [rev_string cur s].
Proof.
  revert cur. induction s as [|c r IH]; intros cur H; cbn [split_comma has_comma] in *.
  - reflexivity.
  - apply orb_false_iff in H as [Hc Hr]. rewrite Hc. rewrite IH by exact Hr. reflexivity.
Qed.

Lemma split_comma_first s t cur :
  has_comma s = false ->
  split_comma (s +:+ String ","%char t) cur = rev_string cur s :: split_comma t EmptyString.
Proof.
  revert cur. induction s as [|c r IH]; intros cur H; cbn [split_comma has_comma] in *.
  - reflexivity.
  - apply orb_false_iff in H as [Hc Hr].
    change (String c r +:+ String ","%char t) with (String c (r +:+ String ","%char t)).
    cbn [split_comma]. rewrite Hc. rewrite IH by exact Hr. reflexivity.
Qed.

Lemma split_comma_join x r cur :
  has_comma x = false -> Forall (fun y => has_comma y = false) r ->
  split_comma (join ", " (x :: r)) cur = rev_string cur x :: (String " "%char <$> r).
Proof.
  revert x cur. induction r as [|y r IH]; intros x cur Hx Hr.
  - apply split_comma_plain, Hx.
  - apply Forall_cons in Hr as [Hy Hr].
    change (join ", " (x :: y :: r)) with (x +:+ String ","%char (String " "%char (join ", " (y :: r)))).
    rewrite split_comma_first by exact Hx.
    change (split_comma (String " "%char (join ", " (y :: r))) EmptyString)
      with (split_comma (join ", " (y :: r)) (String " "%char EmptyString)).
    rewrite IH by assumption. reflexivity.
Qed.

Lemma tidy_spec s :
  tidy s = true -> truthy_string s = true /\ trim s = s /\ has_comma s = false.
Proof.
  unfold tidy. intros H. apply andb_true_iff in H as [H Hc].
  apply andb_true_iff in H as [Ht He].
  split; [exact Ht|]. split; [apply String.eqb_eq, He|].
  destruct (has_comma s); [discriminate | reflexivity].
Qed.

(** Joining focus areas with a comma and a space, then splitting at
    commas, trimming and dropping the empty pieces gives them back. *)
Lemma focus_areas_round_trip (l : list string) :
  Forall (fun s => tidy s = true) l ->
  List.filter truthy_string (trim <$> split_comma (join ", " l) "") = l.
Proof.
  intros Hl. destruct l as [|x r]; [reflexivity|].
  apply Forall_cons in Hl as [Hx Hr].
  destruct (tidy_spec x Hx) as (Htx & Hex & Hcx).
  rewrite split_comma_join; [| exact Hcx |].
  2:{ eapply Forall_impl; [exact Hr|]. intros y Hy. apply (tidy_spec y Hy). }
  cbn [fmap list_fmap rev_string List.filter]. rewrite Hex, Htx. f_equal.
  clear -Hr. induction r as [|y r IH]; [reflexivity|].
  apply Forall_cons in Hr as [Hy Hr].
  destruct (tidy_spec y Hy) as (Hty & Hey & _).
  cbn [fmap list_fmap List.filter].
  change (trim (String " "%char y)) with (trim y).
  rewrite Hey, Hty. f_equal. apply IH, Hr.
Qed.

(** X13. What [loadIdealSelf] writes into the form, [saveIdealSelf] reads
    back: after a successful load of a vision that is trimmed and not
    empty and of focus areas that are trimmed, not empty and free of
    commas, the request the form builds carries this vision and these
    focus areas. *)
Theorem ideal_self_form_round_trip
    (st : App) (data : IdealSelf) (v : string) (l : list string) :
  is_Some (getElementById "idealVision" st) ->
  is_Some (getElementById "idealFocusAreas" st) ->
  respond host (length (requests st)) GetIdealSelf = Response true (JsonValue data) ->
  vision data = Some v -> focus_areas data = Some l ->
  truthy_string v = true -> trim v = v ->
  Forall (fun s => tidy s = true) l ->
  ideal_self_form_request (final_state (loadIdealSelf host st)) = PostIdealSelf v l.
Proof.
  intros [vf Hvf] [ff Hff] Hans Hv Hl Htv Hev Htidy.
  unfold loadIdealSelf, try_catch.
  unfold mbind, Async_bind, fetch, lift. cbv beta. rewrite Hans.
  unfold ok_json, require_ok, mbind, Async_bind, json, mret, Async_ret.
  cbn [fst snd]. cbv beta. rewrite Hv, Hl. cbv beta iota. rewrite Htv.
  cbv beta iota. cbn [final_state fst snd].
  change (default "" (Some v)) with v. change (default [] (Some l)) with l.
  set (st1 := set_requests (requests st ++ [GetIdealSelf]) st).
  set (st2 := renderIdealSelfSummary v l st1).
  assert (Hv2 : getElementById "idealVision" st2 = Some vf).
  { unfold st2. rewrite renderIdealSelfSummary_other by discriminate. exact Hvf. }
  assert (Hf2 : getElementById "idealFocusAreas" st2 = Some ff).
  { unfold st2. rewrite renderIdealSelfSummary_other by discriminate. exact Hff. }
  assert (E3 : set_field "idealVision" v st2 = putElement "idealVision" (set_value v vf) st2).
  { unfold set_field. rewrite Hv2. reflexivity. }
  rewrite E3. set (st3 := putElement "idealVision" (set_value v vf) st2).
  assert (Hf3 : getElementById "idealFocusAreas" st3 = Some ff).
  { unfold st3. rewrite getElementById_putElement_ne by discriminate. exact Hf2. }
  assert (E4 : set_field "idealFocusAreas" (join ", " l) st3 =
               putElement "idealFocusAreas" (set_value (join ", " l) ff) st3).
  { unfold set_field. rewrite Hf3. reflexivity. }
  rewrite E4. unfold ideal_self_form_request, field_value. cbv zeta.
  rewrite getElementById_putElement_eq.
  rewrite getElementById_putElement_ne by discriminate.
  unfold st3 at 1. rewrite getElementById_putElement_eq.
  change (value (set_value v vf)) with v.
  change (value (set_value (join ", " l) ff)) with (join ", " l).
  rewrite Hev, focus_areas_round_trip by exact Htidy. reflexivity.
Qed.

End IdealSelf.

(** ** Reading an identifier back from the selector *)

Ltac digit_step :=
  cbn [NilEmpty.string_of_uint parse_digits];
  lazymatch goal with
  | |- context [digit_of ?c] =>
      let v := eval vm_compute in (digit_of c) in change (digit_of c) with v
  end;
  cbv beta iota.

Lemma parse_digits_acc d acc :
  parse_digits (NilEmpty.string_of_uint d) (Some (Z.pos acc)) =
  Some (Z.pos (Pos.of_uint_acc d acc)).
Proof.
  revert acc. induction d as [|l IH|l IH|l IH|l IH|l IH|l IH|l IH|l IH|l IH|l IH];
    intros acc; [reflexivity | ..]; digit_step; cbn [default from_option Datatypes.id];
    cbn [Pos.of_uint_acc]; rewrite <- IH; f_equal; f_equal; lia.
Qed.

Lemma parse_digits_zero d :
  parse_digits (NilEmpty.string_of_uint d) (Some 0) = Some (Z.of_N (Pos.of_uint d)).
Proof.
  induction d as [|l IH|l IH|l IH|l IH|l IH|l IH|l IH|l IH|l IH|l IH];
    [reflexivity | digit_step; exact IH | ..];
    digit_step; cbn [default from_option Datatypes.id Pos.of_uint Z.of_N];
    rewrite <- parse_digits_acc; reflexivity.
Qed.

Lemma parse_digits_start d :
  d <> Decimal.Nil ->
  parse_digits (NilEmpty.string_of_uint d) None = Some (Z.of_N (Pos.of_uint d)).
Proof.
  intros Hd. destruct d as [|l|l|l|l|l|l|l|l|l|l]; [contradiction | ..];
    rewrite <- parse_digits_zero; digit_step; reflexivity.
Qed.

Lemma parse_digits_positive p :
  parse_digits (NilZero.string_of_uint (Pos.to_uint p)) None = Some (Z.pos p).
Proof.
  pose proof (Unsigned.to_uint_nonnil p) as Hn.
  replace (NilZero.string_of_uint (Pos.to_uint p))
    with (NilEmpty.string_of_uint (Pos.to_uint p))
    by (destruct (Pos.to_uint p); [contradiction | reflexivity ..]).
  rewrite parse_digits_start by exact Hn. rewrite Unsigned.of_to. reflexivity.
Qed.

Lemma skip_space_ascii c r :
  (nat_of_ascii c < 128)%nat -> is_space c = false -> skip_space (String c r) = None.
Proof.
  intros Hc Hs. unfold skip_space. rewrite Hs.
  assert (H2 : forall b, is_space2 c b = false).
  { intros b. unfold is_space2.
    replace (nat_of_ascii c =? 194)%nat with false by (symmetry; apply Nat.eqb_neq; lia).
    reflexivity. }
  assert (H3 : forall b d, is_space3 c b d = false).
  { intros b d. unfold is_space3. cbv zeta.
    replace (nat_of_ascii c =? 225)%nat with false by (symmetry; apply Nat.eqb_neq; lia).
    replace (nat_of_ascii c =? 226)%nat with false by (symmetry; apply Nat.eqb_neq; lia).
    replace (nat_of_ascii c =? 227)%nat with false by (symmetry; apply Nat.eqb_neq; lia).
    replace (nat_of_ascii c =? 239)%nat with false by (symmetry; apply Nat.eqb_neq; lia).
    reflexivity. }
  destruct r as [|b [|d r3]]; rewrite ?H2, ?H3; reflexivity.
Qed.

Lemma string_of_uint_digit d :
  d <> Decimal.Nil ->
  exists c r, NilZero.string_of_uint d = String c r /\
              (nat_of_ascii c < 128)%nat /\
              is_space c = false /\ c <> "-"%char /\ c <> "+"%char.
Proof.
  intros Hd. destruct d; [contradiction | ..]; cbn [NilZero.string_of_uint NilEmpty.string_of_uint];
    eexists _, _; (split; [reflexivity|]); (split; [apply Nat.ltb_lt; reflexivity|]);
    (split; [reflexivity|]); split; discriminate.
Qed.

(** [parseInt] reads back the decimal text of every integer. *)
Lemma parseInt_Z_to_string z : parseInt (Z_to_string z) = Some z.
Proof.
  unfold Z_to_string. destruct z as [|p|p]; [reflexivity | |].
  - cbn [Z.to_int NilZero.string_of_int].
    pose proof (parse_digits_positive p) as Hp.
    destruct (string_of_uint_digit (Pos.to_uint p) (Unsigned.to_uint_nonnil p))
      as (c & r & E & Hlt & Hs & Hm & Hpl).
    rewrite E in *. unfold parseInt.
    rewrite (trimStart_fixed _ (skip_space_ascii c r Hlt Hs)).
    destruct c as [[] [] [] [] [] [] [] []]; try exact Hp; contradiction.
  - cbn [Z.to_int NilZero.string_of_int]. unfold parseInt.
    rewrite (trimStart_fixed _ (skip_space_ascii "-" _ ltac:(apply Nat.ltb_lt; reflexivity) eq_refl)).
    cbv beta iota. rewrite parse_digits_positive. reflexivity.
Qed.

Section Selector.

Variable host : Host.

(** X14. Choosing, in the selector, the option that was rendered for an
    identifier that is a safe integer: the change handler reads the
    identifier back from the option's value, makes it the selected habit
    and loads its progress with one request for the current range - none
    for the identifier 0, which does not pass the guard of
    [loadHabitProgress]. *)
Theorem habitSelect_change_selects_option (z : Z) (st : App) :
  safe_integer z ->
  let st' := final_state (habitSelect_change host (Z_to_string z) st) in
  currentHabitId st' = Some z /\
  currentRange st' = currentRange st /\
  sent st st' = if z =? 0 then [] else [GetProgress z (currentRange st)].
Proof.
  intros _ st'. subst st'. unfold habitSelect_change. rewrite parseInt_Z_to_string.
  unfold mbind, Async_bind, lift. cbv beta.
  destruct (loadHabitProgress_trace host (set_currentHabitId (Some z) st))
    as (st1 & Hrun & Hcur & Hrange & Hreq).
  rewrite Hrun. cbn [final_state snd].
  autorewrite with fields in Hcur, Hrange.
  split; [exact Hcur|]. split; [exact Hrange|].
  apply sent_app. rewrite Hreq. unfold progress_call. autorewrite with fields.
  cbn [truthy_id]. destruct (z =? 0); reflexivity.
Qed.

End Selector.

(** ** What no entry point takes away *)

Lemma grows_refl st : grows st st.
Proof.
  repeat split; try (exists []; rewrite app_nil_r; reflexivity). intros i H; exact H.
Qed.

Lemma grows_trans a b c : grows a b -> grows b c -> grows a c.
Proof.
  intros ([r1 H1] & [l1 L1] & [t1 T1] & P1) ([r2 H2] & [l2 L2] & [t2 T2] & P2).
  split; [exists (r1 ++ r2); rewrite H2, H1, app_assoc; reflexivity|].
  split; [exists (l1 ++ l2); rewrite L2, L1, app_assoc; reflexivity|].
  split; [exists (t1 ++ t2); rewrite T2, T1, app_assoc; reflexivity|].
  intros i H. apply P2, P1, H.
Qed.

Lemma grows_putElement i e st :
  (i = "toastContainer" ->
   exists c more, getElementById i st = Some c /\ children e = children c ++ more) ->
  grows st (putElement i e st).
Proof.
  intros Hi.
  split; [exists []; rewrite app_nil_r; reflexivity|].
  split; [exists []; rewrite app_nil_r; reflexivity|].
  split.
  - unfold toasts. destruct (decide (i = "toastContainer")) as [E | Hne].
    + destruct (Hi E) as (c & more & Hc & Hch). subst i.
      rewrite getElementById_putElement_eq, Hc. exists more. exact Hch.
    + rewrite getElementById_putElement_ne by congruence.
      exists []. rewrite app_nil_r. reflexivity.
  - intros j Hj. destruct (decide (j = i)) as [-> | Hne].
    + rewrite getElementById_putElement_eq. eexists. reflexivity.
    + rewrite getElementById_putElement_ne by congruence. exact Hj.
Qed.

Lemma grows_putElement_other i e st :
  i <> "toastContainer" -> grows st (putElement i e st).
Proof. intros Hne. apply grows_putElement. intros E. contradiction. Qed.

Lemma grows_same_page st st' :
  document st' = document st -> requests st' = requests st -> console st' = console st ->
  grows st st'.
Proof.
  intros Hd Hr Hc.
  split; [exists []; rewrite app_nil_r; exact Hr|].
  split; [exists []; rewrite app_nil_r; exact Hc|].
  split; [exists []; rewrite app_nil_r; unfold toasts, getElementById; rewrite Hd; reflexivity|].
  intros i. unfold getElementById. rewrite Hd. trivial.
Qed.

Lemma gentle_compose f g : gentle f -> gentle g -> gentle (fun st => g (f st)).
Proof. intros Hf Hg st. eapply grows_trans; [apply Hf | apply Hg]. Qed.

Lemma gentle_updateChartVisibility state message :
  gentle (updateChartVisibility state message).
Proof.
  intros st.
  destruct (getElementById "habitChart" st) as [canvas|] eqn:Hc;
    [| rewrite updateChartVisibility_absent by (left; exact Hc); apply grows_refl].
  destruct (getElementById "chartEmptyState" st) as [placeholder|] eqn:Hp;
    [| rewrite updateChartVisibility_absent by (right; exact Hp); apply grows_refl].
  split; [exists []; rewrite app_nil_r; apply updateChartVisibility_requests|].
  split; [exists []; rewrite app_nil_r; apply updateChartVisibility_console|].
  split; [exists []; rewrite app_nil_r; apply updateChartVisibility_toasts|].
  intros i Hi.
  destruct (updateChartVisibility_present state message st) as [H1 H2];
    [eexists; exact Hc | eexists; exact Hp |].
  destruct (decide (i = "habitChart")) as [-> | N1]; [exact H1|].
  destruct (decide (i = "chartEmptyState")) as [-> | N2]; [exact H2|].
  rewrite updateChartVisibility_other by assumption. exact Hi.
Qed.

Lemma gentle_showToast message tone : gentle (showToast message tone).
Proof.
  intros st. destruct (getElementById "toastContainer" st) as [container|] eqn:Hc.
  - destruct (showToast_unfold message tone st container Hc) as (toast & -> & _).
    apply grows_putElement. intros _. exists container, [toast]. split; [exact Hc | reflexivity].
  - rewrite showToast_absent by exact Hc. apply grows_refl.
Qed.

Lemma gentle_set_field i v : gentle (set_field i v).
Proof.
  intros st. unfold set_field. destruct (getElementById i st) as [e|] eqn:He;
    [| apply grows_refl].
  apply grows_putElement. intros _. exists e, []. split; [exact He|].
  rewrite app_nil_r. reflexivity.
Qed.

Lemma gentle_reset_field i : gentle (reset_field i).
Proof.
  intros st. unfold reset_field. destruct (getElementById i st) as [e|] eqn:He;
    [| apply grows_refl].
  apply grows_putElement. intros _. exists e, []. split; [exact He|].
  rewrite app_nil_r. reflexivity.
Qed.

Lemma gentle_habitForm_reset : gentle habitForm_reset.
Proof.
  intros st. unfold habitForm_reset. destruct (getElementById "habitForm" st);
    [| apply grows_refl].
  eapply grows_trans; [apply gentle_reset_field|].
  eapply grows_trans; apply gentle_reset_field.
Qed.

Lemma gentle_setupRangeButtons : gentle setupRangeButtons.
Proof.
  intros st. unfold setupRangeButtons.
  destruct (getElementById "rangeButtons" st); [| apply grows_refl].
  apply grows_putElement_other. discriminate.
Qed.

Lemma gentle_updateHabitSelectOptions habits : gentle (updateHabitSelectOptions habits).
Proof.
  intros st. destruct (getElementById "habitSelect" st) as [select|] eqn:Hs.
  - destruct (updateHabitSelectOptions_shape habits st select Hs) as (sel' & c & ->).
    eapply grows_trans; [| apply grows_putElement_other; discriminate].
    apply grows_same_page; reflexivity.
  - rewrite updateHabitSelectOptions_absent by exact Hs. apply grows_refl.
Qed.

Lemma gentle_renderIdealSelfSummary vision focusAreas :
  gentle (renderIdealSelfSummary vision focusAreas).
Proof.
  intros st. unfold renderIdealSelfSummary.
  destruct (getElementById "idealSelfSummary" st) as [summary|]; [| apply grows_refl].
  cbv zeta.
  match goal with |- context [putElement "idealSelfSummary" ?e st] =>
    set (st1 := putElement "idealSelfSummary" e st) end.
  apply (grows_trans st st1); [apply grows_putElement_other; discriminate|].
  match goal with |- context [match getElementById "idealFocusCopy" ?s with _ => _ end] =>
    set (st2 := s) end.
  assert (H12 : grows st1 st2).
  { subst st2. destruct (getElementById "idealVisionCopy" st1); [| apply grows_refl].
    apply grows_putElement_other. discriminate. }
  eapply grows_trans; [exact H12|].
  destruct (getElementById "idealFocusCopy" st2); [| apply grows_refl].
  apply grows_putElement_other. discriminate.
Qed.

(** *** Asynchronous functions *)

Lemma growing_ret {A} (a : A) : growing (mret a).
Proof. intros st. apply grows_refl. Qed.

Lemma growing_throw {A} e : growing (@throw A e).
Proof. intros st. apply grows_refl. Qed.

Lemma growing_gets {A} (f : App -> A) : growing (gets f).
Proof. intros st. apply grows_refl. Qed.

Lemma growing_lift f : gentle f -> growing (lift f).
Proof. intros Hf st. apply Hf. Qed.

Lemma growing_console_error e : growing (console_error e).
Proof.
  intros st. unfold console_error, lift. cbn [final_state snd].
  split; [exists []; rewrite app_nil_r; reflexivity|].
  split; [eexists; reflexivity|].
  split; [exists []; rewrite app_nil_r; reflexivity|]. intros i H; exact H.
Qed.

Lemma growing_bind {A B} (m : Async A) (k : A -> Async B) :
  growing m -> (forall a, growing (k a)) -> growing (m ≫= k).
Proof.
  intros Hm Hk st. unfold mbind, Async_bind. specialize (Hm st).
  destruct (m st) as [[a|e] st1]; cbn [final_state snd] in *; [| exact Hm].
  eapply grows_trans; [exact Hm | apply Hk].
Qed.

Lemma growing_try_catch {A} (body : Async A) (handler : string -> Async A) :
  growing body -> (forall e, growing (handler e)) -> growing (try_catch body handler).
Proof.
  intros Hb Hh st. unfold try_catch. specialize (Hb st).
  destruct (body st) as [[a|e] st1]; cbn [final_state snd] in *; [exact Hb|].
  eapply grows_trans; [exact Hb | apply Hh].
Qed.

Section Growth.

Variable host : Host.

Lemma growing_fetch r : growing (fetch host r).
Proof.
  intros st. unfold fetch.
  assert (H : grows st (set_requests (requests st ++ [r]) st)).
  { split; [eexists; reflexivity|].
    split; [exists []; rewrite app_nil_r; reflexivity|].
    split; [exists []; rewrite app_nil_r; reflexivity|]. intros i Hi; exact Hi. }
  destruct (respond host (length (requests st)) r); exact H.
Qed.

Lemma growing_newChart cfg : growing (newChart host cfg).
Proof.
  intros st. unfold newChart. destruct (chartConstructs host cfg); [| apply grows_refl].
  apply grows_same_page; reflexivity.
Qed.

Lemma gentle_renderHabits habits : gentle (renderHabits host habits).
Proof.
  intros st. unfold renderHabits.
  destruct (getElementById "habitList" st) as [ul|]; [| apply grows_refl].
  destruct habits as [|h rest]; cbv zeta.
  - match goal with |- grows _ (updateChartVisibility _ _ ?m) =>
      apply (grows_trans st m) end;
      [apply grows_putElement_other; discriminate | apply gentle_updateChartVisibility].
  - apply grows_putElement_other. discriminate.
Qed.

Ltac growing_step :=
  lazymatch goal with
  | |- growing (try_catch _ _) => apply growing_try_catch; [| intros ?]
  | |- growing (mbind _ _) => apply growing_bind; [| intros ?]
  | |- growing (fetch _ ?r) => exact (growing_fetch r)
  | |- growing (newChart _ _) => apply growing_newChart
  | |- growing (console_error _) => apply growing_console_error
  | |- growing (gets _) => apply growing_gets
  | |- growing (mret _) => apply growing_ret
  | |- growing (throw _) => apply growing_throw
  | |- growing (lift _) => apply growing_lift
  | |- growing (require_ok _ _) => unfold require_ok
  | |- growing (ok_json _ _) => unfold ok_json
  | |- growing (json _) => unfold json
  | |- growing (if ?b then _ else _) => destruct b
  | |- growing (match ?x with _ => _ end) => destruct x
  | |- gentle (updateChartVisibility _ _) => apply gentle_updateChartVisibility
  | |- gentle (showToast _ _) => apply gentle_showToast
  | |- gentle (set_field _ _) => apply gentle_set_field
  | |- gentle habitForm_reset => apply gentle_habitForm_reset
  | |- gentle setupRangeButtons => apply gentle_setupRangeButtons
  | |- gentle (updateHabitSelectOptions _) => apply gentle_updateHabitSelectOptions
  | |- gentle (renderIdealSelfSummary _ _) => apply gentle_renderIdealSelfSummary
  | |- gentle (renderHabits _ _) => apply gentle_renderHabits
  end.

Ltac growing_tac := repeat growing_step.

Lemma growing_loadHabitProgress : growing (loadHabitProgress host).
Proof.
  intros st. unfold loadHabitProgress.
  destruct (currentHabitId st) as [i|]; [| apply grows_refl].
  destruct (negb (truthy_id (Some i))); [apply grows_refl|].
  apply growing_bind; [growing_tac | intros _].
  growing_tac.
  all: intros st0; apply grows_same_page; reflexivity.
Qed.

Lemma growing_ensureDemoSeed : growing (ensureDemoSeed host).
Proof. unfold ensureDemoSeed. growing_tac. Qed.

Lemma growing_loadHabits : growing (loadHabits host).
Proof. unfold loadHabits. growing_tac; try apply growing_ensureDemoSeed;
  try apply growing_loadHabitProgress. Qed.

Lemma growing_loadIdealSelf : growing (loadIdealSelf host).
Proof. unfold loadIdealSelf. growing_tac. Qed.

Lemma growing_saveIdealSelf : growing (saveIdealSelf host).
Proof. intros st. unfold saveIdealSelf. cbv zeta. apply growing_try_catch; [| intros ?]; growing_tac. Qed.

Lemma growing_loadJournalEntries : growing (loadJournalEntries host).
Proof.
  unfold loadJournalEntries. growing_tac.
  intros st0. destruct (getElementById "journalEntries" st0); [| apply grows_refl].
  match goal with |- context [match ?x with [] => _ | _ :: _ => _ end] => destruct x end;
    apply grows_putElement_other; discriminate.
Qed.

Lemma growing_addJournalEntry : growing (addJournalEntry host).
Proof.
  intros st. unfold addJournalEntry. cbv zeta.
  destruct (negb (truthy_string _)); [apply grows_refl|].
  apply growing_try_catch; [| intros ?]; growing_tac.
  apply growing_loadJournalEntries.
Qed.

Lemma growing_addHabit : growing (addHabit host).
Proof.
  intros st. unfold addHabit. cbv zeta.
  destruct (negb (truthy_string _)); [apply grows_refl|].
  apply growing_try_catch; [| intros ?]; growing_tac;
    try apply growing_loadHabits; try apply growing_loadHabitProgress.
  intros st0. destruct (truthy_id (created_id _)); [| apply grows_refl].
  apply grows_same_page; reflexivity.
Qed.

Lemma growing_toggleHabitCompletion h : growing (toggleHabitCompletion host h).
Proof.
  unfold toggleHabitCompletion. growing_tac;
    try apply growing_loadHabits; try apply growing_loadHabitProgress.
Qed.

Lemma growing_click h : growing (click host h).
Proof.
  destruct h; cbn [click]; [apply growing_toggleHabitCompletion | |];
    growing_tac; try apply growing_loadHabitProgress;
    intros st0; apply grows_same_page; reflexivity.
Qed.

Lemma growing_habitSelect_change v : growing (habitSelect_change host v).
Proof.
  unfold habitSelect_change. growing_tac; try apply growing_loadHabitProgress.
  intros st0; apply grows_same_page; reflexivity.
Qed.

Lemma growing_demoSeedBtn_click : growing (demoSeedBtn_click host).
Proof.
  unfold demoSeedBtn_click. growing_tac;
    try apply growing_loadHabits; try apply growing_loadJournalEntries.
Qed.

Lemma growing_onDOMContentLoaded : growing (onDOMContentLoaded host).
Proof.
  unfold onDOMContentLoaded. growing_tac;
    try apply growing_loadHabits; try apply growing_loadJournalEntries;
    try apply growing_loadIdealSelf.
Qed.

(** X15. Whatever the page asks of the script and whatever the server
    answers, the handlers take nothing away: the requests already sent
    and the lines already on the console stay, the toasts stay in place
    before any new one (only the timers, which are not part of a
    handler, remove a toast), and every element the script could look up
    by its identifier can still be looked up. *)
Theorem handle_only_adds (e : Event) (st : App) :
  grows st (final_state (handle host e st)).
Proof.
  destruct e as [op|h|v| |]; cbn [handle].
  - destruct op; cbn [run].
    + apply growing_loadIdealSelf.
    + apply growing_saveIdealSelf.
    + apply growing_loadJournalEntries.
    + apply growing_addJournalEntry.
    + apply growing_loadHabits.
    + apply growing_addHabit.
    + apply growing_toggleHabitCompletion.
    + apply growing_loadHabitProgress.
  - apply growing_click.
  - apply growing_habitSelect_change.
  - apply growing_demoSeedBtn_click.
  - apply growing_onDOMContentLoaded.
Qed.

Lemma bind_normal {A B} (m : Async A) (k : A -> Async B) st a st1 :
  m st = (Normal a, st1) -> (m ≫= k) st = k a st1.
Proof. intros H. unfold mbind, Async_bind. rewrite H. reflexivity. Qed.

Lemma try_catch_bind_normal {A B} (m : Async A) (k : A -> Async B) h st a st1 :
  m st = (Normal a, st1) -> try_catch (m ≫= k) h st = try_catch (k a) h st1.
Proof. intros H. unfold try_catch, mbind, Async_bind. rewrite H. reflexivity. Qed.

Lemma ensureDemoSeed_sends st :
  exists b rest,
    ensureDemoSeed host st = (Normal b, set_requests (requests st ++ GetHabits :: rest) st).
Proof.
  unfold ensureDemoSeed.
  unfold mbind, Async_bind, try_catch, fetch. cbv beta.
  destruct (respond host (length (requests st)) GetHabits) as [|ok body].
  { exists false, []. reflexivity. }
  cbn [fst snd]. destruct ok; cbn [negb].
  2:{ exists false, []. reflexivity. }
  unfold json. destruct body as [|habits].
  { exists false, []. reflexivity. }
  unfold mret, Async_ret. cbv beta. destruct habits as [|h rest].
  2:{ exists true, []. reflexivity. }
  autorewrite with fields.
  destruct (respond host (length (requests st ++ [GetHabits])) PostDemoReset)
    as [|ok2 body2]; exists true, [PostDemoReset]; cbn [fst snd];
    autorewrite with fields; rewrite <- ?app_assoc; reflexivity.
Qed.

(** [loadHabits] begins with the request for the collection. *)
Lemma loadHabits_sends st :
  exists rest more,
    requests (final_state (loadHabits host st)) = requests st ++ GetHabits :: rest /\
    toasts (final_state (loadHabits host st)) = toasts st ++ more /\
    forall i, is_Some (getElementById i st) ->
              is_Some (getElementById i (final_state (loadHabits host st))).
Proof.
  destruct (ensureDemoSeed_sends st) as (b & rest & Hseed).
  unfold loadHabits. rewrite (try_catch_bind_normal _ _ _ _ _ _ Hseed).
  match goal with |- context [final_state (try_catch ?body ?h ?s)] =>
    assert (Hg : growing (try_catch body h)) end.
  { growing_tac; apply growing_loadHabitProgress. }
  match goal with |- context [final_state (try_catch ?body ?h ?s)] =>
    destruct (Hg s) as ([r2 Hr] & _ & [more Ht] & Hp);
    set (F := final_state (try_catch body h s)) in * end.
  exists (rest ++ r2), more. split; [| split].
  - rewrite Hr. autorewrite with fields. rewrite <- app_assoc. reflexivity.
  - rewrite Ht. reflexivity.
  - intros i Hi. apply Hp. exact Hi.
Qed.

(** The toasts and the requests of a click on the demo button. *)
Lemma demoSeedBtn_click_toasts (st : App) :
  is_Some (getElementById "toastContainer" st) ->
  let st' := final_state (demoSeedBtn_click host st) in
  exists toast more rest,
    toasts st' = toasts st ++ toast :: more /\
    sent st st' = PostDemoReset :: rest /\
    match respond host (length (requests st)) PostDemoReset with
    | NetworkError =>
        textContent toast = "Could not load demo data" /\
        "error" ∈ classList toast /\ more = [] /\ rest = []
    | Response _ _ =>
        textContent toast = "Demo data loaded" /\
        "success" ∈ classList toast /\
        exists mid, rest = GetHabits :: mid ++ [GetJournal]
    end.
Proof.
  intros Hc st'. subst st'.
  pose (st1 := set_requests (requests st ++ [PostDemoReset]) st).
  assert (Hc1 : is_Some (getElementById "toastContainer" st1)) by exact Hc.
  destruct (respond host (length (requests st)) PostDemoReset) as [|ok body] eqn:Hans.
  - pose (st2 := set_console (console st1 ++ ["TypeError: Failed to fetch"]) st1).
    assert (Hrun : demoSeedBtn_click host st =
              (Normal tt, showToast "Could not load demo data" "error" st2)).
    { unfold demoSeedBtn_click, try_catch.
      unfold mbind at 1 2 3. unfold Async_bind at 1 2 3. unfold fetch. rewrite Hans.
      reflexivity. }
    rewrite Hrun. cbn [final_state snd].
    destruct (showToast_toasts "Could not load demo data" "error" st2 Hc1)
      as (toast & Ht & Htext & Hcls).
    exists toast, [], []. split; [exact Ht|]. split.
    { apply sent_app. rewrite showToast_requests. reflexivity. }
    split; [exact Htext|]. split; [apply Hcls; discriminate|]. split; reflexivity.
  - destruct (showToast_toasts "Demo data loaded" "success" st1 Hc1)
      as (toast & Ht & Htext & Hcls).
    set (st2 := showToast "Demo data loaded" "success" st1) in *.
    destruct (loadHabits_sends st2) as (mid & more1 & Hreq3 & Hts3 & _).
    pose proof (total_loadHabits host st2) as Htot.
    destruct (loadHabits host st2) as [[[]|e] st3] eqn:Hrun3; [| discriminate].
    cbn [final_state snd] in Hreq3, Hts3.
    destruct (loadJournalEntries_frame host st3) as (st4 & more2 & Hrun4 & Hreq4 & Hts4 & _).
    assert (Hrun : demoSeedBtn_click host st = (Normal tt, st4)).
    { unfold demoSeedBtn_click, try_catch.
      unfold mbind at 1 2 3. unfold Async_bind at 1 2 3. unfold fetch, lift. cbv beta.
      rewrite Hans. cbn [fst snd]. fold st1. fold st2. rewrite Hrun3, Hrun4. reflexivity. }
    rewrite Hrun. cbn [final_state snd].
    exists toast, (more1 ++ more2), (GetHabits :: mid ++ [GetJournal]).
    split.
    { rewrite Hts4, Hts3, Ht. rewrite <- !app_assoc. reflexivity. }
    split.
    { apply sent_app. rewrite Hreq4, Hreq3. unfold st2. rewrite showToast_requests.
      change (requests st1) with (requests st ++ [PostDemoReset]).
      rewrite <- !app_assoc. reflexivity. }
    split; [exact Htext|]. split; [apply Hcls; discriminate|]. eexists. reflexivity.
Qed.

(** X16. The demo button never looks at the status of the answer: once
    the request for the demo data was answered at all - also with a
    failure status - the toast says that the demo data is loaded, and the
    habits and then the journal are loaded again. Only a request that is
    rejected leads to the toast of a failure, and then nothing is loaded. *)
Theorem demoSeedBtn_click_ignores_status (st : App) :
  is_Some (getElementById "toastContainer" st) ->
  let st' := final_state (demoSeedBtn_click host st) in
  exists toast more rest,
    toasts st' = toasts st ++ toast :: more /\
    sent st st' = PostDemoReset :: rest /\
    match respond host (length (requests st)) PostDemoReset with
    | NetworkError =>
        textContent toast = "Could not load demo data" /\
        "error" ∈ classList toast /\ more = [] /\ rest = []
    | Response _ _ =>
        textContent toast = "Demo data loaded" /\
        "success" ∈ classList toast /\
        exists mid, rest = GetHabits :: mid ++ [GetJournal]
    end.
Proof. exact (demoSeedBtn_click_toasts st). Qed.

(** X17. [toggleHabitCompletion] first asks the server to store the
    opposite of the completion the habit was rendered with. When that
    request fails nothing is loaded again: apart from the toast and the
    console the page, the selected habit and the chart stay as they
    were, so the list keeps showing the old completion. When it succeeds
    the collection is requested again. *)
Theorem toggleHabitCompletion_flips (h : Habit) (st : App) :
  let put := PutHabit (id h) (negb (completed h)) in
  let st' := final_state (toggleHabitCompletion host h st) in
  exists rest,
    sent st st' = put :: rest /\
    if request_failed put (respond host (length (requests st)) put)
    then rest = [] /\
         currentHabitId st' = currentHabitId st /\
         habitChart st' = habitChart st /\
         chartStore st' = chartStore st /\
         forall i, i <> "toastContainer" -> getElementById i st' = getElementById i st
    else exists mid, rest = GetHabits :: mid.
Proof.
  cbv zeta.
  destruct (request_failed (PutHabit (id h) (negb (completed h)))
              (respond host (length (requests st)) (PutHabit (id h) (negb (completed h)))))
    eqn:Hf.
  - unfold toggleHabitCompletion, try_catch.
    edestruct (fetch_require_ok_fails host (B := unit) (PutHabit (id h) (negb (completed h))))
      as [e He]; [reflexivity | exact Hf |].
    rewrite He. unfold mbind, Async_bind, console_error, lift. cbv beta.
    cbn [final_state snd]. exists [].
    split; [apply sent_app; rewrite showToast_requests; reflexivity|].
    split; [reflexivity|].
    split; [rewrite showToast_currentHabitId; reflexivity|].
    split; [rewrite showToast_habitChart; reflexivity|].
    split; [rewrite showToast_chartStore; reflexivity|].
    intros i Hi. rewrite showToast_other by exact Hi. reflexivity.
  - destruct (respond host (length (requests st)) (PutHabit (id h) (negb (completed h))))
      as [|ok body] eqn:Hans; [discriminate|].
    destruct ok; [| discriminate].
    pose (st1 := set_requests (requests st ++ [PutHabit (id h) (negb (completed h))]) st).
    destruct (loadHabits_sends st1) as (mid & more & Hreq2 & _).
    pose proof (total_loadHabits host st1) as Htot.
    destruct (loadHabits host st1) as [[[]|e] st2] eqn:Hrun2; [| discriminate].
    cbn [final_state snd] in Hreq2.
    pose (k := (cur ← gets currentHabitId;
                if bool_decide (cur = Some (id h)) then loadHabitProgress host else mret tt)
               : Async unit).
    assert (Hk : growing k).
    { unfold k. growing_tac. apply growing_loadHabitProgress. }
    destruct (Hk st2) as ([r3 Hreq3] & _).
    pose proof (total_bind _ _ (total_gets currentHabitId)
                  (fun cur => total_if (bool_decide (cur = Some (id h))) _ _
                                (total_loadHabitProgress host) (total_ret tt)) st2) as Htk.
    fold k in Htk.
    destruct (k st2) as [[[]|e] st3] eqn:Hrun3; [| discriminate].
    cbn [final_state snd] in Hreq3.
    assert (Hrun : toggleHabitCompletion host h st = (Normal tt, st3)).
    { assert (Hfetch : fetch host (PutHabit (id h) (negb (completed h))) st =
                         (Normal (true, body), st1)).
      { unfold fetch. rewrite Hans. reflexivity. }
      unfold toggleHabitCompletion, try_catch.
      rewrite (bind_normal _ _ _ _ _ Hfetch).
      rewrite (bind_normal (require_ok _ _) _ st1 tt st1) by reflexivity.
      rewrite (bind_normal _ _ _ _ _ Hrun2).
      fold k. rewrite Hrun3. reflexivity. }
    rewrite Hrun. cbn [final_state snd]. exists (GetHabits :: mid ++ r3).
    split; [| eexists; reflexivity].
    apply sent_app. rewrite Hreq3, Hreq2.
    change (requests st1) with (requests st ++ [PutHabit (id h) (negb (completed h))]).
    rewrite <- !app_assoc. reflexivity.
Qed.

Lemma updateHabitSelectOptions_nil st select :
  getElementById "habitSelect" st = Some select ->
  updateHabitSelectOptions [] st =
  putElement "habitSelect"
    (set_disabled true (appendChild no_habits_option (set_innerHTML "" select)))
    (set_currentHabitId None st).
Proof. intros H. unfold updateHabitSelectOptions. rewrite H. reflexivity. Qed.

Lemma setupRangeButtons_other i st :
  i <> "rangeButtons" -> getElementById i (setupRangeButtons st) = getElementById i st.
Proof.
  intros Hi. unfold setupRangeButtons.
  destruct (getElementById "rangeButtons" st); [| reflexivity].
  apply getElementById_putElement_ne. congruence.
Qed.

Lemma renderHabits_other habits i st :
  i <> "habitList" -> i <> "habitChart" -> i <> "chartEmptyState" ->
  getElementById i (renderHabits host habits st) = getElementById i st.
Proof.
  intros H1 H2 H3. unfold renderHabits.
  destruct (getElementById "habitList" st) as [ul|]; [| reflexivity].
  destruct habits as [|h rest]; cbv zeta.
  - rewrite updateChartVisibility_other by assumption.
    apply getElementById_putElement_ne. congruence.
  - apply getElementById_putElement_ne. congruence.
Qed.

(** X18. When the server answers [loadHabits] with an empty collection,
    on a page with the chart area and the selector: no habit is selected
    afterwards, whatever was selected before; the chart area is in the
    empty state with the default message and without a chart; the
    selector is disabled and holds the one option that says so; no
    progress is requested and no toast is shown. *)
Theorem loadHabits_without_habits (st : App) :
  is_Some (getElementById "habitChart" st) ->
  is_Some (getElementById "chartEmptyState" st) ->
  is_Some (getElementById "habitSelect" st) ->
  habits_answer host st = Response true (JsonValue []) ->
  let st' := final_state (loadHabits host st) in
  currentHabitId st' = None /\
  habitChart st' = None /\
  visibility_state st' = Some "empty" /\
  placeholder_text st' = Some DEFAULT_CHART_MESSAGE /\
  progress_calls st st' = [] /\
  toasts st' = toasts st /\
  exists sel,
    getElementById "habitSelect" st' = Some sel /\
    disabled sel = true /\
    textContent <$> children sel = ["No habits yet"].
Proof.
  intros Hc Hp Hs Hans st'. subst st'.
  destruct (ensureDemoSeed_sends st) as (b & rest & Hseed).
  unfold habits_answer in Hans. rewrite Hseed in Hans. cbn [final_state snd] in Hans.
  set (stS := set_requests (requests st ++ GetHabits :: rest) st) in *.
  pose (st1 := set_requests (requests stS ++ [GetHabits]) stS).
  assert (Hfetch : fetch host GetHabits stS = (Normal (true, JsonValue []), st1)).
  { unfold fetch. rewrite Hans. reflexivity. }
  pose (st2 := renderHabits host [] st1).
  assert (G2 : grows st st2).
  { apply (grows_trans st st1); [| apply gentle_renderHabits].
    split; [eexists; unfold st1, stS; autorewrite with fields;
            rewrite <- app_assoc; reflexivity|].
    split; [exists []; rewrite app_nil_r; reflexivity|].
    split; [exists []; rewrite app_nil_r; reflexivity|]. intros i Hi; exact Hi. }
  destruct G2 as (_ & _ & [t2 Ht2] & P2).
  destruct (P2 _ Hs) as [select Hsel].
  pose (st3 := updateHabitSelectOptions [] st2).
  assert (E3 : st3 = putElement "habitSelect"
                 (set_disabled true (appendChild no_habits_option (set_innerHTML "" select)))
                 (set_currentHabitId None st2))
    by (apply updateHabitSelectOptions_nil, Hsel).
  pose (st4 := setupRangeButtons st3).
  assert (Hcur4 : currentHabitId st4 = None).
  { unfold st4. rewrite setupRangeButtons_currentHabitId, E3. reflexivity. }
  assert (Hrun : loadHabits host st =
            (Normal tt, updateChartVisibility empty (Some DEFAULT_CHART_MESSAGE) st4)).
  { unfold loadHabits. rewrite (try_catch_bind_normal _ _ _ _ _ _ Hseed).
    rewrite (try_catch_bind_normal _ _ _ _ _ _ Hfetch).
    rewrite (try_catch_bind_normal (ok_json _ _) _ _ st1 [] st1) by reflexivity.
    rewrite (try_catch_bind_normal (lift _) _ _ st1 tt st2) by reflexivity.
    rewrite (try_catch_bind_normal (lift _) _ _ st2 tt st3) by reflexivity.
    rewrite (try_catch_bind_normal (lift _) _ _ st3 tt st4) by reflexivity.
    rewrite (try_catch_bind_normal (gets _) _ _ st4 (currentHabitId st4) st4) by reflexivity.
    rewrite Hcur4. reflexivity. }
  rewrite Hrun. cbn [final_state snd].
  assert (Hc4 : is_Some (getElementById "habitChart" st4)).
  { unfold st4. rewrite setupRangeButtons_other by discriminate.
    rewrite E3, getElementById_putElement_ne by discriminate. apply P2, Hc. }
  assert (Hp4 : is_Some (getElementById "chartEmptyState" st4)).
  { unfold st4. rewrite setupRangeButtons_other by discriminate.
    rewrite E3, getElementById_putElement_ne by discriminate. apply P2, Hp. }
  assert (Hreq4 : requests st4 = requests st ++ (GetHabits :: rest) ++ [GetHabits]).
  { unfold st4. destruct (quiet_setupRangeButtons st3) as [-> _]. rewrite E3.
    change (requests (putElement _ _ (set_currentHabitId None st2))) with (requests st2).
    unfold st2. destruct (quiet_renderHabits host [] st1) as [-> _].
    unfold st1, stS. autorewrite with fields. rewrite <- app_assoc. reflexivity. }
  split; [rewrite updateChartVisibility_currentHabitId; exact Hcur4|].
  split; [rewrite updateChartVisibility_habitChart by assumption; reflexivity|].
  split; [apply updateChartVisibility_state; assumption|].
  split; [rewrite updateChartVisibility_text by assumption; reflexivity|].
  split.
  { unfold progress_calls. rewrite updateChartVisibility_requests, Hreq4, drop_app_length.
    cbn [List.filter is_progress app]. rewrite List.filter_app.
    destruct (ensureDemoSeed_trace host st) as (b' & reqs & Hseed' & Hnp).
    rewrite Hseed in Hseed'. injection Hseed' as _ Hst.
    apply app_inv_head in Hst. subst reqs. unfold no_progress in Hnp.
    cbn [List.filter is_progress] in Hnp. rewrite Hnp. reflexivity. }
  split.
  { rewrite updateChartVisibility_toasts. unfold toasts, st4.
    rewrite setupRangeButtons_other by discriminate.
    rewrite E3, getElementById_putElement_ne by discriminate.
    change (getElementById "toastContainer" (set_currentHabitId None st2))
      with (getElementById "toastContainer" st2).
    unfold st2. rewrite renderHabits_other by discriminate. reflexivity. }
  eexists. split.
  { rewrite updateChartVisibility_other by discriminate. unfold st4.
    rewrite setupRangeButtons_other by discriminate.
    rewrite E3. apply getElementById_putElement_eq. }
  split; reflexivity.
Qed.

End Growth.

(** ** The fill of the actual line *)

Lemma hex_digit_hex_char k : 0 <= k < 16 -> hex_digit (hex_char k) = Some k.
Proof.
  intros Hk.
  assert (H : k = 0 \/ k = 1 \/ k = 2 \/ k = 3 \/ k = 4 \/ k = 5 \/ k = 6 \/ k = 7 \/
              k = 8 \/ k = 9 \/ k = 10 \/ k = 11 \/ k = 12 \/ k = 13 \/ k = 14 \/ k = 15)
    by lia.
  repeat (destruct H as [-> | H]; [reflexivity|]). subst k. reflexivity.
Qed.

Lemma high_digit z : 0 <= z <= 255 -> 0 <= z / 16 < 16.
Proof.
  intros Hz. split; [apply Z.div_pos; lia | apply Z.div_lt_upper_bound; lia].
Qed.

Lemma hex_pair_hex_byte z a b :
  0 <= z <= 255 -> hex_byte z = String a (String b EmptyString) -> hex_pair a b = Some z.
Proof.
  intros Hz E. injection E as <- <-. unfold hex_pair.
  rewrite (hex_digit_hex_char (z / 16)) by (apply high_digit, Hz).
  rewrite (hex_digit_hex_char (z mod 16)) by (apply Z.mod_pos_bound; lia).
  cbn [mbind option_bind]. f_equal. pose proof (Z.div_mod z 16). lia.
Qed.

Lemma hex_groups_hex_colour r g b :
  0 <= r <= 255 -> 0 <= g <= 255 -> 0 <= b <= 255 ->
  hex_groups (hex_colour r g b) = Some (r, g, b) /\
  hex_groups (String "#" (hex_colour r g b)) = Some (r, g, b).
Proof.
  intros Hr Hg Hb.
  assert (Hbody : hex_groups (String "#" (hex_colour r g b)) = Some (r, g, b)).
  { unfold hex_groups, hex_colour, hex_byte. cbv beta iota zeta delta [String.append].
    rewrite (hex_pair_hex_byte r _ _ Hr eq_refl), (hex_pair_hex_byte g _ _ Hg eq_refl),
      (hex_pair_hex_byte b _ _ Hb eq_refl).
    reflexivity. }
  split; [| exact Hbody].
  rewrite <- Hbody. unfold hex_groups, hex_colour, hex_byte.
  cbv beta iota zeta delta [String.append].
  destruct (hex_char (r / 16)) as [[] [] [] [] [] [] [] []]; reflexivity.
Qed.

Lemma hex_groups_length hex :
  is_Some (hex_groups hex) -> String.length hex = 6%nat \/ String.length hex = 7%nat.
Proof.
  intros [v Hv]. unfold hex_groups in Hv.
  assert (Hsix : forall s : string,
            match s with
            | String a (String b (String c (String d (String e (String f EmptyString))))) =>
                r ← hex_pair a b; g ← hex_pair c d; b0 ← hex_pair e f; Some (r, g, b0)
            | _ => None
            end = Some v -> String.length s = 6%nat).
  { intros s Hs. destruct s as [|a [|b [|c [|d [|e [|f [|x y]]]]]]]; try discriminate.
    reflexivity. }
  destruct hex as [|c0 rest]; [discriminate|].
  destruct (Ascii.eqb_spec c0 "#"%char) as [-> | Hne].
  - right. cbn [String.length]. f_equal. apply Hsix. exact Hv.
  - left. apply Hsix.
    destruct c0 as [[] [] [] [] [] [] [] []]; try exact Hv. contradiction.
Qed.

Section Fill.

Variable host : Host.

(** X19. [hexToRGBA] understands a colour written with six hexadecimal
    digits, with or without the leading hash sign: the three components
    come out as their decimal values, before the opacity. A text of any
    other length - the three-digit short form among them - is not
    understood and gives the default teal. *)
Theorem hexToRGBA_reads_six_digits (r g b : Z) (alpha : Q) (other : string) :
  0 <= r <= 255 -> 0 <= g <= 255 -> 0 <= b <= 255 ->
  String.length other <> 6%nat -> String.length other <> 7%nat ->
  hexToRGBA host (String "#" (hex_colour r g b)) alpha =
    rgba (Z_to_string r) (Z_to_string g) (Z_to_string b) (Number_toString host alpha) /\
  hexToRGBA host (hex_colour r g b) alpha =
    hexToRGBA host (String "#" (hex_colour r g b)) alpha /\
  hexToRGBA host other alpha = rgba "84" "224" "166" (Number_toString host alpha).
Proof.
  intros Hr Hg Hb H6 H7.
  destruct (hex_groups_hex_colour r g b Hr Hg Hb) as [H1 H2].
  unfold hexToRGBA. rewrite H1, H2. split; [reflexivity|]. split; [reflexivity|].
  destruct (hex_groups other) eqn:Ho; [| reflexivity].
  destruct (hex_groups_length other) as [E | E]; [eexists; exact Ho | |]; contradiction.
Qed.

(** X20. For a chart that [loadHabitProgress] configures, the border
    colour of the actual line is never empty, so that the fill never
    falls back to its own default: over a chart area it is the gradient
    from top to bottom whose stops at 0 and at 1 are that border colour
    with the opacities 0.28 and 0.06. Before the chart has an area the
    fill is the flat teal, whatever the colour. *)
Theorem actualFill_uses_line_colour
    (labels : list string) (data : Progress) (s : HabitSnapshot) (top bottom : Q) :
  let colour := actual_borderColor (chart_config host labels data s) in
  colour <> "" /\
  actualFill host (Some (top, bottom)) (Some colour) =
    Gradient top bottom
      [(0%Q, hexToRGBA host colour (28 # 100)); (1%Q, hexToRGBA host colour (6 # 100))] /\
  forall c, actualFill host None c = Flat "rgba(84,224,166,0.18)".
Proof.
  cbv zeta. cbn [chart_config actual_borderColor].
  assert (Ht : truthy_string (color_or "#54e0a6" (snap_color s)) = true).
  { unfold color_or. destruct (snap_color s) as [c|]; [| reflexivity].
    destruct (truthy_string c) eqn:Hc; [exact Hc | reflexivity]. }
  split; [intros E; rewrite E in Ht; discriminate|].
  split; [| reflexivity].
  unfold actualFill. cbv zeta.
  set (c := color_or "#54e0a6" (snap_color s)) in *.
  unfold color_or. rewrite Ht. reflexivity.
Qed.

End Fill.

(** ** The journal modal *)

Lemma update_element_present i f st e :
  getElementById i st = Some e ->
  update_element i f st = (Normal tt, putElement i (f e) st).
Proof. intros H. unfold update_element. rewrite H. reflexivity. Qed.

(** X21. On a page with the modal and its content element, [openModal]
    writes the text and shows the modal, and [closeModal] after it hides
    the modal and keeps the text; neither throws, and no other element
    changes. *)
Theorem modal_opens_then_closes (content : string) (st : App) :
  is_Some (getElementById "modalContent" st) ->
  is_Some (getElementById "journalModal" st) ->
  let opened := openModal content st in
  let closed := closeModal (final_state opened) in
  rejected opened = false /\
  modal_display (final_state opened) = Some "block" /\
  modal_text (final_state opened) = Some content /\
  rejected closed = false /\
  modal_display (final_state closed) = Some "none" /\
  modal_text (final_state closed) = Some content /\
  forall i, i <> "modalContent" -> i <> "journalModal" ->
            getElementById i (final_state closed) = getElementById i st.
Proof.
  intros [c Hc] [m Hm]. cbv zeta.
  pose (st1 := putElement "modalContent" (set_textContent content c) st).
  assert (Hm1 : getElementById "journalModal" st1 = Some m).
  { unfold st1. rewrite getElementById_putElement_ne by discriminate. exact Hm. }
  pose (st2 := putElement "journalModal" (set_style "display" "block" m) st1).
  assert (Hopen : openModal content st = (Normal tt, st2)).
  { unfold openModal. rewrite (bind_normal _ _ st tt st1)
      by (apply update_element_present, Hc).
    apply update_element_present, Hm1. }
  rewrite Hopen. cbn [final_state snd].
  assert (Hm2 : getElementById "journalModal" st2 =
                Some (set_style "display" "block" m))
    by apply getElementById_putElement_eq.
  assert (Hclose : closeModal st2 =
            (Normal tt,
             putElement "journalModal"
               (set_style "display" "none" (set_style "display" "block" m)) st2))
    by (apply update_element_present, Hm2).
  rewrite Hclose. cbn [final_state snd].
  split; [reflexivity|]. split.
  { unfold modal_display. rewrite Hm2. cbn [mbind option_bind].
    rewrite style_set_style. apply lookup_insert_eq. }
  split.
  { unfold modal_text, st2. rewrite getElementById_putElement_ne by discriminate.
    unfold st1. rewrite getElementById_putElement_eq. reflexivity. }
  split; [reflexivity|]. split.
  { unfold modal_display. rewrite getElementById_putElement_eq. cbn [mbind option_bind].
    rewrite style_set_style. apply lookup_insert_eq. }
  split.
  { unfold modal_text. rewrite getElementById_putElement_ne by discriminate.
    unfold st2. rewrite getElementById_putElement_ne by discriminate.
    unfold st1. rewrite getElementById_putElement_eq. reflexivity. }
  intros i H1 H2. rewrite getElementById_putElement_ne by congruence.
  unfold st2. rewrite getElementById_putElement_ne by congruence.
  unfold st1. apply getElementById_putElement_ne. congruence.
Qed.

(** X22. The modal functions do not guard against a missing element.
    [openModal] throws exactly when the content element or the modal is
    missing, and without the modal it throws after it has written the
    text; [closeModal] throws exactly when the modal is missing, and then
    changes nothing. *)
Theorem modal_needs_its_elements (content : string) (st : App) :
  rejected (openModal content st) =
    negb (bool_decide (is_Some (getElementById "modalContent" st)) &&
          bool_decide (is_Some (getElementById "journalModal" st))) /\
  (getElementById "modalContent" st = None ->
     final_state (openModal content st) = st) /\
  (is_Some (getElementById "modalContent" st) ->
   getElementById "journalModal" st = None ->
     modal_text (final_state (openModal content st)) = Some content) /\
  rejected (closeModal st) = negb (bool_decide (is_Some (getElementById "journalModal" st))) /\
  (getElementById "journalModal" st = None -> final_state (closeModal st) = st).
Proof.
  unfold openModal, closeModal, mbind, Async_bind, update_element, rejected, modal_text.
  destruct (getElementById "modalContent" st) as [c|] eqn:Hc.
  - rewrite getElementById_putElement_ne by discriminate.
    destruct (getElementById "journalModal" st) as [m|] eqn:Hm; cbn [fst snd final_state].
    + repeat split; try discriminate; try reflexivity.
    + rewrite getElementById_putElement_eq.
      repeat split; try discriminate; try reflexivity.
  - destruct (getElementById "journalModal" st) as [m|] eqn:Hm; cbn [fst snd final_state];
      repeat split; try discriminate; try reflexivity;
      intros [x Hx]; discriminate.
Qed.

(** ** The theme *)

(** X23. A click on the theme button puts the page in the dark theme
    exactly when it was in the light theme before, and in the light theme
    otherwise. After the click the stored theme is the one of the page,
    and the button names the other mode; a further click changes the
    theme and two further clicks give it back. What is stored makes the
    next start of the page apply the same theme. *)
Theorem themeToggle_click_alternates (p : Theme * App) :
  let p1 := themeToggle_click p in
  data_theme (fst p1) =
    Some (if bool_decide (data_theme (fst p) = Some "light") then "dark" else "light") /\
  (data_theme (fst p1) = Some "dark" <-> data_theme (fst p) = Some "light") /\
  (data_theme (fst p1) = Some "light" \/ data_theme (fst p1) = Some "dark") /\
  stored_theme (fst p1) = data_theme (fst p1) /\
  (is_Some (getElementById "themeToggle" (snd p)) ->
     toggle_label (snd p1) =
       Some (if bool_decide (data_theme (fst p1) = Some "light")
             then "Dark Mode" else "Light Mode")) /\
  data_theme (fst (themeToggle_click p1)) <> data_theme (fst p1) /\
  fst (themeToggle_click (themeToggle_click p1)) = fst p1 /\
  forall st, fst (initTheme (fst p1, st)) = fst p1.
Proof.
  cbv zeta. unfold themeToggle_click, initTheme, applyTheme, toggle_label.
  cbn [fst snd data_theme stored_theme].
  destruct (bool_decide (data_theme (fst p) = Some "light")) eqn:Hlight; cbn [fst snd].
  - apply bool_decide_eq_true in Hlight.
    split; [reflexivity|]. split; [split; [intros _; exact Hlight | reflexivity]|].
    split; [right; reflexivity|]. split; [reflexivity|]. split.
    { intros [btn ->]. rewrite getElementById_putElement_eq. reflexivity. }
    repeat split; try reflexivity. discriminate.
  - apply bool_decide_eq_false in Hlight.
    split; [reflexivity|]. split; [split; [discriminate | intros H; contradiction]|].
    split; [left; reflexivity|]. split; [reflexivity|]. split.
    { intros [btn ->]. rewrite getElementById_putElement_eq. reflexivity. }
    repeat split; try reflexivity. discriminate.
Qed.

(** ** The navigation bar *)

Lemma is_active_add e : is_active (classList_add "active" e) = true.
Proof. unfold is_active. apply bool_decide_eq_true, classList_add_elem. Qed.

Lemma is_active_remove e : is_active (classList_remove "active" e) = false.
Proof. unfold is_active. apply bool_decide_eq_false, classList_remove_not_elem. Qed.

(** X24. A click on a navigation button whose target is on the page
    scrolls to the target and leaves this button, and no other, active;
    the buttons stay as many. A click on a button whose target is not on
    the page changes nothing. *)
Theorem nav_click_activates_one (k : nat) (st : App) (nav : Nav) (btn : Element) :
  navButtons nav !! k = Some btn ->
  let nav' := nav_click k st nav in
  (is_Some (getElementById (dataset_target btn) st) ->
     length (navButtons nav') = length (navButtons nav) /\
     scrolledTo nav' = scrolledTo nav ++ [dataset_target btn] /\
     forall j b, navButtons nav' !! j = Some b ->
                 is_active b = bool_decide (j = k)) /\
  (getElementById (dataset_target btn) st = None -> nav' = nav).
Proof.
  intros Hk nav'. subst nav'. unfold nav_click. rewrite Hk.
  split.
  - intros [t ->]. cbn [navButtons scrolledTo].
    split; [rewrite length_alter, length_fmap; reflexivity|].
    split; [reflexivity|].
    intros j b Hj. destruct (decide (j = k)) as [-> | Hne].
    + rewrite list_lookup_alter_eq in Hj. rewrite list_lookup_fmap, Hk in Hj.
      cbn in Hj. injection Hj as <-. rewrite is_active_add.
      symmetry. apply bool_decide_eq_true. reflexivity.
    + rewrite list_lookup_alter_ne in Hj by congruence.
      rewrite list_lookup_fmap in Hj.
      destruct (navButtons nav !! j) as [b0|]; [| discriminate].
      cbn in Hj. injection Hj as <-. rewrite is_active_remove.
      symmetry. apply bool_decide_eq_false. exact Hne.
  - intros ->. reflexivity.
Qed.

(** X25. [setupNavigation] makes the first navigation button active and
    leaves every other button as the markup has it - also one that the
    markup already marks active; without buttons it does nothing. *)
Theorem setupNavigation_marks_first (nav : Nav) :
  length (navButtons (setupNavigation nav)) = length (navButtons nav) /\
  scrolledTo (setupNavigation nav) = scrolledTo nav /\
  (forall b, navButtons (setupNavigation nav) !! 0%nat = Some b -> is_active b = true) /\
  forall j, (0 < j)%nat ->
            navButtons (setupNavigation nav) !! j = navButtons nav !! j.
Proof.
  unfold setupNavigation. destruct (navButtons nav) as [|first rest] eqn:Hb.
  - rewrite Hb. repeat split. intros b H. discriminate.
  - cbn [navButtons scrolledTo]. repeat split.
    + intros b H. injection H as <-. apply is_active_add.
    + intros j Hj. destruct j; [lia | reflexivity].
Qed.

(** ** Invariants of a session *)

Section Preserving.

Variable R : App -> App -> Prop.
Hypothesis R_refl : forall st, R st st.
Hypothesis R_trans : forall a b c, R a b -> R b c -> R a c.

Lemma preserving_ret {A} (a : A) : preserving R (mret a).
Proof. intros st. apply R_refl. Qed.

Lemma preserving_throw {A} e : preserving R (@throw A e).
Proof. intros st. apply R_refl. Qed.

Lemma preserving_gets {A} (f : App -> A) : preserving R (gets f).
Proof. intros st. apply R_refl. Qed.

Lemma preserving_lift f : stepping R f -> preserving R (lift f).
Proof. intros Hf st. apply Hf. Qed.

Lemma preserving_bind {A B} (m : Async A) (k : A -> Async B) :
  preserving R m -> (forall a, preserving R (k a)) -> preserving R (m ≫= k).
Proof.
  intros Hm Hk st. unfold mbind, Async_bind. specialize (Hm st).
  destruct (m st) as [[a|e] st1]; cbn [final_state snd] in *; [| exact Hm].
  eapply R_trans; [exact Hm | apply Hk].
Qed.

Lemma preserving_try_catch {A} (body : Async A) (handler : string -> Async A) :
  preserving R body -> (forall e, preserving R (handler e)) ->
  preserving R (try_catch body handler).
Proof.
  intros Hb Hh st. unfold try_catch. specialize (Hb st).
  destruct (body st) as [[a|e] st1]; cbn [final_state snd] in *; [exact Hb|].
  eapply R_trans; [exact Hb | apply Hh].
Qed.

Lemma stepping_compose f g : stepping R f -> stepping R g -> stepping R (fun st => g (f st)).
Proof. intros Hf Hg st. eapply R_trans; [apply Hf | apply Hg]. Qed.

End Preserving.

Ltac preserving_step Hrefl Htrans :=
  lazymatch goal with
  | |- preserving _ (try_catch _ _) => apply (preserving_try_catch _ Htrans); [| intros ?]
  | |- preserving _ (mbind _ _) => apply (preserving_bind _ Htrans); [| intros ?]
  | |- preserving _ (gets _) => apply (preserving_gets _ Hrefl)
  | |- preserving _ (mret _) => apply (preserving_ret _ Hrefl)
  | |- preserving _ (throw _) => apply (preserving_throw _ Hrefl)
  | |- preserving _ (lift _) => apply preserving_lift
  | |- preserving _ (require_ok _ _) => unfold require_ok
  | |- preserving _ (ok_json _ _) => unfold ok_json
  | |- preserving _ (json _) => unfold json
  | |- preserving _ (if ?b then _ else _) => destruct b
  | |- preserving _ (match ?x with _ => _ end) => destruct x
  end.

(** *** The range *)

Lemma same_range_refl st : same_range st st.
Proof. reflexivity. Qed.

Lemma same_range_trans a b c : same_range a b -> same_range b c -> same_range a c.
Proof. unfold same_range. congruence. Qed.

Lemma quiet_same_range f : quiet f -> stepping same_range f.
Proof. intros Hf st. apply Hf. Qed.

Section Range.

Variable host : Host.

Lemma range_fetch r : preserving same_range (fetch host r).
Proof.
  intros st. unfold fetch.
  destruct (respond host (length (requests st)) r); reflexivity.
Qed.

Lemma range_console_error e : preserving same_range (console_error e).
Proof. intros st. reflexivity. Qed.

Lemma range_loadHabitProgress : preserving same_range (loadHabitProgress host).
Proof.
  intros st. destruct (loadHabitProgress_trace host st) as (st1 & -> & _ & Hr & _).
  exact Hr.
Qed.

Lemma range_loadHabits : preserving same_range (loadHabits host).
Proof.
  intros st. destruct (loadHabits_trace host st) as (reqs & st1 & -> & _ & Hr & _).
  exact Hr.
Qed.

Lemma quiet_renderIdealSelfSummary vision focusAreas :
  quiet (renderIdealSelfSummary vision focusAreas).
Proof.
  intros st. split; [apply renderIdealSelfSummary_requests|].
  unfold renderIdealSelfSummary.
  destruct (getElementById "idealSelfSummary" st) as [summary|]; [| reflexivity].
  cbv zeta.
  match goal with |- context [match getElementById "idealFocusCopy" ?s with _ => _ end] =>
    set (st2 := s) end.
  assert (E2 : currentRange st2 = currentRange st).
  { subst st2. destruct (getElementById "idealVisionCopy" _); reflexivity. }
  destruct (getElementById "idealFocusCopy" st2); exact E2.
Qed.

Ltac range_leaf :=
  lazymatch goal with
  | |- preserving _ (fetch _ ?r) => exact (range_fetch r)
  | |- preserving _ (console_error _) => apply range_console_error
  | |- preserving _ (loadHabitProgress _) => apply range_loadHabitProgress
  | |- preserving _ (loadHabits _) => apply range_loadHabits
  | |- stepping _ (updateChartVisibility _ _) =>
      apply quiet_same_range, quiet_updateChartVisibility
  | |- stepping _ (showToast _ _) => apply quiet_same_range, quiet_showToast
  | |- stepping _ (set_field _ _) => apply quiet_same_range, quiet_set_field
  | |- stepping _ habitForm_reset => apply quiet_same_range, quiet_habitForm_reset
  | |- stepping _ setupRangeButtons => apply quiet_same_range, quiet_setupRangeButtons
  | |- stepping _ (updateHabitSelectOptions _) =>
      apply quiet_same_range, quiet_updateHabitSelectOptions
  | |- stepping _ (renderIdealSelfSummary _ _) =>
      apply quiet_same_range, quiet_renderIdealSelfSummary
  | |- stepping _ (renderHabits _ _) => apply quiet_same_range, quiet_renderHabits
  | |- stepping _ (set_currentHabitId _) => intros ?; reflexivity
  end.

Ltac range_tac :=
  repeat first [ preserving_step same_range_refl same_range_trans | range_leaf ].

Lemma range_loadJournalEntries : preserving same_range (loadJournalEntries host).
Proof.
  unfold loadJournalEntries. range_tac.
  intros st0. destruct (getElementById "journalEntries" st0); [| reflexivity].
  match goal with |- context [match ?x with [] => _ | _ :: _ => _ end] => destruct x end;
    reflexivity.
Qed.

Lemma range_run op : preserving same_range (run host op).
Proof.
  destruct op; cbn [run].
  - unfold loadIdealSelf. range_tac.
  - intros st. unfold saveIdealSelf. cbv zeta.
    apply (preserving_try_catch _ same_range_trans); [| intros ?]; range_tac.
  - apply range_loadJournalEntries.
  - intros st. unfold addJournalEntry. cbv zeta.
    destruct (negb (truthy_string _)); [reflexivity|].
    apply (preserving_try_catch _ same_range_trans); [| intros ?]; range_tac.
    apply range_loadJournalEntries.
  - apply range_loadHabits.
  - intros st. unfold addHabit. cbv zeta.
    destruct (negb (truthy_string _)); [reflexivity|].
    apply (preserving_try_catch _ same_range_trans); [| intros ?]; range_tac.
    intros st0. destruct (truthy_id (created_id _)); reflexivity.
  - unfold toggleHabitCompletion. range_tac.
  - apply range_loadHabitProgress.
Qed.

(** X26. The range of the chart changes on a click on a range button
    and on nothing else: every other event - an operation, a click on a
    button of the habit list, a change of the selector, the demo button,
    the start of the page - leaves it as it was, whatever the server
    answers. *)
Theorem range_changes_only_by_its_buttons (e : Event) (st : App) :
  currentRange (final_state (handle host e st)) =
  match e with
  | Click (SelectRange r) => r
  | _ => currentRange st
  end.
Proof.
  destruct e as [op|h|v| |]; cbn [handle].
  - apply range_run.
  - destruct h as [hb|habits hb|r]; cbn [click].
    + apply (range_run (ToggleHabitCompletion hb)).
    + assert (H : preserving same_range (click host (ViewProgress habits hb)))
        by (cbn [click]; range_tac).
      apply H.
    + unfold mbind, Async_bind, lift. cbv beta.
      destruct (loadHabitProgress_trace host (setupRangeButtons (set_currentRange r st)))
        as (st1 & -> & _ & Hr & _).
      cbn [final_state snd]. rewrite Hr.
      destruct (quiet_setupRangeButtons (set_currentRange r st)) as [_ ->]. reflexivity.
  - assert (H : preserving same_range (habitSelect_change host v))
      by (unfold habitSelect_change; range_tac).
    apply H.
  - assert (H : preserving same_range (demoSeedBtn_click host)).
    { unfold demoSeedBtn_click. range_tac. apply range_loadJournalEntries. }
    apply H.
  - assert (H : preserving same_range (onDOMContentLoaded host)).
    { unfold onDOMContentLoaded. range_tac.
      - apply (range_run LoadIdealSelf).
      - apply range_loadJournalEntries. }
    apply H.
Qed.

End Range.

(** *** The one chart *)

Lemma keeps_one_chart_refl st : keeps_one_chart st st.
Proof. intros H. exact H. Qed.

Lemma keeps_one_chart_trans a b c :
  keeps_one_chart a b -> keeps_one_chart b c -> keeps_one_chart a c.
Proof. unfold keeps_one_chart. tauto. Qed.

Lemma grows_page_ready st st' : grows st st' -> page_ready st -> page_ready st'.
Proof.
  intros (_ & _ & _ & P) (H1 & H2 & H3). repeat split; apply P; assumption.
Qed.

Lemma keeps_same_charts st st' :
  grows st st' -> chartStore st' = chartStore st -> habitChart st' = habitChart st ->
  keeps_one_chart st st'.
Proof.
  intros Hg Hs Hh [Hp H1]. split; [apply (grows_page_ready st st' Hg Hp)|].
  intros h (c & Hl & Hd). rewrite Hh. apply H1. exists c. rewrite <- Hs. split; assumption.
Qed.

Lemma keeps_gentle f :
  gentle f ->
  (forall st, chartStore (f st) = chartStore st /\ habitChart (f st) = habitChart st) ->
  stepping keeps_one_chart f.
Proof. intros Hg Hf st. apply keeps_same_charts; [apply Hg | apply Hf | apply Hf]. Qed.

Lemma keeps_updateChartVisibility state message :
  stepping keeps_one_chart (updateChartVisibility state message).
Proof.
  intros st [Hp H1]. split; [apply (grows_page_ready st _ (gentle_updateChartVisibility _ _ st) Hp)|].
  destruct Hp as (Hc & Hph & _).
  intros h (c & Hl & Hd).
  rewrite updateChartVisibility_chartStore in Hl by assumption.
  rewrite updateChartVisibility_habitChart by assumption.
  destruct (habitChart st) as [h0|] eqn:Hh0.
  - destruct (releases state).
    + exfalso. destruct (decide (h0 = h)) as [-> | Hne].
      * rewrite list_lookup_alter_eq in Hl.
        destruct (chartStore st !! h) as [c0|]; [| discriminate].
        cbn in Hl. injection Hl as <-. discriminate.
      * rewrite list_lookup_alter_ne in Hl by exact Hne.
        assert (Hlive : live st h) by (exists c; split; assumption).
        apply H1 in Hlive. congruence.
    + rewrite <- Hh0. apply H1. exists c. split; assumption.
  - assert (Hlive : live st h) by (exists c; split; assumption).
    apply H1 in Hlive. congruence.
Qed.

Section OneChart.

Variable host : Host.

Lemma keeps_fetch r : preserving keeps_one_chart (fetch host r).
Proof.
  intros st. apply keeps_same_charts; [apply (growing_fetch host r st) | |];
    unfold fetch; destruct (respond host (length (requests st)) r); reflexivity.
Qed.

Lemma keeps_console_error e : preserving keeps_one_chart (console_error e).
Proof.
  intros st. apply keeps_same_charts; [apply (growing_console_error e st) | |]; reflexivity.
Qed.

Lemma keeps_loadHabitProgress : preserving keeps_one_chart (loadHabitProgress host).
Proof.
  intros st [Hp H1].
  split; [apply (grows_page_ready st _ (growing_loadHabitProgress host st) Hp)|].
  apply loadHabitProgress_single_chart; assumption.
Qed.

Lemma keeps_renderHabits habits : stepping keeps_one_chart (renderHabits host habits).
Proof.
  intros st. unfold renderHabits.
  destruct (getElementById "habitList" st) as [ul|]; [| apply keeps_one_chart_refl].
  destruct habits as [|h rest]; cbv zeta.
  - match goal with |- keeps_one_chart _ (updateChartVisibility _ _ ?m) =>
      apply (keeps_one_chart_trans st m) end;
      [| apply keeps_updateChartVisibility].
    apply keeps_same_charts; [apply grows_putElement_other; discriminate | |]; reflexivity.
  - apply keeps_same_charts; [apply grows_putElement_other; discriminate | |]; reflexivity.
Qed.

Ltac charts_frame :=
  intros ?st;
  repeat match goal with
         | |- context [match getElementById ?i ?s with _ => _ end] =>
             destruct (getElementById i s)
         end;
  split; reflexivity.

Lemma keeps_showToast message tone : stepping keeps_one_chart (showToast message tone).
Proof.
  apply keeps_gentle; [apply gentle_showToast|].
  intros st. split; [apply showToast_chartStore | apply showToast_habitChart].
Qed.

Lemma keeps_set_field i v : stepping keeps_one_chart (set_field i v).
Proof. apply keeps_gentle; [apply gentle_set_field|]. unfold set_field. charts_frame. Qed.

Lemma keeps_habitForm_reset : stepping keeps_one_chart habitForm_reset.
Proof.
  apply keeps_gentle; [apply gentle_habitForm_reset|].
  unfold habitForm_reset, reset_field. charts_frame.
Qed.

Lemma keeps_setupRangeButtons : stepping keeps_one_chart setupRangeButtons.
Proof.
  apply keeps_gentle; [apply gentle_setupRangeButtons|].
  unfold setupRangeButtons. charts_frame.
Qed.

Lemma keeps_updateHabitSelectOptions habits :
  stepping keeps_one_chart (updateHabitSelectOptions habits).
Proof.
  apply keeps_gentle; [apply gentle_updateHabitSelectOptions|].
  intros st. destruct (getElementById "habitSelect" st) as [select|] eqn:Hs.
  - destruct (updateHabitSelectOptions_shape habits st select Hs) as (sel' & c & ->).
    split; reflexivity.
  - rewrite updateHabitSelectOptions_absent by exact Hs. split; reflexivity.
Qed.

Lemma keeps_renderIdealSelfSummary vision focusAreas :
  stepping keeps_one_chart (renderIdealSelfSummary vision focusAreas).
Proof.
  apply keeps_gentle; [apply gentle_renderIdealSelfSummary|].
  unfold renderIdealSelfSummary. charts_frame.
Qed.

Ltac keeps_leaf :=
  lazymatch goal with
  | |- preserving _ (fetch _ ?r) => exact (keeps_fetch r)
  | |- preserving _ (console_error _) => apply keeps_console_error
  | |- preserving _ (loadHabitProgress _) => apply keeps_loadHabitProgress
  | |- stepping _ (updateChartVisibility _ _) => apply keeps_updateChartVisibility
  | |- stepping _ (showToast _ _) => apply keeps_showToast
  | |- stepping _ (set_field _ _) => apply keeps_set_field
  | |- stepping _ habitForm_reset => apply keeps_habitForm_reset
  | |- stepping _ setupRangeButtons => apply keeps_setupRangeButtons
  | |- stepping _ (updateHabitSelectOptions _) => apply keeps_updateHabitSelectOptions
  | |- stepping _ (renderIdealSelfSummary _ _) => apply keeps_renderIdealSelfSummary
  | |- stepping _ (renderHabits _ _) => apply keeps_renderHabits
  | |- stepping _ (set_currentHabitId _) =>
      intros ?; apply keeps_same_charts; [apply grows_same_page | |]; reflexivity
  | |- stepping _ (set_currentRange _) =>
      intros ?; apply keeps_same_charts; [apply grows_same_page | |]; reflexivity
  end.

Ltac keeps_tac :=
  repeat first [ preserving_step keeps_one_chart_refl keeps_one_chart_trans | keeps_leaf ].

Lemma keeps_ensureDemoSeed : preserving keeps_one_chart (ensureDemoSeed host).
Proof. unfold ensureDemoSeed. keeps_tac. Qed.

Lemma keeps_loadHabits : preserving keeps_one_chart (loadHabits host).
Proof. unfold loadHabits. keeps_tac. apply keeps_ensureDemoSeed. Qed.

Lemma keeps_loadJournalEntries : preserving keeps_one_chart (loadJournalEntries host).
Proof.
  unfold loadJournalEntries. keeps_tac.
  intros st0. destruct (getElementById "journalEntries" st0); [| apply keeps_one_chart_refl].
  match goal with |- context [match ?x with [] => _ | _ :: _ => _ end] => destruct x end;
    (apply keeps_same_charts; [apply grows_putElement_other; discriminate | |]; reflexivity).
Qed.

Lemma keeps_run op : preserving keeps_one_chart (run host op).
Proof.
  destruct op; cbn [run].
  - unfold loadIdealSelf. keeps_tac.
  - intros st. unfold saveIdealSelf. cbv zeta.
    apply (preserving_try_catch _ keeps_one_chart_trans); [| intros ?]; keeps_tac.
  - apply keeps_loadJournalEntries.
  - intros st. unfold addJournalEntry. cbv zeta.
    destruct (negb (truthy_string _)); [apply keeps_one_chart_refl|].
    apply (preserving_try_catch _ keeps_one_chart_trans); [| intros ?]; keeps_tac.
    apply keeps_loadJournalEntries.
  - apply keeps_loadHabits.
  - intros st. unfold addHabit. cbv zeta.
    destruct (negb (truthy_string _)); [apply keeps_one_chart_refl|].
    apply (preserving_try_catch _ keeps_one_chart_trans); [| intros ?]; keeps_tac;
      try apply keeps_loadHabits.
    intros st0. destruct (truthy_id (created_id _)); [| apply keeps_one_chart_refl].
    apply keeps_same_charts; [apply grows_same_page | |]; reflexivity.
  - unfold toggleHabitCompletion. keeps_tac. apply keeps_loadHabits.
  - apply keeps_loadHabitProgress.
Qed.

Lemma keeps_handle e : preserving keeps_one_chart (handle host e).
Proof.
  destruct e as [op|h|v| |]; cbn [handle].
  - apply keeps_run.
  - destruct h; cbn [click]; [apply (keeps_run (ToggleHabitCompletion _)) | |]; keeps_tac.
  - unfold habitSelect_change. keeps_tac.
  - unfold demoSeedBtn_click. keeps_tac;
      [apply keeps_loadHabits | apply keeps_loadJournalEntries].
  - unfold onDOMContentLoaded. keeps_tac;
      [apply (keeps_run LoadIdealSelf) | apply keeps_loadHabits | apply keeps_loadJournalEntries].
Qed.

(** X27. The script never leaks a chart. On a page with the chart area
    and the toast container that starts without a chart, after any
    sequence of events and whatever the server answers, at most one chart
    is live, and that chart is the one the handle [habitChart] holds;
    the chart area and the toast container are still on the page. *)
Theorem session_keeps_one_chart (events : list Event) (st : App) :
  page_ready st -> chartStore st = [] ->
  page_ready (session host events st) /\ single_chart (session host events st).
Proof.
  intros Hp Hs.
  assert (H0 : page_ready st /\ single_chart st).
  { split; [exact Hp|]. intros h (c & Hl & _). rewrite Hs in Hl. discriminate. }
  clear Hp Hs. revert st H0. induction events as [|e events IH]; intros st H0.
  - exact H0.
  - cbn [session fold_left]. apply (IH (final_state (handle host e st))).
    apply (keeps_handle e st). exact H0.
Qed.

End OneChart.

(** ** What the ideal-self form sends *)

Lemma rev_string_acc s acc : rev_string s acc = rev_string s EmptyString +:+ acc.
Proof.
  revert acc. induction s as [|c r IH]; intros acc; cbn [rev_string]; [reflexivity|].
  rewrite (IH (String c acc)), (IH (String c EmptyString)).
  generalize (rev_string r EmptyString). intros x.
  induction x as [|d x IHx]; [reflexivity|]. rewrite !append_cons, IHx. reflexivity.
Qed.

Lemma rev_string_append a b acc :
  rev_string (a +:+ b) acc = rev_string b (rev_string a acc).
Proof.
  revert acc. induction a as [|c r IH]; intros acc; [reflexivity|].
  rewrite append_cons. cbn [rev_string]. apply IH.
Qed.

Lemma rev_string_involutive s acc :
  rev_string (rev_string s acc) EmptyString = rev_string acc s.
Proof.
  revert acc. induction s as [|c r IH]; intros acc; cbn [rev_string]; [reflexivity|].
  rewrite IH. reflexivity.
Qed.

Lemma has_comma_rev_string s acc :
  has_comma (rev_string s acc) = has_comma s || has_comma acc.
Proof.
  revert acc. induction s as [|c r IH]; intros acc; cbn [rev_string has_comma]; [reflexivity|].
  rewrite IH. cbn [has_comma]. destruct (Ascii.eqb c ","), (has_comma r); reflexivity.
Qed.

Lemma split_comma_pieces s cur :
  has_comma cur = false -> Forall (fun p => has_comma p = false) (split_comma s cur).
Proof.
  revert cur. induction s as [|c r IH]; intros cur Hcur; cbn [split_comma].
  - apply Forall_cons. split; [| apply Forall_nil; exact I].
    rewrite has_comma_rev_string, Hcur. reflexivity.
  - destruct (Ascii.eqb c ",") eqn:Hc.
    + apply Forall_cons. split; [| apply IH; reflexivity].
      rewrite has_comma_rev_string, Hcur. reflexivity.
    + apply IH. cbn [has_comma]. rewrite Hc, Hcur. reflexivity.
Qed.

(** X28. Whatever the form holds, the request that [saveIdealSelf]
    builds carries a trimmed vision and focus areas each of which is
    trimmed, not empty and free of commas: empty pieces between commas
    are dropped. *)
Theorem ideal_self_form_request_is_tidy (st : App) :
  exists v l,
    ideal_self_form_request st = PostIdealSelf v l /\
    trim v = v /\
    Forall (fun s => tidy s = true) l.
Proof.
  unfold ideal_self_form_request. cbv zeta. eexists _, _. split; [reflexivity|].
  split; [apply trim_idempotent|].
  apply Forall_forall. intros x Hx.
  apply list_elem_of_In, filter_In in Hx as [Hin Ht].
  apply list_elem_of_In, list_elem_of_fmap in Hin as (p & -> & Hp).
  pose proof (split_comma_pieces (field_value "idealFocusAreas" st) EmptyString eq_refl) as Hall.
  rewrite Forall_forall in Hall. specialize (Hall p Hp).
  unfold tidy. rewrite Ht, trim_idempotent, String.eqb_refl, has_comma_trim by exact Hall.
  reflexivity.
Qed.

(** ** A new habit becomes the selected one *)



Section Creation.

Variable host : Host.



End Creation.

Section IdealSelfForm.

Variable host : Host.

Lemma field_value_set_field i v st :
  is_Some (getElementById i st) -> field_value i (set_field i v st) = v.
Proof.
  intros [e He]. unfold set_field, field_value. rewrite He.
  rewrite getElementById_putElement_eq. reflexivity.
Qed.

Lemma field_value_set_field_ne i j v st :
  i <> j -> field_value j (set_field i v st) = field_value j st.
Proof.
  intros Hne. unfold set_field, field_value.
  destruct (getElementById i st); [| reflexivity].
  rewrite getElementById_putElement_ne by exact Hne. reflexivity.
Qed.

Lemma set_field_other i j v st :
  i <> j -> getElementById j (set_field i v st) = getElementById j st.
Proof.
  intros Hne. unfold set_field. destruct (getElementById i st); [| reflexivity].
  apply getElementById_putElement_ne. exact Hne.
Qed.

(** X30. What a successful [loadIdealSelf] writes into the form, on a
    page with both fields: the vision field gets the vision only when the
    server sent one that is not empty, and otherwise keeps what it held;
    the focus field gets the focus areas joined by a comma and a space
    whenever the server sent the list, also an empty one, and otherwise
    keeps what it held. One request is sent and no toast is shown. *)
Theorem loadIdealSelf_fills_form (st : App) (data : IdealSelf) :
  is_Some (getElementById "idealVision" st) ->
  is_Some (getElementById "idealFocusAreas" st) ->
  respond host (length (requests st)) GetIdealSelf = Response true (JsonValue data) ->
  let st' := final_state (loadIdealSelf host st) in
  field_value "idealVision" st' =
    match vision data with
    | Some v => if truthy_string v then v else field_value "idealVision" st
    | None => field_value "idealVision" st
    end /\
  field_value "idealFocusAreas" st' =
    match focus_areas data with
    | Some l => join ", " l
    | None => field_value "idealFocusAreas" st
    end /\
  sent st st' = [GetIdealSelf] /\
  toasts st' = toasts st.
Proof.
  intros Hv Hf Hans st'. subst st'.
  pose (st1 := set_requests (requests st ++ [GetIdealSelf]) st).
  assert (Hfetch : fetch host GetIdealSelf st = (Normal (true, JsonValue data), st1)).
  { unfold fetch. rewrite Hans. reflexivity. }
  pose (st2 := renderIdealSelfSummary (default "" (vision data))
                 (default [] (focus_areas data)) st1).
  assert (Hother : forall i, i <> "idealSelfSummary" -> i <> "idealVisionCopy" ->
                             i <> "idealFocusCopy" ->
                             getElementById i st2 = getElementById i st).
  { intros i H1 H2 H3. unfold st2. rewrite renderIdealSelfSummary_other by assumption.
    reflexivity. }
  assert (Hreq2 : requests st2 = requests st ++ [GetIdealSelf]).
  { unfold st2. rewrite renderIdealSelfSummary_requests. reflexivity. }
  assert (Hv2 : is_Some (getElementById "idealVision" st2))
    by (rewrite Hother by discriminate; exact Hv).
  assert (Hf2 : is_Some (getElementById "idealFocusAreas" st2))
    by (rewrite Hother by discriminate; exact Hf).
  assert (Hfv2 : forall i, i <> "idealSelfSummary" -> i <> "idealVisionCopy" ->
                           i <> "idealFocusCopy" -> field_value i st2 = field_value i st).
  { intros i H1 H2 H3. unfold field_value. rewrite Hother by assumption. reflexivity. }
  assert (Hts2 : toasts st2 = toasts st).
  { unfold toasts. rewrite Hother by discriminate. reflexivity. }
  unfold loadIdealSelf.
  rewrite (try_catch_bind_normal _ _ _ _ _ _ Hfetch).
  rewrite (try_catch_bind_normal (ok_json _ _) _ _ st1 data st1) by reflexivity.
  rewrite (try_catch_bind_normal (lift _) _ _ st1 tt st2) by reflexivity.
  destruct (vision data) as [v|]; [destruct (truthy_string v)|];
    destruct (focus_areas data) as [l|];
    unfold try_catch, mbind, Async_bind, lift, mret, Async_ret; cbn [final_state fst snd];
    repeat split;
    repeat first
      [ rewrite field_value_set_field
          by (rewrite ?set_field_other by discriminate; assumption)
      | rewrite field_value_set_field_ne by discriminate
      | rewrite Hfv2 by discriminate ];
    try reflexivity;
    try (apply sent_app;
         repeat match goal with
                | |- context [requests (set_field ?i ?v ?s)] =>
                    destruct (quiet_set_field i v s) as [-> _]
                end; exact Hreq2);
    try (unfold toasts; rewrite ?set_field_other by discriminate; exact Hts2).
Qed.

End IdealSelfForm.
(** ** What becomes of a failure of the gateway *)

Section GatewayFailures.

Variable host : Host.

(** C8, as the code has it. Nothing that goes through the gateway ever
    rejects: not the eight operations, not a click, not a change of the
    selector, not the demo button, not [ensureDemoSeed]. When the request
    an operation sends for itself fails - [fetch] rejects, the status is
    not a success, or a body that is read is not JSON - the failure is
    caught where the request was sent; on a page with a toast container
    it adds one toast of tone error, and for [loadHabits] and
    [loadHabitProgress] the chart area enters the error state with a
    message. Three failures are caught and not shown as such. The load of
    the ideal self logs its failure on the console and shows no toast.
    [ensureDemoSeed] swallows the failures of its requests: it returns
    false when the collection could not be fetched and leaves no toast
    and no line on the console, whatever the answers. The demo button
    shows the toast of a failure only when its request is rejected; an
    answer with a failure status is taken for a success. *)
Theorem gateway_failures_are_caught (st : App) :
  ((forall op, rejected (run host op st) = false) /\
   (forall h, rejected (click host h st) = false) /\
   (forall v, rejected (habitSelect_change host v st) = false) /\
   rejected (demoSeedBtn_click host st) = false /\
   rejected (ensureDemoSeed host st) = false) /\
  (forall op,
     own_request_fails host op st = true ->
     is_Some (getElementById "toastContainer" st) ->
     let st' := final_state (run host op st) in
     if fails_silently op
     then toasts st' = toasts st /\ exists e, console st' = console st ++ [e]
     else exists toast,
            toasts st' = toasts st ++ [toast] /\
            "error" ∈ classList toast /\ textContent toast <> "") /\
  (forall op,
     own_request_fails host op st = true ->
     feeds_chart op = true ->
     is_Some (getElementById "habitChart" st) ->
     is_Some (getElementById "chartEmptyState" st) ->
     let st' := final_state (run host op st) in
     visibility_state st' = Some "error" /\
     exists m, placeholder_text st' = Some m /\ m <> "") /\
  (let seeded := ensureDemoSeed host st in
   fst seeded =
     Normal (negb (fetch_failed (respond host (length (requests st)) GetHabits))) /\
   toasts (snd seeded) = toasts st /\
   console (snd seeded) = console st /\
   snd seeded = set_requests (requests (snd seeded)) st) /\
  (is_Some (getElementById "toastContainer" st) ->
   let st' := final_state (demoSeedBtn_click host st) in
   exists toast more,
     toasts st' = toasts st ++ toast :: more /\
     match respond host (length (requests st)) PostDemoReset with
     | NetworkError =>
         textContent toast = "Could not load demo data" /\
         "error" ∈ classList toast /\ more = []
     | Response _ _ =>
         textContent toast = "Demo data loaded" /\ "success" ∈ classList toast
     end).
Proof.
  split; [| split; [| split; [| split]]].
  - split; [| split; [| split; [| split]]].
    + intros op. destruct op; cbn [run].
      * apply total_loadIdealSelf.
      * apply total_saveIdealSelf.
      * apply total_loadJournalEntries.
      * apply total_addJournalEntry.
      * apply total_loadHabits.
      * apply total_addHabit.
      * apply total_toggleHabitCompletion.
      * apply total_loadHabitProgress.
    + intros h. apply total_click.
    + intros v. apply total_habitSelect_change.
    + apply total_demoSeedBtn_click.
    + apply total_ensureDemoSeed.
  - intros op Hf Hc st'. subst st'.
    change (failure_shown op st (final_state (run host op st))).
    destruct op; cbn [run].
    + apply loadIdealSelf_fails, Hf.
    + apply saveIdealSelf_fails; assumption.
    + apply loadJournalEntries_fails; assumption.
    + apply addJournalEntry_fails; assumption.
    + apply loadHabits_fails; assumption.
    + apply addHabit_fails; assumption.
    + apply toggleHabitCompletion_fails; assumption.
    + apply loadHabitProgress_request_fails; assumption.
  - intros op Hf Hfeeds Hc Hp. apply chart_shows_error; assumption.
  - cbv zeta. destruct (ensureDemoSeed_shape host st) as (Hres & _ & Hst).
    split; [exact Hres|]. split; [rewrite Hst; reflexivity|].
    split; [rewrite Hst; reflexivity | exact Hst].
  - intros Hc st'. subst st'.
    destruct (demoSeedBtn_click_toasts host st Hc) as (toast & more & rest & Ht & _ & Hcase).
    exists toast, more. split; [exact Ht|].
    destruct (respond host (length (requests st)) PostDemoReset).
    + destruct Hcase as (H1 & H2 & H3 & _). split; [exact H1|]. split; assumption.
    + destruct Hcase as (H1 & H2 & _). split; assumption.
Qed.

End GatewayFailures.

(** C8 fails on the load of the ideal self: when the request is
    rejected, nothing is added to the toast container; the error only
    goes to the console. It fails on [ensureDemoSeed], whose rejected
    request leaves neither a toast nor a line on the console, and on the
    demo button, which answers a failure status with the toast of a
    success. *)
Lemma loadIdealSelf_failure_shows_no_toast :
  let st' := final_state (loadIdealSelf offline_host initial_app) in
  let seeded := ensureDemoSeed offline_host initial_app in
  let st2 := final_state (demoSeedBtn_click refusing_host initial_app) in
  own_request_fails offline_host LoadIdealSelf initial_app = true /\
  is_Some (getElementById "toastContainer" initial_app) /\
  toasts st' = [] /\
  console st' = ["TypeError: Failed to fetch"] /\
  fst seeded = Normal false /\
  toasts (snd seeded) = [] /\
  console (snd seeded) = [] /\
  request_failed PostDemoReset
    (respond refusing_host (length (requests initial_app)) PostDemoReset) = true /\
  (textContent <$> toasts st2) !! 0%nat = Some "Demo data loaded".
Proof.
  cbv zeta. split; [vm_compute; reflexivity|].
  split; [eexists; vm_compute; reflexivity|].
  repeat split; vm_compute; reflexivity.
Qed.

(** C8, as the code has it, when the collection cannot be fetched. *)
Lemma gateway_failures_are_caught_witness :
  own_request_fails offline_host LoadHabits initial_app = true /\
  feeds_chart LoadHabits = true /\
  is_Some (getElementById "toastContainer" initial_app) /\
  is_Some (getElementById "habitChart" initial_app) /\
  is_Some (getElementById "chartEmptyState" initial_app) /\
  let st' := final_state (run offline_host LoadHabits initial_app) in
  rejected (run offline_host LoadHabits initial_app) = false /\
  (exists toast, toasts st' = toasts initial_app ++ [toast] /\
                 "error" ∈ classList toast /\ textContent toast <> "") /\
  visibility_state st' = Some "error" /\
  exists m, placeholder_text st' = Some m /\ m <> "".
Proof.
  assert (Hf : own_request_fails offline_host LoadHabits initial_app = true)
    by (vm_compute; reflexivity).
  assert (Hfeeds : feeds_chart LoadHabits = true) by reflexivity.
  destruct example_page_ready as (Hc & Hp & Ht).
  pose proof (gateway_failures_are_caught offline_host initial_app)
    as ((Htotal & _) & Htoast & Hchart & _).
  split; [exact Hf|]. split; [exact Hfeeds|]. split; [exact Ht|].
  split; [exact Hc|]. split; [exact Hp|].
  split; [exact (Htotal LoadHabits)|]. split; [exact (Htoast LoadHabits Hf Ht)|].
  exact (Hchart LoadHabits Hf Hfeeds Hc Hp).
Defined.

(** * The further properties at concrete inputs *)

Lemma present_in_example (i : string) (e : Element) :
  getElementById i initial_app = Some e -> is_Some (getElementById i initial_app).
Proof. intros H. exists e. exact H. Defined.


(** X1 at the collection of "Meditate" and "Write". *)
Lemma updateHabitSelectOptions_lists_habits_witness :
  getElementById "habitSelect" initial_app = Some (createElement "select") /\
  [meditate; habit_bare] <> [] /\
  Forall (fun h => safe_integer (id h)) [meditate; habit_bare] /\
  exists sel,
    getElementById "habitSelect"
      (updateHabitSelectOptions [meditate; habit_bare] initial_app) = Some sel /\
    option_entry <$> children sel =
      (fun h => (Z_to_string (id h), name h)) <$> [meditate; habit_bare] /\
    disabled sel = false.
Proof.
  assert (H1 : getElementById "habitSelect" initial_app = Some (createElement "select"))
    by reflexivity.
  assert (H2 : [meditate; habit_bare] <> []) by discriminate.
  assert (H3 : Forall (fun h => safe_integer (id h)) [meditate; habit_bare])
    by (repeat constructor).
  split; [exact H1|]. split; [exact H2|]. split; [exact H3|].
  exact (updateHabitSelectOptions_lists_habits [meditate; habit_bare] initial_app
           (createElement "select") H1 H2 H3).
Defined.

(** X2 on the example page, where no habit is selected yet. *)
Lemma updateHabitSelectOptions_falls_back_to_first_witness :
  is_Some (getElementById "habitSelect" initial_app) /\
  (truthy_id (currentHabitId initial_app) = false /\ id meditate <> 0) /\
  currentHabitId (updateHabitSelectOptions (meditate :: [habit_bare]) initial_app) =
    Some (id meditate).
Proof.
  assert (H1 : is_Some (getElementById "habitSelect" initial_app))
    by (apply (present_in_example _ (createElement "select")); reflexivity).
  assert (H2 : truthy_id (currentHabitId initial_app) = false /\ id meditate <> 0)
    by (split; [reflexivity | discriminate]).
  split; [exact H1|]. split; [exact H2|].
  exact (updateHabitSelectOptions_falls_back_to_first meditate [habit_bare] initial_app
           H1 (or_intror H2)).
Defined.

(** X3 on the example page. *)
Lemma setupRangeButtons_renders_witness :
  getElementById "rangeButtons" initial_app = Some (createElement "div") /\
  exists c,
    getElementById "rangeButtons" (setupRangeButtons initial_app) = Some c /\
    button_range <$> children c = [Some 7; Some 14; Some 30; Some 90] /\
    textContent <$> children c = ["7 days"; "14 days"; "30 days"; "90 days"] /\
    Forall (fun b => disabled b = negb (truthy_id (currentHabitId initial_app)))
      (children c) /\
    Forall (fun b => is_active b = true <-> button_range b = Some (currentRange initial_app))
      (children c).
Proof.
  assert (H1 : getElementById "rangeButtons" initial_app = Some (createElement "div"))
    by reflexivity.
  split; [exact H1|].
  exact (setupRangeButtons_renders initial_app (createElement "div") H1).
Defined.

(** X4 for a click on "7 days" with "Meditate" selected. *)
Lemma range_click_reloads_progress_witness :
  getElementById "rangeButtons" selected_app = Some (createElement "div") /\
  let st' := final_state (click healthy_host (SelectRange 7) selected_app) in
  currentRange st' = 7 /\
  currentHabitId st' = currentHabitId selected_app /\
  progress_calls selected_app st' = progress_call st'.
Proof.
  assert (H1 : getElementById "rangeButtons" selected_app = Some (createElement "div"))
    by reflexivity.
  split; [exact H1|].
  destruct (range_click_reloads_progress healthy_host 7 selected_app
              (createElement "div") H1) as (Ha & Hb & Hc & _).
  split; [exact Ha|]. split; [exact Hb | exact Hc].
Defined.

(** X5 for the list holding "Meditate". *)
Lemma renderHabits_renders_witness :
  getElementById "habitList" initial_app = Some (createElement "ul") /\
  [meditate] <> [] /\
  exists items,
    children <$> getElementById "habitList" (renderHabits healthy_host [meditate] initial_app)
      = Some items /\
    rendered_title <$> items = [Some "Meditate"] /\
    rendered_badge <$> items = [Some "Pending today"].
Proof.
  assert (H1 : getElementById "habitList" initial_app = Some (createElement "ul"))
    by reflexivity.
  assert (H2 : [meditate] <> []) by discriminate.
  split; [exact H1|]. split; [exact H2|].
  destruct (renderHabits_renders healthy_host [meditate] initial_app (createElement "ul") H1)
    as (items & Hitems & Hfull & _).
  destruct (Hfull H2) as (Ht & Hb & _).
  exists items. split; [exact Hitems|]. split; [exact Ht | exact Hb].
Defined.


(** X8 for the diary, all of them dated. *)
Lemma sort_entries_newest_first_stable_witness :
  forallb (valid_date diary_host) diary = true /\
  Permutation (sort_entries diary_host diary) diary /\
  Sorted (newest_first diary_host) (sort_entries diary_host diary).
Proof.
  assert (H1 : forallb (valid_date diary_host) diary = true) by reflexivity.
  destruct (sort_entries_newest_first_stable diary_host diary H1) as (Ha & Hb & _).
  split; [exact H1|]. split; [exact Ha | exact Hb].
Defined.

(** X9 for the two entries of the diary. *)
Lemma loadJournalEntries_renders_witness :
  getElementById "journalEntries" initial_app = Some (createElement "ul") /\
  respond diary_host (length (requests initial_app)) GetJournal =
    Response true (JsonValue diary) /\
  diary <> [] /\
  exists items,
    journal_items (final_state (loadJournalEntries diary_host initial_app)) = Some items /\
    rendered_entry <$> items =
      (fun e => [toLocaleString diary_host (timestamp e); content e]) <$>
        sort_entries diary_host diary.
Proof.
  assert (H1 : getElementById "journalEntries" initial_app = Some (createElement "ul"))
    by reflexivity.
  assert (H2 : respond diary_host (length (requests initial_app)) GetJournal =
               Response true (JsonValue diary)) by reflexivity.
  assert (H3 : diary <> []) by discriminate.
  split; [exact H1|]. split; [exact H2|]. split; [exact H3|].
  destruct (loadJournalEntries_renders diary_host initial_app (createElement "ul") diary H1 H2)
    as (items & Hitems & Hfull & _).
  exists items. split; [exact Hitems | exact (proj1 (Hfull H3))].
Defined.

(** X10 for the note of the example page. *)
Lemma addJournalEntry_saves_witness :
  getElementById "journalInput" initial_app = Some (field "textarea" " note ") /\
  getElementById "toastContainer" initial_app = Some (createElement "div") /\
  blank (value (field "textarea" " note ")) = false /\
  respond healthy_host (length (requests initial_app))
    (PostJournal (trim (value (field "textarea" " note ")))) =
    Response true (JsonValue tt) /\
  let st' := final_state (addJournalEntry healthy_host initial_app) in
  sent initial_app st' = [PostJournal (trim (value (field "textarea" " note "))); GetJournal] /\
  field_value "journalInput" st' = "".
Proof.
  assert (H1 : getElementById "journalInput" initial_app = Some (field "textarea" " note "))
    by reflexivity.
  assert (H2 : getElementById "toastContainer" initial_app = Some (createElement "div"))
    by reflexivity.
  assert (H3 : blank (value (field "textarea" " note ")) = false) by reflexivity.
  assert (H4 : respond healthy_host (length (requests initial_app))
                 (PostJournal (trim (value (field "textarea" " note ")))) =
               Response true (JsonValue tt)) by reflexivity.
  split; [exact H1|]. split; [exact H2|]. split; [exact H3|]. split; [exact H4|].
  destruct (addJournalEntry_saves healthy_host initial_app _ _ (JsonValue tt) H1 H2 H3 H4)
    as (_ & Hs & Hf & _).
  split; [exact Hs | exact Hf].
Defined.

(** X11 for an input of three spaces. *)
Lemma addJournalEntry_ignores_blank_witness :
  blank (field_value "journalInput" blank_entry_app) = true /\
  addJournalEntry healthy_host blank_entry_app = (Normal tt, blank_entry_app).
Proof.
  assert (H1 : blank (field_value "journalInput" blank_entry_app) = true) by reflexivity.
  split; [exact H1|].
  exact (addJournalEntry_ignores_blank healthy_host blank_entry_app H1).
Defined.

(** X12 for a vision of white space and no focus area. *)
Lemma renderIdealSelfSummary_shows_when_filled_witness :
  is_Some (getElementById "idealSelfSummary" initial_app) /\
  summary_display (renderIdealSelfSummary "  " [] initial_app) =
    Some (if negb (blank "  ") || negb (bool_decide (@nil string = []))
          then "block" else "none").
Proof.
  assert (H1 : is_Some (getElementById "idealSelfSummary" initial_app))
    by (exists (createElement "div"); reflexivity).
  split; [exact H1|].
  exact (proj1 (renderIdealSelfSummary_shows_when_filled "  " [] initial_app H1)).
Defined.

(** X13 for the ideal self of the healthy server. *)
Lemma ideal_self_form_round_trip_witness :
  is_Some (getElementById "idealVision" initial_app) /\
  is_Some (getElementById "idealFocusAreas" initial_app) /\
  respond healthy_host (length (requests initial_app)) GetIdealSelf =
    Response true
      (JsonValue {| vision := Some "Be consistent";
                    focus_areas := Some ["health"; "focus"] |}) /\
  truthy_string "Be consistent" = true /\ trim "Be consistent" = "Be consistent" /\
  Forall (fun s => tidy s = true) ["health"; "focus"] /\
  ideal_self_form_request (final_state (loadIdealSelf healthy_host initial_app)) =
    PostIdealSelf "Be consistent" ["health"; "focus"].
Proof.
  assert (H1 : is_Some (getElementById "idealVision" initial_app))
    by (eexists; reflexivity).
  assert (H2 : is_Some (getElementById "idealFocusAreas" initial_app))
    by (eexists; reflexivity).
  assert (H3 : trim "Be consistent" = "Be consistent") by reflexivity.
  assert (H4 : Forall (fun s => tidy s = true) ["health"; "focus"]).
  { apply List.Forall_cons; [reflexivity|]. apply List.Forall_cons; [reflexivity|].
    apply List.Forall_nil. }
  split; [exact H1|]. split; [exact H2|]. split; [reflexivity|]. split; [reflexivity|].
  split; [exact H3|]. split; [exact H4|].
  exact (ideal_self_form_round_trip healthy_host initial_app
           {| vision := Some "Be consistent"; focus_areas := Some ["health"; "focus"] |}
           "Be consistent" ["health"; "focus"] H1 H2 eq_refl eq_refl eq_refl eq_refl H3 H4).
Defined.

(** X14 for the option of "Meditate", whose identifier is 1. *)
Lemma habitSelect_change_selects_option_witness :
  safe_integer 1 /\
  let st' := final_state (habitSelect_change healthy_host (Z_to_string 1) initial_app) in
  currentHabitId st' = Some 1 /\
  sent initial_app st' = [GetProgress 1 (currentRange initial_app)].
Proof.
  assert (H1 : safe_integer 1) by reflexivity.
  split; [exact H1|].
  pose proof (habitSelect_change_selects_option healthy_host 1 initial_app H1) as H.
  cbv zeta in H. destruct H as (Ha & _ & Hb).
  split; [exact Ha | exact Hb].
Defined.

(** X16 on a healthy server. *)
Lemma demoSeedBtn_click_ignores_status_witness :
  is_Some (getElementById "toastContainer" initial_app) /\
  let st' := final_state (demoSeedBtn_click healthy_host initial_app) in
  exists toast more rest,
    toasts st' = toasts initial_app ++ toast :: more /\
    sent initial_app st' = PostDemoReset :: rest /\
    textContent toast = "Demo data loaded".
Proof.
  assert (H1 : is_Some (getElementById "toastContainer" initial_app))
    by (eexists; reflexivity).
  split; [exact H1|].
  destruct (demoSeedBtn_click_ignores_status healthy_host initial_app H1)
    as (toast & more & rest & Ht & Hs & Hm).
  exists toast, more, rest. split; [exact Ht|]. split; [exact Hs|]. exact (proj1 Hm).
Defined.

(** X18 on the server without habits, with "Meditate" still selected. *)
Lemma loadHabits_without_habits_witness :
  is_Some (getElementById "habitChart" selected_app) /\
  is_Some (getElementById "chartEmptyState" selected_app) /\
  is_Some (getElementById "habitSelect" selected_app) /\
  habits_answer diary_host selected_app = Response true (JsonValue []) /\
  let st' := final_state (loadHabits diary_host selected_app) in
  currentHabitId st' = None /\
  visibility_state st' = Some "empty" /\
  progress_calls selected_app st' = [].
Proof.
  assert (H1 : is_Some (getElementById "habitChart" selected_app))
    by (eexists; reflexivity).
  assert (H2 : is_Some (getElementById "chartEmptyState" selected_app))
    by (eexists; reflexivity).
  assert (H3 : is_Some (getElementById "habitSelect" selected_app))
    by (eexists; reflexivity).
  assert (H4 : habits_answer diary_host selected_app = Response true (JsonValue []))
    by reflexivity.
  split; [exact H1|]. split; [exact H2|]. split; [exact H3|]. split; [exact H4|].
  destruct (loadHabits_without_habits diary_host selected_app H1 H2 H3 H4)
    as (Ha & _ & Hb & _ & Hc & _).
  split; [exact Ha|]. split; [exact Hb | exact Hc].
Defined.

(** X19 for the default teal and the short form of white. *)
Lemma hexToRGBA_reads_six_digits_witness :
  0 <= 84 <= 255 /\ 0 <= 224 <= 255 /\ 0 <= 166 <= 255 /\
  String.length "#fff" <> 6%nat /\ String.length "#fff" <> 7%nat /\
  hexToRGBA healthy_host (String "#" (hex_colour 84 224 166)) (28 # 100) =
    rgba (Z_to_string 84) (Z_to_string 224) (Z_to_string 166)
      (Number_toString healthy_host (28 # 100)) /\
  hexToRGBA healthy_host "#fff" (28 # 100) =
    rgba "84" "224" "166" (Number_toString healthy_host (28 # 100)).
Proof.
  assert (H1 : 0 <= 84 <= 255) by lia.
  assert (H2 : 0 <= 224 <= 255) by lia.
  assert (H3 : 0 <= 166 <= 255) by lia.
  assert (H4 : String.length "#fff" <> 6%nat) by discriminate.
  assert (H5 : String.length "#fff" <> 7%nat) by discriminate.
  split; [exact H1|]. split; [exact H2|]. split; [exact H3|].
  split; [exact H4|]. split; [exact H5|].
  destruct (hexToRGBA_reads_six_digits healthy_host 84 224 166 (28 # 100) "#fff"
              H1 H2 H3 H4 H5) as (Ha & _ & Hb).
  split; [exact Ha | exact Hb].
Defined.

(** X21 on the page with the modal. *)
Lemma modal_opens_then_closes_witness :
  is_Some (getElementById "modalContent" modal_app) /\
  is_Some (getElementById "journalModal" modal_app) /\
  let opened := openModal "Slept well" modal_app in
  let closed := closeModal (final_state opened) in
  modal_display (final_state opened) = Some "block" /\
  modal_display (final_state closed) = Some "none" /\
  modal_text (final_state closed) = Some "Slept well".
Proof.
  assert (H1 : is_Some (getElementById "modalContent" modal_app))
    by (eexists; reflexivity).
  assert (H2 : is_Some (getElementById "journalModal" modal_app))
    by (eexists; reflexivity).
  split; [exact H1|]. split; [exact H2|].
  destruct (modal_opens_then_closes "Slept well" modal_app H1 H2)
    as (_ & Ha & _ & _ & Hb & Hc & _).
  split; [exact Ha|]. split; [exact Hb | exact Hc].
Defined.

(** X24 for a click on the first button, while the markup marks the
    second one active. *)
Lemma nav_click_activates_one_witness :
  navButtons example_nav !! 0%nat =
    Some (setAttribute "data-target" "habitList" (createElement "button")) /\
  is_Some (getElementById
             (dataset_target (setAttribute "data-target" "habitList" (createElement "button")))
             initial_app) /\
  let nav' := nav_click 0 initial_app example_nav in
  length (navButtons nav') = length (navButtons example_nav) /\
  forall j b, navButtons nav' !! j = Some b -> is_active b = bool_decide (j = 0%nat).
Proof.
  assert (H1 : navButtons example_nav !! 0%nat =
               Some (setAttribute "data-target" "habitList" (createElement "button")))
    by reflexivity.
  assert (H2 : is_Some (getElementById
                          (dataset_target
                             (setAttribute "data-target" "habitList" (createElement "button")))
                          initial_app))
    by (eexists; reflexivity).
  split; [exact H1|]. split; [exact H2|].
  destruct (proj1 (nav_click_activates_one 0 initial_app example_nav _ H1) H2)
    as (Ha & _ & Hb).
  split; [exact Ha | exact Hb].
Defined.

(** X27 for the start of the page followed by a click on "7 days". *)
Lemma session_keeps_one_chart_witness :
  page_ready initial_app /\ chartStore initial_app = [] /\
  page_ready (session healthy_host [Loaded; Click (SelectRange 7)] initial_app) /\
  single_chart (session healthy_host [Loaded; Click (SelectRange 7)] initial_app).
Proof.
  split; [exact example_page_ready|]. split; [reflexivity|].
  exact (session_keeps_one_chart healthy_host [Loaded; Click (SelectRange 7)] initial_app
           example_page_ready eq_refl).
Defined.


(** X30 for the ideal self of the healthy server. *)
Lemma loadIdealSelf_fills_form_witness :
  is_Some (getElementById "idealVision" initial_app) /\
  is_Some (getElementById "idealFocusAreas" initial_app) /\
  respond healthy_host (length (requests initial_app)) GetIdealSelf =
    Response true
      (JsonValue {| vision := Some "Be consistent";
                    focus_areas := Some ["health"; "focus"] |}) /\
  let st' := final_state (loadIdealSelf healthy_host initial_app) in
  sent initial_app st' = [GetIdealSelf] /\ toasts st' = toasts initial_app.
Proof.
  assert (H1 : is_Some (getElementById "idealVision" initial_app))
    by (eexists; reflexivity).
  assert (H2 : is_Some (getElementById "idealFocusAreas" initial_app))
    by (eexists; reflexivity).
  split; [exact H1|]. split; [exact H2|]. split; [reflexivity|].
  destruct (loadIdealSelf_fills_form healthy_host initial_app _ H1 H2 eq_refl)
    as (_ & _ & Ha & Hb).
  split; [exact Ha | exact Hb].
Defined.

(** X22 on the example page, which has no modal, and on the same page
    with the content element only. *)
Lemma modal_needs_its_elements_witness :
  getElementById "modalContent" initial_app = None /\
  final_state (openModal "Slept well" initial_app) = initial_app /\
  is_Some (getElementById "modalContent"
             (putElement "modalContent" (createElement "p") initial_app)) /\
  getElementById "journalModal"
    (putElement "modalContent" (createElement "p") initial_app) = None /\
  modal_text
    (final_state
       (openModal "Slept well" (putElement "modalContent" (createElement "p") initial_app))) =
    Some "Slept well".
Proof.
  assert (H1 : getElementById "modalContent" initial_app = None) by reflexivity.
  assert (H2 : is_Some (getElementById "modalContent"
                          (putElement "modalContent" (createElement "p") initial_app)))
    by (eexists; reflexivity).
  assert (H3 : getElementById "journalModal"
                 (putElement "modalContent" (createElement "p") initial_app) = None)
    by reflexivity.
  split; [exact H1|].
  split; [exact (proj1 (proj2 (modal_needs_its_elements "Slept well" initial_app)) H1)|].
  split; [exact H2|]. split; [exact H3|].
  exact (proj1 (proj2 (proj2
           (modal_needs_its_elements "Slept well"
              (putElement "modalContent" (createElement "p") initial_app)))) H2 H3).
Defined.

(** X23 for a click in the dark theme, on the example page with the
    theme button. *)
Lemma themeToggle_click_alternates_witness :
  let p := ({| data_theme := Some "dark"; stored_theme := Some "dark" |},
            putElement "themeToggle" (createElement "button") initial_app) in
  is_Some (getElementById "themeToggle" (snd p)) /\
  data_theme (fst (themeToggle_click p)) = Some "light" /\
  toggle_label (snd (themeToggle_click p)) =
    Some (if bool_decide (data_theme (fst (themeToggle_click p)) = Some "light")
          then "Dark Mode" else "Light Mode") /\
  fst (themeToggle_click (themeToggle_click (themeToggle_click p))) =
    fst (themeToggle_click p).
Proof.
  cbv zeta.
  assert (H1 : is_Some (getElementById "themeToggle"
                          (snd ({| data_theme := Some "dark"; stored_theme := Some "dark" |},
                                putElement "themeToggle" (createElement "button")
                                  initial_app))))
    by (eexists; reflexivity).
  split; [exact H1|]. split; [reflexivity|].
  destruct (themeToggle_click_alternates
              ({| data_theme := Some "dark"; stored_theme := Some "dark" |},
               putElement "themeToggle" (createElement "button") initial_app))
    as (_ & _ & _ & _ & Ha & _ & Hb & _).
  split; [exact (Ha H1) | exact Hb].
Defined.

(** X25 on the example bar: the second button, which the markup marks
    active, stays as it is. *)
Lemma setupNavigation_marks_first_witness :
  (0 < 1)%nat /\
  navButtons (setupNavigation example_nav) !! 1%nat = navButtons example_nav !! 1%nat /\
  length (navButtons (setupNavigation example_nav)) = length (navButtons example_nav).
Proof.
  assert (H1 : (0 < 1)%nat) by lia.
  split; [exact H1|].
  destruct (setupNavigation_marks_first example_nav) as (Ha & _ & _ & Hb).
  split; [exact (Hb 1%nat H1) | exact Ha].
Defined.
